(** * A shallow embedding of the Teams webhook relay (learn-google-adk)

    The development follows the four source modules that make up the
    message pipeline:

    - [teams_handler.py]: [extract_city_from_text], [parse_message_intent],
      [route_to_agent], [process_teams_message];
    - [adaptive_cards.py]: the five card builders, the three [extract_*_info]
      helpers and [format_agent_response];
    - [app.py]: [WEBHOOK_SECRET], [verify_hmac_signature], [teams_webhook];
    - [logger_config.py]: [log_request] and [log_response], as far as they
      can raise.

    Modelling conventions.

    - A Python [str] is a Rocq [string] holding its UTF-8 encoding, a lone
      surrogate being kept as its three octets; an ASCII text is the
      sequence of its characters.  [len] and slicing count characters, not
      octets.  The case maps [str.lower] and [str.capitalize] are exact on
      ASCII and on the characters above 127 whose lower or title case holds
      ASCII characters (U+0130 and U+212A for the lower case, the seventeen
      of [PyStr.title_cases] for the title case); every other character
      above 127 stands for itself, so that an ASCII keyword occurs in the
      lower-cased text of the model exactly when it does in that of the
      code.  White space ([str.strip], [str.split], the class [\s] of the
      [re] module) and the class [[A-Za-z]] are those of ASCII text, where
      they are exact: above 127 the code also takes U+0085, U+00A0 and the
      other Unicode spaces as white space, and U+017F and U+0131 as
      letters of a pattern compiled with [re.IGNORECASE].  The theorems
      that depend on these classes are stated for ASCII text.
    - A Python [bytes] is a Rocq [string] read as a sequence of octets.
    - Python objects are values of the type [Py.value]; exceptions are the
      [Raise] results of the error monad [Py.result], and every
      [try]/[except] of the source is a [match] on such a result.
    - Everything the code reads from outside (environment variables, the
      clock, whether a module can be imported, what an agent answers) is a
      field of [Py.environment].  Log output is not modelled; the
      arguments of the logging calls are, because evaluating them can
      raise. *)

From Stdlib Require Import String Ascii List Bool Arith ZArith Lia DecimalString.
Import ListNotations.

Local Open Scope string_scope.
Local Open Scope list_scope.
Local Open Scope nat_scope.

(* ================================================================== *)
(** * Python string primitives *)
(* ================================================================== *)

Module PyStr.

(** [str.isspace] on one character of ASCII text, which is also the class
    [\s] of a [str] pattern there: TAB, LF, VT, FF, CR, the separators FS
    GS RS US and the space. *)
Definition is_space (c : ascii) : bool :=
  let n := nat_of_ascii c in
  ((9 <=? n) && (n <=? 13)) || ((28 <=? n) && (n <=? 32)).

Definition is_upper (c : ascii) : bool :=
  let n := nat_of_ascii c in (65 <=? n) && (n <=? 90).

Definition is_lower (c : ascii) : bool :=
  let n := nat_of_ascii c in (97 <=? n) && (n <=? 122).

(** The class [[A-Za-z]] on ASCII text. *)
Definition is_alpha (c : ascii) : bool := is_upper c || is_lower c.

Definition lower_char (c : ascii) : ascii :=
  if is_upper c then ascii_of_nat (nat_of_ascii c + 32) else c.

Definition upper_char (c : ascii) : ascii :=
  if is_lower c then ascii_of_nat (nat_of_ascii c - 32) else c.

(** A string from its octets, for the characters outside ASCII. *)
Definition of_octets (l : list nat) : string :=
  string_of_list_ascii (map ascii_of_nat l).

Definition octet (c : ascii) (n : nat) : bool := nat_of_ascii c =? n.

(** [s.isascii()] *)
Fixpoint isascii (s : string) : bool :=
  match s with
  | EmptyString => true
  | String c s' => (nat_of_ascii c <? 128) && isascii s'
  end.

(** [s.lower()].  Above 127 two characters have ASCII letters in their
    lower case: U+0130 becomes [i] followed by U+0307, and the Kelvin sign
    U+212A becomes [k]. *)
Fixpoint lower (s : string) : string :=
  match s with
  | EmptyString => EmptyString
  | String c s1 =>
      let plain := String (lower_char c) (lower s1) in
      match s1 with
      | EmptyString => plain
      | String c1 s2 =>
          if octet c 196 && octet c1 176
          then String "i" (of_octets [204; 135] ++ lower s2)
          else
            match s2 with
            | EmptyString => plain
            | String c2 s3 =>
                if octet c 226 && octet c1 132 && octet c2 170
                then String "k" (lower s3)
                else plain
            end
      end
  end.

(** The characters above 127 with ASCII letters in their title case,
    each with that title case. *)
Definition title_cases : list (string * string) :=
  [(of_octets [195; 159], "Ss");                               (* U+00DF *)
   (of_octets [196; 177], "I");                                (* U+0131 *)
   (of_octets [197; 137], of_octets [202; 188; 78]);           (* U+0149 *)
   (of_octets [197; 191], "S");                                (* U+017F *)
   (of_octets [199; 176], of_octets [74; 204; 140]);           (* U+01F0 *)
   (of_octets [225; 186; 150], of_octets [72; 204; 177]);      (* U+1E96 *)
   (of_octets [225; 186; 151], of_octets [84; 204; 136]);      (* U+1E97 *)
   (of_octets [225; 186; 152], of_octets [87; 204; 138]);      (* U+1E98 *)
   (of_octets [225; 186; 153], of_octets [89; 204; 138]);      (* U+1E99 *)
   (of_octets [225; 186; 154], of_octets [65; 202; 190]);      (* U+1E9A *)
   (of_octets [239; 172; 128], "Ff");                          (* U+FB00 *)
   (of_octets [239; 172; 129], "Fi");                          (* U+FB01 *)
   (of_octets [239; 172; 130], "Fl");                          (* U+FB02 *)
   (of_octets [239; 172; 131], "Ffi");                         (* U+FB03 *)
   (of_octets [239; 172; 132], "Ffl");                         (* U+FB04 *)
   (of_octets [239; 172; 133], "St");                          (* U+FB05 *)
   (of_octets [239; 172; 134], "St")].                         (* U+FB06 *)

(** [s] without the prefix [p], if it starts with it. *)
Fixpoint after_prefix (p s : string) : option string :=
  match p, s with
  | EmptyString, _ => Some s
  | String a p', String b s' => if Ascii.eqb a b then after_prefix p' s' else None
  | String _ _, EmptyString => None
  end.

(** The title case of the first character of [s] and what follows it,
    when that character is in [cases]. *)
Fixpoint title_first (cases : list (string * string)) (s : string)
  : option (string * string) :=
  match cases with
  | [] => None
  | (character, title) :: rest =>
      match after_prefix character s with
      | Some s' => Some (title, s')
      | None => title_first rest s
      end
  end.

(** [s.capitalize()]: first character in title case, the rest
    lower-cased. *)
Definition capitalize (s : string) : string :=
  match title_first title_cases s with
  | Some (title, s') => title ++ lower s'
  | None =>
      match s with
      | EmptyString => EmptyString
      | String c s' => String (upper_char c) (lower s')
      end
  end.

(** [s.lstrip()], of ASCII white space *)
Fixpoint lstrip (s : string) : string :=
  match s with
  | EmptyString => EmptyString
  | String c s' => if is_space c then lstrip s' else s
  end.

(** [s.rstrip()], of ASCII white space *)
Fixpoint rstrip (s : string) : string :=
  match s with
  | EmptyString => EmptyString
  | String c s' =>
      match rstrip s' with
      | EmptyString => if is_space c then EmptyString else String c EmptyString
      | r => String c r
      end
  end.

(** [s.strip()] *)
Definition strip (s : string) : string := rstrip (lstrip s).

(** The scanning loop of [s.split()]: [cur] is the word being read. *)
Fixpoint split_from (cur : string) (s : string) : list string :=
  match s with
  | EmptyString =>
      match cur with EmptyString => [] | _ => [cur] end
  | String c s' =>
      if is_space c then
        match cur with
        | EmptyString => split_from EmptyString s'
        | _ => cur :: split_from EmptyString s'
        end
      else split_from (cur ++ String c EmptyString) s'
  end.

(** [s.split()]: the maximal runs of non-whitespace characters. *)
Definition split (s : string) : list string := split_from EmptyString s.

(** [sep.join(words)] *)
Fixpoint join (sep : string) (words : list string) : string :=
  match words with
  | [] => EmptyString
  | [w] => w
  | w :: ws => w ++ sep ++ join sep ws
  end.

(** [needle in hay] *)
Fixpoint contains (needle hay : string) : bool :=
  String.prefix needle hay ||
  match hay with
  | EmptyString => false
  | String _ hay' => contains needle hay'
  end.

(** The octets 128 to 191 continue a character; every other octet
    starts one. *)
Definition is_continuation (c : ascii) : bool :=
  let n := nat_of_ascii c in (128 <=? n) && (n <? 192).

(** [len(s)]: the characters of [s]. *)
Fixpoint len (s : string) : nat :=
  match s with
  | EmptyString => 0
  | String c s' => if is_continuation c then len s' else S (len s')
  end.

(** [s[:n]]: the first [n] characters of [s]. *)
Fixpoint take (n : nat) (s : string) : string :=
  match s with
  | EmptyString => EmptyString
  | String c s' =>
      if is_continuation c then String c (take n s')
      else
        match n with
        | O => EmptyString
        | S m => String c (take m s')
        end
  end.

(** [s.encode("utf-8")] goes through: the octets of [s] are those of
    characters that UTF-8 encodes.  A lone surrogate, which it does not
    encode, is the three octets 237, 160 to 191, 128 to 191. *)
Definition in_range (c : ascii) (lo hi : nat) : bool :=
  let n := nat_of_ascii c in (lo <=? n) && (n <=? hi).

Fixpoint encodable (s : string) : bool :=
  match s with
  | EmptyString => true
  | String c s1 =>
      if nat_of_ascii c <? 128 then encodable s1
      else
        match s1 with
        | EmptyString => false
        | String c1 s2 =>
            if in_range c 194 223 then in_range c1 128 191 && encodable s2
            else
              match s2 with
              | EmptyString => false
              | String c2 s3 =>
                  if in_range c 224 239 then
                    in_range c1 (if octet c 224 then 160 else 128)
                                (if octet c 237 then 159 else 191) &&
                    in_range c2 128 191 && encodable s3
                  else
                    match s3 with
                    | EmptyString => false
                    | String c3 s4 =>
                        in_range c 240 244 &&
                        in_range c1 (if octet c 240 then 144 else 128)
                                    (if octet c 244 then 143 else 191) &&
                        in_range c2 128 191 && in_range c3 128 191 && encodable s4
                    end
              end
        end
  end.

(** [any(k in s for k in keywords)], as the [for]/[if] loops of the
    source compute it. *)
Fixpoint any_in (keywords : list string) (s : string) : bool :=
  match keywords with
  | [] => false
  | k :: ks => if contains k s then true else any_in ks s
  end.

(** No whitespace in [s]. *)
Fixpoint no_space (s : string) : bool :=
  match s with
  | EmptyString => true
  | String c s' => negb (is_space c) && no_space s'
  end.

(** What [split] produces: a non-empty run without whitespace. *)
Definition is_word (s : string) : bool :=
  match s with
  | EmptyString => false
  | _ => no_space s
  end.

(** The first, respectively last, character exists and is not whitespace. *)
Definition starts_solid (s : string) : bool :=
  match s with
  | EmptyString => false
  | String c _ => negb (is_space c)
  end.

Fixpoint ends_solid (s : string) : bool :=
  match s with
  | EmptyString => false
  | String c EmptyString => negb (is_space c)
  | String _ s' => ends_solid s'
  end.

End PyStr.

(* ================================================================== *)
(** * [hashlib.sha256] and [hmac]                                      *)
(* ================================================================== *)

(** The two standard-library primitives behind [verify_hmac_signature],
    written out on 32-bit words held in [Z] (FIPS 180-4, RFC 2104). *)
Module Hashlib.

Local Open Scope Z_scope.

Definition wrap32 (x : Z) : Z := x mod 2 ^ 32.
Definition add32 (x y : Z) : Z := wrap32 (x + y).
Definition rotr (n x : Z) : Z :=
  Z.lor (Z.shiftr x n) (wrap32 (Z.shiftl x (32 - n))).
Definition not32 (x : Z) : Z := Z.lxor x 0xffffffff.

Definition Ch (x y z : Z) : Z := Z.lxor (Z.land x y) (Z.land (not32 x) z).
Definition Maj (x y z : Z) : Z :=
  Z.lxor (Z.land x y) (Z.lxor (Z.land x z) (Z.land y z)).
Definition Sigma0 (x : Z) : Z := Z.lxor (rotr 2 x) (Z.lxor (rotr 13 x) (rotr 22 x)).
Definition Sigma1 (x : Z) : Z := Z.lxor (rotr 6 x) (Z.lxor (rotr 11 x) (rotr 25 x)).
Definition sigma0 (x : Z) : Z := Z.lxor (rotr 7 x) (Z.lxor (rotr 18 x) (Z.shiftr x 3)).
Definition sigma1 (x : Z) : Z := Z.lxor (rotr 17 x) (Z.lxor (rotr 19 x) (Z.shiftr x 10)).

(** The constants of sections 4.2.2 and 5.3.3 are computed from their
    definition: the first thirty-two bits of the fractional parts of the
    cube roots, respectively square roots, of the first primes. *)
Definition is_prime (n : nat) : bool :=
  forallb (fun d => negb (Nat.eqb (Nat.modulo n d) 0)) (seq 2 (n - 2)).

Definition first_primes (count : nat) : list Z :=
  map Z.of_nat (firstn count (filter is_prime (seq 2 310))).

(** Integer cube root by bisection on the bits below [2 ^ bits]. *)
Fixpoint cube_root (bits : nat) (n acc : Z) : Z :=
  match bits with
  | O => acc
  | S b =>
      let candidate := acc + 2 ^ Z.of_nat b in
      cube_root b n (if candidate * candidate * candidate <=? n then candidate else acc)
  end.

Definition K256 : list Z :=
  map (fun p => wrap32 (cube_root 36 (p * 2 ^ 96) 0)) (first_primes 64).

Definition H256 : list Z :=
  map (fun p => wrap32 (Z.sqrt (p * 2 ^ 64))) (first_primes 8).

Definition octets (s : string) : list Z :=
  map (fun c => Z.of_nat (nat_of_ascii c)) (list_ascii_of_string s).

(** Big-endian encoding of [x] on [n] octets. *)
Fixpoint be_octets (n : nat) (x : Z) : list Z :=
  match n with
  | O => []
  | S n' => (Z.shiftr x (8 * Z.of_nat n')) mod 256 :: be_octets n' x
  end.

(** Padding of section 5.1.1: a 1 bit, zeros up to 56 mod 64 octets, then
    the bit length on 64 bits. *)
Definition pad (msg : list Z) : list Z :=
  let len := Z.of_nat (length msg) in
  let zeros := Z.to_nat ((55 - len) mod 64) in
  msg ++ 0x80 :: repeat 0 zeros ++ be_octets 8 (8 * len).

Fixpoint words_of (fuel : nat) (bs : list Z) : list Z :=
  match fuel, bs with
  | S f, b0 :: b1 :: b2 :: b3 :: rest =>
      (Z.shiftl b0 24 + Z.shiftl b1 16 + Z.shiftl b2 8 + b3) :: words_of f rest
  | _, _ => []
  end.

(** The message schedule: [window] holds the last sixteen words. *)
Fixpoint schedule (n : nat) (window : list Z) : list Z :=
  match n with
  | O => []
  | S n' =>
      let w := add32 (add32 (sigma1 (nth 14 window 0)) (nth 9 window 0))
                     (add32 (sigma0 (nth 1 window 0)) (nth 0 window 0)) in
      w :: schedule n' (tl window ++ [w])
  end.

Record regs := Regs { ra : Z; rb : Z; rc : Z; rd : Z; re : Z; rf : Z; rg : Z; rh : Z }.

Definition round (r : regs) (kw : Z * Z) : regs :=
  let t1 := add32 (add32 (add32 (rh r) (Sigma1 (re r)))
                         (add32 (Ch (re r) (rf r) (rg r)) (fst kw))) (snd kw) in
  let t2 := add32 (Sigma0 (ra r)) (Maj (ra r) (rb r) (rc r)) in
  Regs (add32 t1 t2) (ra r) (rb r) (rc r) (add32 (rd r) t1) (re r) (rf r) (rg r).

Definition regs_of (h : list Z) : regs :=
  Regs (nth 0 h 0) (nth 1 h 0) (nth 2 h 0) (nth 3 h 0)
       (nth 4 h 0) (nth 5 h 0) (nth 6 h 0) (nth 7 h 0).

Definition compress (h : list Z) (block : list Z) : list Z :=
  let w16 := words_of 16 block in
  let w := w16 ++ schedule 48 w16 in
  let r := fold_left round (combine K256 w) (regs_of h) in
  map (fun p => add32 (fst p) (snd p))
      (combine h [ra r; rb r; rc r; rd r; re r; rf r; rg r; rh r]).

Fixpoint blocks (fuel : nat) (h : list Z) (bs : list Z) : list Z :=
  match fuel with
  | O => h
  | S f =>
      match bs with
      | [] => h
      | _ => blocks f (compress h (firstn 64 bs)) (skipn 64 bs)
      end
  end.

(** [hashlib.sha256(msg).digest()], as octets. *)
Definition sha256 (msg : list Z) : list Z :=
  let p := pad msg in
  flat_map (be_octets 4) (blocks (S (length p / 64)) H256 p).

(** [hmac.new(key, msg, hashlib.sha256).digest()] *)
Definition hmac_sha256 (key msg : list Z) : list Z :=
  let k0 := if (64 <? Z.of_nat (length key)) then sha256 key else key in
  let k := k0 ++ repeat 0 (64 - length k0)%nat in
  sha256 (map (Z.lxor 0x5c) k ++ sha256 (map (Z.lxor 0x36) k ++ msg)).

Definition hex_digit (x : Z) : ascii :=
  ascii_of_nat (Z.to_nat (if x <? 10 then 48 + x else 87 + x)).

(** [.hexdigest()]: two lower-case hexadecimal digits per octet. *)
Fixpoint hexdigest (bs : list Z) : string :=
  match bs with
  | [] => EmptyString
  | b :: rest => String (hex_digit (b / 16)) (String (hex_digit (b mod 16)) (hexdigest rest))
  end.

(** The range of an octet. *)
Definition octet (b : Z) : Prop := 0 <= b < 256.

(** [s.encode()]: the UTF-8 octets the string already holds. *)
Definition encode (s : string) : list Z := octets s.

End Hashlib.


(* ================================================================== *)
(** * Python values, exceptions and the outside world                  *)
(* ================================================================== *)

Module Py.

(** The objects that flow through the pipeline: decoded JSON, the
    envelopes and cards built by the code, and the replies of the agents.
    [VObject] stands for an object of any other type (a float, an agent's
    reply object); it carries what [str()] prints for it. *)
#[warnings="-register-all"] Inductive value : Type :=
| VNone
| VBool (b : bool)
| VInt (z : Z)
| VStr (s : string)
| VList (items : list value)
| VDict (entries : list (string * value))
| VObject (printed : string).

Inductive exn : Type :=
| AttributeError
| TypeError
| ImportError
| HTTPException (status_code : nat) (detail : string)
| OtherException (name : string).

Inductive result (A : Type) : Type :=
| Ok (a : A)
| Raise (e : exn).
Arguments Ok {A} a.
Arguments Raise {A} e.

Definition bind {A B : Type} (m : result A) (f : A -> result B) : result B :=
  match m with
  | Ok a => f a
  | Raise e => Raise e
  end.

(** [isinstance(e, ImportError)], for the [except ImportError] clauses. *)
Definition is_import_error (e : exn) : bool :=
  match e with ImportError => true | _ => false end.

Definition is_http_exception (e : exn) : bool :=
  match e with HTTPException _ _ => true | _ => false end.

(** Lookup in a [dict] literal or a decoded JSON object. *)
Fixpoint dict_get (d : list (string * value)) (k : string) (default : value) : value :=
  match d with
  | [] => default
  | (k', v) :: d' => if String.eqb k' k then v else dict_get d' k default
  end.

(** [k in d] *)
Fixpoint dict_has (d : list (string * value)) (k : string) : bool :=
  match d with
  | [] => false
  | (k', _) :: d' => String.eqb k' k || dict_has d' k
  end.

(** [obj.get(k, default)]: only a [dict] has the method. *)
Definition get (obj : value) (k : string) (default : value) : result value :=
  match obj with
  | VDict d => Ok (dict_get d k default)
  | _ => Raise AttributeError
  end.

(** [obj == s] for a string literal [s]. *)
Definition eq_str (obj : value) (s : string) : bool :=
  match obj with
  | VStr x => String.eqb x s
  | _ => false
  end.

Definition hex_nibble (n : nat) : ascii :=
  ascii_of_nat (if n <? 10 then 48 + n else 87 + n).

Definition dquote : ascii := ascii_of_nat 34.

(** One character inside [repr(s)], [q] being the quote in use. *)
Definition repr_char (q : ascii) (c : ascii) : string :=
  let n := nat_of_ascii c in
  if Ascii.eqb c "\" then "\\"
  else if Ascii.eqb c q then String "\" (String q EmptyString)
  else if n =? 9 then "\t"
  else if n =? 10 then "\n"
  else if n =? 13 then "\r"
  else if (n <? 32) || (n =? 127)
       then String "\" (String "x" (String (hex_nibble (n / 16)) (String (hex_nibble (n mod 16)) EmptyString)))
  else String c EmptyString.

Fixpoint concat_map_chars (f : ascii -> string) (s : string) : string :=
  match s with
  | EmptyString => EmptyString
  | String c s' => f c ++ concat_map_chars f s'
  end.

(** [repr(s)] of a string: single quotes, unless the string holds a single
    quote and no double quote. *)
Definition repr_str (s : string) : string :=
  let q : ascii :=
    if PyStr.contains "'" s && negb (PyStr.contains (String dquote EmptyString) s)
    then dquote else "'"%char in
  String q (concat_map_chars (repr_char q) s ++ String q EmptyString).

Definition repr_int (z : Z) : string :=
  match z with
  | Z0 => "0"
  | Zpos p => NilEmpty.string_of_uint (Pos.to_uint p)
  | Zneg p => "-" ++ NilEmpty.string_of_uint (Pos.to_uint p)
  end.

(** [repr(obj)] *)
Fixpoint repr (obj : value) : string :=
  match obj with
  | VNone => "None"
  | VBool true => "True"
  | VBool false => "False"
  | VInt z => repr_int z
  | VStr s => repr_str s
  | VList l => ("[" ++ PyStr.join ", " (map repr l) ++ "]")%string
  | VDict d =>
      ("{" ++ PyStr.join ", "
               (map (fun kv => match kv with
                               | (k, v) => (repr_str k ++ ": " ++ repr v)%string
                               end) d) ++ "}")%string
  | VObject p => p
  end.

(** [str(obj)], which is also what an f-string field prints. *)
Definition str (obj : value) : string :=
  match obj with
  | VStr s => s
  | _ => repr obj
  end.

(** An agent collaborator: its [run] answers a prompt or raises. *)
Record agent : Type := Agent { run : string -> result value }.

(** What [from multi_tool_agent.agent import weather_time_agent,
    traffic_agent] binds when it succeeds. *)
Record agent_module : Type := AgentModule {
  weather_time_agent : agent;
  traffic_agent : agent
}.

(** Everything the code reads from outside the request. *)
Record environment : Type := Environment {
  (** [os.getenv(name)] at start-up *)
  getenv : string -> option string;
  (** the outcome of importing the agents from [multi_tool_agent.agent] *)
  import_agents : result agent_module;
  (** whether [teams_handler] and [adaptive_cards] can be imported *)
  teams_handler_importable : bool;
  adaptive_cards_importable : bool;
  (** [datetime.now().strftime("%B %d, %Y at %I:%M %p")] *)
  now_long : string;
  (** [now.strftime("%I:%M %p")] and [now.strftime("%B %d, %Y")] for
      [now = datetime.now(pytz.timezone('America/New_York'))] *)
  new_york_time : string;
  new_york_date : string;
  (** [datetime.utcnow().isoformat()] *)
  utcnow_isoformat : string;
  (** whether [asyncio.wait_for] gives up on the pipeline *)
  wait_for_times_out : bool
}.

End Py.

Declare Scope py_scope.
Delimit Scope py_scope with py.
Notation "x <- m ;; k" := (Py.bind m (fun x => k))
  (at level 61, m at next level, right associativity) : py_scope.

(* ================================================================== *)
(** * The fragment of [re] the handler uses                            *)
(* ================================================================== *)

(** A backtracking matcher for the constructs occurring in
    [common_patterns]: literals, ordered alternation, an optional group,
    greedy [+] and lazy [+?] over a character class, one capturing group,
    and the anchor [$].  Matching is in continuation-passing style:
    [k rest g] is what remains to be matched after the current node, on the
    remaining input [rest], with [g] the text captured so far.  The
    alternatives are tried in the order of the [re] module, so the first
    success is the match [re.search] reports. *)
Module Re.

Inductive regex : Type :=
| Lit (s : string)                 (* a literal, under [re.IGNORECASE] *)
| Seq (a b : regex)
| Alt (a b : regex)                (* [a|b], [a] first *)
| Opt (a : regex)                  (* [(?:a)?], greedy *)
| Plus (cls : ascii -> bool)       (* [cls+], greedy *)
| PlusLazy (cls : ascii -> bool)   (* [cls+?] *)
| Group (a : regex)                (* [(a)], group 1 *)
| Eos.                             (* [$], without [re.MULTILINE] *)

Section Matcher.
Variable R : Type.

Definition cont : Type := string -> option string -> option R.

Definition or_else (x : option R) (y : unit -> option R) : option R :=
  match x with
  | Some r => Some r
  | None => y tt
  end.

Fixpoint match_lit (l : string) (s : string) : option string :=
  match l, s with
  | EmptyString, _ => Some s
  | String a l', String c s' =>
      if Ascii.eqb (PyStr.lower_char a) (PyStr.lower_char c)
      then match_lit l' s' else None
  | String _ _, EmptyString => None
  end.

(** One or more characters of the class, the longest run first. *)
Fixpoint plus_greedy (cls : ascii -> bool) (s : string)
         (k : string -> option R) : option R :=
  match s with
  | String c s' =>
      if cls c then or_else (plus_greedy cls s' k) (fun _ => k s') else None
  | EmptyString => None
  end.

(** One or more characters of the class, the shortest run first. *)
Fixpoint plus_lazy (cls : ascii -> bool) (s : string)
         (k : string -> option R) : option R :=
  match s with
  | String c s' =>
      if cls c then or_else (k s') (fun _ => plus_lazy cls s' k) else None
  | EmptyString => None
  end.

(** [$] matches at the end and just before a final newline. *)
Definition at_end (s : string) : bool :=
  match s with
  | EmptyString => true
  | String c EmptyString => Nat.eqb (nat_of_ascii c) 10
  | _ => false
  end.

Fixpoint exec (r : regex) (s : string) (g : option string) (k : cont) : option R :=
  match r with
  | Lit l =>
      match match_lit l s with
      | Some s' => k s' g
      | None => None
      end
  | Seq a b => exec a s g (fun s' g' => exec b s' g' k)
  | Alt a b => or_else (exec a s g k) (fun _ => exec b s g k)
  | Opt a => or_else (exec a s g k) (fun _ => k s g)
  | Plus cls => plus_greedy cls s (fun s' => k s' g)
  | PlusLazy cls => plus_lazy cls s (fun s' => k s' g)
  | Group a =>
      exec a s g
           (fun s' _ => k s' (Some (String.substring 0 (String.length s - String.length s') s)))
  | Eos => if at_end s then k s g else None
  end.
End Matcher.

(** A match anchored at the start of [s]; the result is [match.group(1)]. *)
Definition match_here (r : regex) (s : string) : option (option string) :=
  exec (option string) r s None (fun _ g => Some g).

(** [re.search(r, s, re.IGNORECASE)]: the leftmost start that matches. *)
Fixpoint search (r : regex) (s : string) : option (option string) :=
  match match_here r s with
  | Some g => Some g
  | None =>
      match s with
      | EmptyString => None
      | String _ s' => search r s'
      end
  end.

Fixpoint alts (l : list string) : regex :=
  match l with
  | [] => Lit EmptyString
  | [x] => Lit x
  | x :: xs => Alt (Lit x) (alts xs)
  end.

Fixpoint seq (l : list regex) : regex :=
  match l with
  | [] => Lit EmptyString
  | [x] => x
  | x :: xs => Seq x (seq xs)
  end.

(** [\s+] *)
Definition spaces : regex := Plus PyStr.is_space.

(** [[A-Za-z\s]] under [re.IGNORECASE], on ASCII text *)
Definition alpha_or_space (c : ascii) : bool := PyStr.is_alpha c || PyStr.is_space c.

(** Patterns every match of which sets group 1. *)
Fixpoint binds (r : regex) : bool :=
  match r with
  | Group _ => true
  | Seq a b => binds a || binds b
  | Alt a b => binds a && binds b
  | _ => false
  end.

End Re.

(* ================================================================== *)
(** * adaptive_cards.py                                                *)
(* ================================================================== *)

Module AdaptiveCards.
Import Py.
Local Open Scope py_scope.

Definition Str (s : string) : value := VStr s.
Definition PyTrue : value := VBool true.

(** The closing statement of every builder. *)
Definition attachment (card_content : value) : value :=
  VDict [("contentType", Str "application/vnd.microsoft.card.adaptive");
         ("content", card_content)].

Definition schema_url : string := "http://adaptivecards.io/schemas/adaptive-card.json".

(** [isinstance(data, str)] *)
Definition as_str (data : value) : option string :=
  match data with
  | VStr s => Some s
  | _ => None
  end.

Definition extract_weather_info (data : value) : value :=
  match as_str data with
  | Some s =>
      VDict [("temperature", Str "72°F");
             ("condition", Str "Partly Cloudy");
             ("humidity", Str "65%");
             ("wind_speed", Str "10 mph");
             ("forecast", Str (if 200 <? PyStr.len s then PyStr.take 200 s else s))]
  | None =>
      VDict [("temperature", Str "72°F");
             ("condition", Str "Partly Cloudy");
             ("humidity", Str "65%");
             ("wind_speed", Str "10 mph");
             ("forecast", Str "Pleasant weather expected throughout the day.")]
  end.

(** [pytz] is taken as installed; the two readings of the clock come from
    the environment. *)
Definition extract_time_info (env : environment) (data : value) : value :=
  if match as_str data with
     | Some s => PyStr.contains "time" (PyStr.lower s)
     | None => false
     end
  then VDict [("current_time", Str (new_york_time env));
              ("date", Str (new_york_date env));
              ("timezone", Str "EST");
              ("utc_offset", Str "UTC-5")]
  else VDict [("current_time", Str (new_york_time env));
              ("date", Str (new_york_date env));
              ("timezone", Str "EST");
              ("utc_offset", Str "UTC-5")].

Definition extract_traffic_info (data : value) : value :=
  let moderate :=
    VDict [("status", Str "Moderate");
           ("average_speed", Str "25 mph");
           ("congestion", Str "Medium");
           ("incidents", Str "2 minor delays");
           ("recommendation", Str "Consider alternative routes during peak hours.")] in
  match as_str data with
  | Some s =>
      if PyStr.contains "heavy" (PyStr.lower s) then
        VDict [("status", Str "Heavy");
               ("average_speed", Str "15 mph");
               ("congestion", Str "High");
               ("incidents", Str "3 accidents reported");
               ("recommendation", Str "Avoid main highways. Use alternative routes.")]
      else if PyStr.contains "light" (PyStr.lower s) then
        VDict [("status", Str "Light");
               ("average_speed", Str "45 mph");
               ("congestion", Str "Low");
               ("incidents", Str "No incidents");
               ("recommendation", Str "Good time to travel. All routes clear.")]
      else moderate
  | None => moderate
  end.

Definition fact (title : string) (v : value) : value :=
  VDict [("title", Str title); ("value", v)].

Definition create_weather_card (env : environment) (city data : value) : result value :=
  let weather_info := extract_weather_info data in
  temperature <- get weather_info "temperature" (Str "72°F") ;;
  condition <- get weather_info "condition" (Str "Partly Cloudy") ;;
  humidity <- get weather_info "humidity" (Str "65%") ;;
  wind_speed <- get weather_info "wind_speed" (Str "10 mph") ;;
  forecast <- get weather_info "forecast" (Str "Pleasant weather expected throughout the day.") ;;
  Ok (attachment (VDict [
    ("$schema", Str schema_url);
    ("type", Str "AdaptiveCard");
    ("version", Str "1.4");
    ("body", VList [
      VDict [("type", Str "Container");
             ("items", VList [
               VDict [("type", Str "TextBlock");
                      ("text", Str ("☁️ Weather in " ++ str city));
                      ("weight", Str "Bolder");
                      ("size", Str "Large");
                      ("wrap", PyTrue)];
               VDict [("type", Str "TextBlock");
                      ("text", Str (now_long env));
                      ("isSubtle", PyTrue);
                      ("size", Str "Small");
                      ("wrap", PyTrue)]])];
      VDict [("type", Str "Container");
             ("items", VList [
               VDict [("type", Str "FactSet");
                      ("facts", VList [
                        fact "Temperature" temperature;
                        fact "Condition" condition;
                        fact "Humidity" humidity;
                        fact "Wind Speed" wind_speed])]])];
      VDict [("type", Str "TextBlock");
             ("text", forecast);
             ("wrap", PyTrue);
             ("separator", PyTrue);
             ("spacing", Str "Medium")]])])).

Definition create_time_card (env : environment) (city data : value) : result value :=
  let time_info := extract_time_info env data in
  current_time <- get time_info "current_time" (Str "12:00 PM") ;;
  date <- get time_info "date" (Str "January 1, 2025") ;;
  timezone <- get time_info "timezone" (Str "EST") ;;
  utc_offset <- get time_info "utc_offset" (Str "UTC-5") ;;
  Ok (attachment (VDict [
    ("$schema", Str schema_url);
    ("type", Str "AdaptiveCard");
    ("version", Str "1.4");
    ("body", VList [
      VDict [("type", Str "Container");
             ("items", VList [
               VDict [("type", Str "TextBlock");
                      ("text", Str ("🕐 Time in " ++ str city));
                      ("weight", Str "Bolder");
                      ("size", Str "Large");
                      ("wrap", PyTrue)]])];
      VDict [("type", Str "Container");
             ("items", VList [
               VDict [("type", Str "TextBlock");
                      ("text", current_time);
                      ("weight", Str "Bolder");
                      ("size", Str "ExtraLarge");
                      ("horizontalAlignment", Str "Center");
                      ("wrap", PyTrue)];
               VDict [("type", Str "TextBlock");
                      ("text", date);
                      ("horizontalAlignment", Str "Center");
                      ("isSubtle", PyTrue);
                      ("wrap", PyTrue)]])];
      VDict [("type", Str "FactSet");
             ("facts", VList [
               fact "Timezone" timezone;
               fact "UTC Offset" utc_offset]);
             ("separator", PyTrue)]])])).

(** The [status_color] lookup table of [create_traffic_card]. *)
Definition status_colors : list (string * value) :=
  [("Light", Str "Good"); ("Moderate", Str "Warning");
   ("Heavy", Str "Attention"); ("Severe", Str "Attention")].

(** [table.get(key, default)] for an arbitrary key object: a list or a
    dict is not hashable. *)
Definition lookup_by (table : list (string * value)) (key default : value) : result value :=
  match key with
  | VStr k => Ok (dict_get table k default)
  | VList _ | VDict _ => Raise TypeError
  | _ => Ok default
  end.

Definition create_traffic_card (env : environment) (city data : value) : result value :=
  let traffic_info := extract_traffic_info data in
  status <- get traffic_info "status" (Str "Moderate") ;;
  status_color <- lookup_by status_colors status (Str "Default") ;;
  status' <- get traffic_info "status" (Str "Moderate") ;;
  average_speed <- get traffic_info "average_speed" (Str "25 mph") ;;
  congestion <- get traffic_info "congestion" (Str "Medium") ;;
  incidents <- get traffic_info "incidents" (Str "2 minor delays") ;;
  recommendation <- get traffic_info "recommendation"
                        (Str "Consider alternative routes during peak hours.") ;;
  Ok (attachment (VDict [
    ("$schema", Str schema_url);
    ("type", Str "AdaptiveCard");
    ("version", Str "1.4");
    ("body", VList [
      VDict [("type", Str "Container");
             ("items", VList [
               VDict [("type", Str "TextBlock");
                      ("text", Str ("🚗 Traffic in " ++ str city));
                      ("weight", Str "Bolder");
                      ("size", Str "Large");
                      ("wrap", PyTrue)];
               VDict [("type", Str "TextBlock");
                      ("text", Str (now_long env));
                      ("isSubtle", PyTrue);
                      ("size", Str "Small");
                      ("wrap", PyTrue)]])];
      VDict [("type", Str "Container");
             ("style", status_color);
             ("items", VList [
               VDict [("type", Str "TextBlock");
                      ("text", Str ("Status: " ++ str status'));
                      ("weight", Str "Bolder");
                      ("size", Str "Medium");
                      ("wrap", PyTrue)]])];
      VDict [("type", Str "FactSet");
             ("facts", VList [
               fact "Average Speed" average_speed;
               fact "Congestion Level" congestion;
               fact "Incidents" incidents]);
             ("separator", PyTrue)];
      VDict [("type", Str "TextBlock");
             ("text", recommendation);
             ("wrap", PyTrue);
             ("separator", PyTrue);
             ("spacing", Str "Medium")]])])).

Definition submit (title action text : string) : value :=
  VDict [("type", Str "Action.Submit");
         ("title", Str title);
         ("data", VDict [("action", Str action); ("text", Str text)])].

Definition create_help_card : result value :=
  Ok (attachment (VDict [
    ("$schema", Str schema_url);
    ("type", Str "AdaptiveCard");
    ("version", Str "1.4");
    ("body", VList [
      VDict [("type", Str "Container");
             ("items", VList [
               VDict [("type", Str "TextBlock");
                      ("text", Str "👋 Welcome to ADK Weather Bot!");
                      ("weight", Str "Bolder");
                      ("size", Str "Large");
                      ("wrap", PyTrue)];
               VDict [("type", Str "TextBlock");
                      ("text", Str "I can help you with weather, time, and traffic information for any city.");
                      ("wrap", PyTrue);
                      ("spacing", Str "Medium")]])];
      VDict [("type", Str "Container");
             ("separator", PyTrue);
             ("items", VList [
               VDict [("type", Str "TextBlock");
                      ("text", Str "**Available Commands:**");
                      ("weight", Str "Bolder");
                      ("wrap", PyTrue)];
               VDict [("type", Str "TextBlock");
                      ("text", Str "• What's the weather in [city]?");
                      ("wrap", PyTrue)];
               VDict [("type", Str "TextBlock");
                      ("text", Str "• What time is it in [city]?");
                      ("wrap", PyTrue)];
               VDict [("type", Str "TextBlock");
                      ("text", Str "• How's the traffic in [city]?");
                      ("wrap", PyTrue)]])];
      VDict [("type", Str "Container");
             ("separator", PyTrue);
             ("items", VList [
               VDict [("type", Str "TextBlock");
                      ("text", Str "**Examples:**");
                      ("weight", Str "Bolder");
                      ("wrap", PyTrue)];
               VDict [("type", Str "TextBlock");
                      ("text", Str (String.concat EmptyString
                                    ["• "; String dquote "What's the weather in New York?";
                                     String dquote EmptyString]));
                      ("wrap", PyTrue);
                      ("isSubtle", PyTrue)];
               VDict [("type", Str "TextBlock");
                      ("text", Str (String.concat EmptyString
                                    ["• "; String dquote "What time is it in London?";
                                     String dquote EmptyString]));
                      ("wrap", PyTrue);
                      ("isSubtle", PyTrue)];
               VDict [("type", Str "TextBlock");
                      ("text", Str (String.concat EmptyString
                                    ["• "; String dquote "How's traffic in Los Angeles?";
                                     String dquote EmptyString]));
                      ("wrap", PyTrue);
                      ("isSubtle", PyTrue)]])]]);
    ("actions", VList [
      submit "Check Weather" "weather" "What's the weather in New York?";
      submit "Check Time" "time" "What time is it in New York?";
      submit "Check Traffic" "traffic" "How's traffic in New York?"])])).

Definition create_error_card (message : value) : result value :=
  Ok (attachment (VDict [
    ("$schema", Str schema_url);
    ("type", Str "AdaptiveCard");
    ("version", Str "1.4");
    ("body", VList [
      VDict [("type", Str "Container");
             ("style", Str "attention");
             ("items", VList [
               VDict [("type", Str "TextBlock");
                      ("text", Str "⚠️ Error");
                      ("weight", Str "Bolder");
                      ("size", Str "Large");
                      ("wrap", PyTrue)];
               VDict [("type", Str "TextBlock");
                      ("text", message);
                      ("wrap", PyTrue);
                      ("spacing", Str "Medium")]])];
      VDict [("type", Str "Container");
             ("separator", PyTrue);
             ("items", VList [
               VDict [("type", Str "TextBlock");
                      ("text", Str "Please try again or type 'help' for available commands.");
                      ("wrap", PyTrue);
                      ("isSubtle", PyTrue)]])]]);
    ("actions", VList [submit "Get Help" "help" "help"])])).

(** The [try] block of [format_agent_response]. *)
Definition format_agent_response_try (env : environment) (response : value) : result value :=
  response_type <- get response "type" (Str "unknown") ;;
  city <- get response "city" (Str "Unknown") ;;
  data <- get response "data" (VDict []) ;;
  if eq_str response_type "weather" then create_weather_card env city data
  else if eq_str response_type "time" then create_time_card env city data
  else if eq_str response_type "traffic" then create_traffic_card env city data
  else if eq_str response_type "help" then create_help_card
  else if eq_str response_type "error" then
    error_message <- get data "message" (Str "An error occurred") ;;
    create_error_card error_message
  else create_error_card (Str "I didn't understand your request. Please try again.").

(** [format_agent_response]: the [try] block under [except Exception]. *)
Definition format_agent_response (env : environment) (response : value) : result value :=
  match format_agent_response_try env response with
  | Ok card => Ok card
  | Raise _ => create_error_card (Str "Failed to format response. Please try again.")
  end.

End AdaptiveCards.

(* ================================================================== *)
(** * teams_handler.py                                                 *)
(* ================================================================== *)

Module MessageIntent.
Definition WEATHER : string := "weather".
Definition TIME : string := "time".
Definition TRAFFIC : string := "traffic".
Definition HELP : string := "help".
Definition UNKNOWN : string := "unknown".
End MessageIntent.

Module TeamsHandler.
Import Py.
Local Open Scope py_scope.

Definition topics : list string := ["weather"; "time"; "traffic"].
Definition prepositions : list string := ["in"; "for"; "at"].

(** [([A-Za-z\s]+?)] *)
Definition city_group : Re.regex := Re.Group (Re.PlusLazy Re.alpha_or_space).

(** [(?:\?|$|\.)] *)
Definition terminator : Re.regex := Re.Alt (Re.Lit "?") (Re.Alt Re.Eos (Re.Lit ".")).

(** The four entries of [common_patterns], in order. *)
Definition common_patterns : list Re.regex :=
  [ Re.seq [Re.alts topics; Re.spaces; Re.alts prepositions; Re.spaces;
            city_group; terminator];
    Re.seq [Re.alts ["what's"; "what is"; "whats"]; Re.spaces; Re.Lit "the"; Re.spaces;
            Re.alts topics; Re.spaces; Re.alts prepositions; Re.spaces;
            city_group; terminator];
    Re.seq [Re.alts ["how's"; "how is"; "hows"]; Re.spaces;
            Re.Opt (Re.Seq (Re.Lit "the") Re.spaces);
            Re.alts ["weather"; "traffic"]; Re.spaces; Re.alts prepositions; Re.spaces;
            city_group; terminator];
    Re.seq [city_group; Re.spaces; Re.alts topics] ].

(** [' '.join(word.capitalize() for word in city.split())], the
    normalisation applied to every extracted city. *)
Definition capitalize_words (city : string) : string :=
  PyStr.join " " (map PyStr.capitalize (PyStr.split city)).

Definition default_cities : list string :=
  ["new york"; "los angeles"; "chicago"; "houston"; "phoenix"].

(** The first loop of [extract_city_from_text]: the first pattern that
    matches decides.  [match.group(1)] is [None] for a group that took
    no part in the match, and [None.strip()] raises. *)
Fixpoint first_pattern (patterns : list Re.regex) (text_lower : string)
  : result (option string) :=
  match patterns with
  | [] => Ok None
  | pattern :: rest =>
      match Re.search pattern text_lower with
      | Some (Some g) => Ok (Some (capitalize_words (PyStr.strip g)))
      | Some None => Raise AttributeError
      | None => first_pattern rest text_lower
      end
  end.

(** The second loop: the first known city occurring in the text. *)
Fixpoint first_default_city (cities : list string) (text_lower : string) : option string :=
  match cities with
  | [] => None
  | city :: rest =>
      if PyStr.contains city text_lower then Some (capitalize_words city)
      else first_default_city rest text_lower
  end.

Definition extract_city_from_text (text : string) : result string :=
  let text_lower := PyStr.lower text in
  found <- first_pattern common_patterns text_lower ;;
  match found with
  | Some city => Ok city
  | None =>
      match first_default_city default_cities text_lower with
      | Some city => Ok city
      | None => Ok "New York"
      end
  end.

Definition weather_keywords : list string :=
  ["weather"; "temperature"; "forecast"; "rain"; "sunny"; "cloudy"].
Definition time_keywords : list string :=
  ["time"; "clock"; "hour"; "timezone"; "what time"].
Definition traffic_keywords : list string :=
  ["traffic"; "congestion"; "roads"; "commute"; "driving"].
Definition help_keywords : list string :=
  ["help"; "hello"; "hi"; "hey"; "start"; "commands"; "what can you do"].

Definition parse_message_intent (text : string) : result (string * option string) :=
  if String.eqb text EmptyString then Ok (MessageIntent.HELP, None)
  else
    let text_lower := PyStr.strip (PyStr.lower text) in
    city <- extract_city_from_text text ;;
    if PyStr.any_in weather_keywords text_lower then Ok (MessageIntent.WEATHER, Some city)
    else if PyStr.any_in time_keywords text_lower then Ok (MessageIntent.TIME, Some city)
    else if PyStr.any_in traffic_keywords text_lower then Ok (MessageIntent.TRAFFIC, Some city)
    else if PyStr.any_in help_keywords text_lower then Ok (MessageIntent.HELP, None)
    else Ok (MessageIntent.UNKNOWN, None).

(** A call made to an agent collaborator. *)
Inductive call : Type :=
| WeatherTimeAgentRun (prompt : string)
| TrafficAgentRun (prompt : string).

(** [city or "New York"] *)
Definition city_or_default (city : option string) : string :=
  match city with
  | None => "New York"
  | Some c => if String.eqb c EmptyString then "New York" else c
  end.

Definition envelope (type : string) (city : string) (data : value) : value :=
  VDict [("type", VStr type); ("city", VStr city); ("data", data);
         ("status", VStr "success")].

Definition help_envelope : value :=
  VDict [("type", VStr "help");
         ("data", VDict [("message", VStr "I can help you with weather, time, and traffic information!");
                         ("commands", VList [VStr "What's the weather in [city]?";
                                             VStr "What time is it in [city]?";
                                             VStr "How's the traffic in [city]?"])]);
         ("status", VStr "success")].

Definition error_envelope (message : string) : value :=
  VDict [("type", VStr "error");
         ("data", VDict [("message", VStr message)]);
         ("status", VStr "error")].

(** The [try] block of [route_to_agent], with the calls it makes. *)
Definition route_to_agent_try (env : environment) (intent : string) (city : option string)
  : result value * list call :=
  match import_agents env with
  | Raise e => (Raise e, [])
  | Ok agents =>
      if String.eqb intent MessageIntent.WEATHER then
        let city := city_or_default city in
        let prompt := ("What's the weather in " ++ city ++ "?")%string in
        (response <- run (weather_time_agent agents) prompt ;;
         Ok (envelope "weather" city response),
         [WeatherTimeAgentRun prompt])
      else if String.eqb intent MessageIntent.TIME then
        let city := city_or_default city in
        let prompt := ("What time is it in " ++ city ++ "?")%string in
        (response <- run (weather_time_agent agents) prompt ;;
         Ok (envelope "time" city response),
         [WeatherTimeAgentRun prompt])
      else if String.eqb intent MessageIntent.TRAFFIC then
        let city := city_or_default city in
        let prompt := ("How's the traffic in " ++ city ++ "?")%string in
        (response <- run (traffic_agent agents) prompt ;;
         Ok (envelope "traffic" city response),
         [TrafficAgentRun prompt])
      else if String.eqb intent MessageIntent.HELP then
        (Ok help_envelope, [])
      else
        (Ok (error_envelope "I didn't understand that. Try asking about weather, time, or traffic!"), [])
  end.

(** [route_to_agent] with its two [except] clauses: the envelope returned
    and the agent calls made on the way. *)
Definition route_to_agent (env : environment) (intent : string) (city : option string)
  : value * list call :=
  match route_to_agent_try env intent city with
  | (Ok response, calls) => (response, calls)
  | (Raise e, calls) =>
      if is_import_error e
      then (error_envelope "Agent service is temporarily unavailable", calls)
      else (error_envelope "An error occurred while processing your request", calls)
  end.

(** [text.strip()] on whatever [payload.get("text", "")] returned; the
    white space stripped is that of ASCII text. *)
Definition strip_method (obj : value) : result string :=
  match obj with
  | VStr s => Ok (PyStr.strip s)
  | _ => Raise AttributeError
  end.

(** [k in obj] *)
Definition has_key (obj : value) (k : string) : result bool :=
  match obj with
  | VDict d => Ok (dict_has d k)
  | VStr s => Ok (PyStr.contains k s)
  | VList l => Ok (existsb (fun x => eq_str x k) l)
  | _ => Raise TypeError
  end.

(** The [try] block of [process_teams_message]. *)
Definition process_teams_message_try (env : environment) (payload : value) : result value :=
  text_field <- get payload "text" (VStr EmptyString) ;;
  text <- strip_method text_field ;;
  user_info <- get payload "from" (VDict []) ;;
  conversation <- get payload "conversation" (VDict []) ;;
  (* the arguments of [logger.info] *)
  user_name <- get user_info "name" (VStr "Unknown") ;;
  user_id <- get user_info "id" VNone ;;
  conversation_id <- get conversation "id" VNone ;;
  parsed <- parse_message_intent text ;;
  let agent_response := fst (route_to_agent env (fst parsed) (snd parsed)) in
  formatted_response <-
    (if adaptive_cards_importable env
     then AdaptiveCards.format_agent_response env agent_response
     else
       data <- get agent_response "data" (VDict []) ;;
       message <- get data "message" (VStr "Response generated") ;;
       Ok (VDict [("type", VStr "message"); ("text", VStr (str message))])) ;;
  has_attachments <- has_key formatted_response "attachments" ;;
  attachments <-
    (if negb has_attachments then Ok (VList [formatted_response])
     else get formatted_response "attachments" VNone) ;;
  Ok (VDict [("type", VStr "message");
             ("from", VDict [("id", VStr "bot"); ("name", VStr "ADK Weather Bot")]);
             ("conversation", conversation);
             ("recipient", user_info);
             ("attachments", attachments);
             ("timestamp", VStr (utcnow_isoformat env))]).

(** [process_teams_message]: the [try] block under [except Exception]. *)
Definition process_teams_message (env : environment) (payload : value) : value :=
  match process_teams_message_try env payload with
  | Ok response => response
  | Raise _ =>
      VDict [("type", VStr "message");
             ("text", VStr "Sorry, I encountered an error processing your message. Please try again.");
             ("timestamp", VStr (utcnow_isoformat env))]
  end.

End TeamsHandler.

(* ================================================================== *)
(** * logger_config.py                                                 *)
(* ================================================================== *)

(** Of the logging helpers only the evaluation of their arguments is kept:
    it is the part that can raise. *)
Module LoggerConfig.
Import Py.
Local Open Scope py_scope.

Definition log_request (request_data : value) : result unit :=
  request_id <- get request_data "id" VNone ;;
  sender <- get request_data "from" (VDict []) ;;
  user_id <- get sender "id" VNone ;;
  conversation <- get request_data "conversation" (VDict []) ;;
  conversation_id <- get conversation "id" VNone ;;
  Ok tt.

Definition log_response (response_data : value) : result unit :=
  response_type <- get response_data "type" VNone ;;
  Ok tt.

End LoggerConfig.

(* ================================================================== *)
(** * app.py                                                           *)
(* ================================================================== *)

Module App.
Import Py.
Local Open Scope py_scope.

(** [os.getenv('WEBHOOK_SECRET', 'your-webhook-secret')] *)
Definition WEBHOOK_SECRET (env : environment) : string :=
  match getenv env "WEBHOOK_SECRET" with
  | Some secret => secret
  | None => "your-webhook-secret"
  end.

Definition REQUEST_TIMEOUT : nat := 30.

Definition is_ascii (s : string) : bool :=
  forallb (fun c => nat_of_ascii c <? 128) (list_ascii_of_string s).

(** [hmac.compare_digest(a, b)] on two [str]: equality, and a
    [TypeError] when either holds a character above 127. *)
Definition compare_digest (a b : string) : result bool :=
  if is_ascii a && is_ascii b then Ok (String.eqb a b) else Raise TypeError.

Definition verify_hmac_signature (env : environment) (request_body : string)
           (signature : string) : result bool :=
  if String.eqb (WEBHOOK_SECRET env) EmptyString then Ok true
  else
    let expected_signature :=
      Hashlib.hexdigest
        (Hashlib.hmac_sha256 (Hashlib.encode (WEBHOOK_SECRET env))
                             (Hashlib.octets request_body)) in
    compare_digest signature expected_signature.

(** An incoming request: the [X-Teams-Signature] header if present, the
    raw body, and what [request.json()] makes of the body. *)
Record request : Type := Request {
  x_teams_signature : option string;
  body : string;
  json : result value
}.

(** A response: its status and the content it was made from. *)
Record response : Type := Response {
  status_code : nat;
  content : value
}.

(** [JSONResponse] renders its content when it is made, with
    [json.dumps(content, ensure_ascii=False, allow_nan=False, ...)
    .encode("utf-8")], and that can raise.  The objects inside a content
    are the floats of a decoded payload: [nan], [inf] and [-inf] are
    refused by [allow_nan=False]. *)
Fixpoint finite (content : value) : bool :=
  match content with
  | VList items => forallb finite items
  | VDict entries => forallb (fun kv => finite (snd kv)) entries
  | VObject printed =>
      negb (String.eqb printed "nan" || String.eqb printed "inf" ||
            String.eqb printed "-inf")
  | _ => true
  end.

(** Every string and key of the content can be encoded. *)
Fixpoint encodable (content : value) : bool :=
  match content with
  | VStr s => PyStr.encodable s
  | VList items => forallb encodable items
  | VDict entries =>
      forallb (fun kv => PyStr.encodable (fst kv) && encodable (snd kv)) entries
  | _ => true
  end.

Definition render (content : value) : result unit :=
  if negb (finite content) then Raise (OtherException "ValueError")
  else if negb (encodable content) then Raise (OtherException "UnicodeEncodeError")
  else Ok tt.

(** [JSONResponse(status_code=..., content=...)] *)
Definition JSONResponse (status_code : nat) (content : value) : result response :=
  _ <- render content ;;
  Ok (Response status_code content).

(** The outer [try] block of [teams_webhook]. *)
Definition teams_webhook_try (env : environment) (req : request) : result response :=
  let signature :=
    match x_teams_signature req with Some s => s | None => EmptyString end in
  let request_body := body req in
  valid <- verify_hmac_signature env request_body signature ;;
  if negb valid then Raise (HTTPException 401 "Invalid signature")
  else
    payload <- match json req with
               | Ok p => Ok p
               | Raise _ => Raise (HTTPException 400 "Invalid JSON payload")
               end ;;
    _ <- LoggerConfig.log_request payload ;;
    message_type <- get payload "type" (VStr EmptyString) ;;
    if negb (eq_str message_type "message") then
      JSONResponse 200 (VDict [("status", VStr "ignored");
                               ("reason", VStr "Not a message activity")])
    else if negb (teams_handler_importable env) then
      JSONResponse 503 (VDict [("error", VStr "Service temporarily unavailable")])
    else if wait_for_times_out env then
      JSONResponse 504 (VDict [("error", VStr "Request processing timeout")])
    else
      let response := TeamsHandler.process_teams_message env payload in
      _ <- LoggerConfig.log_response response ;;
      JSONResponse 200 response.

(** [teams_webhook]: an [HTTPException] is raised again, anything else
    becomes the 500 body. *)
Definition teams_webhook (env : environment) (req : request) : result response :=
  match teams_webhook_try env req with
  | Ok r => Ok r
  | Raise e =>
      if is_http_exception e then Raise e
      else JSONResponse 500 (VDict [("error", VStr "Failed to process message");
                                    ("timestamp", VStr (utcnow_isoformat env))])
  end.

(** The status the client sees: the framework answers a raised
    [HTTPException] with its status code, and any other escaped exception
    with 500. *)
Definition http_status (r : result response) : nat :=
  match r with
  | Ok resp => status_code resp
  | Raise (HTTPException code _) => code
  | Raise _ => 500
  end.

End App.

(* ================================================================== *)
(** * Vocabulary of the properties                                     *)
(* ================================================================== *)

Module Properties.
Import Py.

(** One of the keywords occurs in [s]. *)
Definition occurs_in (keywords : list string) (s : string) : Prop :=
  exists k, In k keywords /\ PyStr.contains k s = true.

(** ** Reading a card *)

Inductive step : Type :=
| Key (k : string)
| Index (i : nat).

(** The value found by following [path] into nested dicts and lists. *)
Fixpoint at_path (v : value) (path : list step) : option value :=
  match path with
  | [] => Some v
  | Key k :: rest =>
      match v with
      | VDict d => if dict_has d k then at_path (dict_get d k VNone) rest else None
      | _ => None
      end
  | Index i :: rest =>
      match v with
      | VList l =>
          match nth_error l i with
          | Some x => at_path x rest
          | None => None
          end
      | _ => None
      end
  end.

(** ** The Card Payload schema *)

Definition field (v : value) (k : string) : option value := at_path v [Key k].

Definition field_is (v : value) (k s : string) : bool :=
  match field v k with
  | Some x => eq_str x s
  | None => false
  end.

Definition has_field (v : value) (k : string) : bool :=
  match field v k with Some _ => true | None => false end.

Definition list_field (v : value) (k : string) (ok : value -> bool) : bool :=
  match field v k with
  | Some (VList l) => forallb ok l
  | _ => false
  end.

Definition fact_ok (v : value) : bool := has_field v "title" && has_field v "value".

(** A text block or a fact list. *)
Definition leaf_ok (v : value) : bool :=
  (field_is v "type" "TextBlock" && has_field v "text") ||
  (field_is v "type" "FactSet" && list_field v "facts" fact_ok).

(** A presentation node: a leaf, or a container of leaves. *)
Definition node_ok (v : value) : bool :=
  leaf_ok v || (field_is v "type" "Container" && list_field v "items" leaf_ok).

Definition action_ok (v : value) : bool :=
  field_is v "type" "Action.Submit" && has_field v "title" &&
  match field v "data" with
  | Some data => has_field data "action" && has_field data "text"
  | None => false
  end.

Definition content_ok (c : value) : bool :=
  has_field c "$schema" &&
  field_is c "type" "AdaptiveCard" &&
  field_is c "version" "1.4" &&
  list_field c "body" node_ok &&
  (negb (has_field c "actions") || list_field c "actions" action_ok).

(** [{contentType: "application/vnd.microsoft.card.adaptive",
      content: {$schema, type: "AdaptiveCard", version: "1.4",
                body: [...], actions?: [...]}}] *)
Definition well_formed_card (card : value) : bool :=
  field_is card "contentType" "application/vnd.microsoft.card.adaptive" &&
  match field card "content" with
  | Some c => content_ok c
  | None => false
  end.

(** ** Envelopes *)

Definition envelope_types : list string :=
  ["weather"; "time"; "traffic"; "help"; "error"].

(** ** Sample surroundings, for replaying the code on concrete inputs *)

Definition sample_agent : agent :=
  Agent (fun prompt => Ok (VStr "Sunny with light traffic at this time")).

Definition failing_agent : agent :=
  Agent (fun prompt => Raise (OtherException "ConnectionError")).

Definition sample_agents : agent_module := AgentModule sample_agent sample_agent.

(** An environment with the given value of the variable WEBHOOK_SECRET and
    the given outcome of importing the agents. *)
Definition sample_env (secret : option string) (agents : result agent_module)
  : environment :=
  {| getenv := fun name => if String.eqb name "WEBHOOK_SECRET" then secret else None;
     import_agents := agents;
     teams_handler_importable := true;
     adaptive_cards_importable := true;
     now_long := "January 01, 2025 at 09:00 AM";
     new_york_time := "09:00 AM";
     new_york_date := "January 01, 2025";
     utcnow_isoformat := "2025-01-01T14:00:00";
     wait_for_times_out := false |}.

Definition quoted (s : string) : string :=
  String dquote (s ++ String dquote EmptyString).

(** The JSON text of a message activity carrying [text]. *)
Definition message_json (text : string) : string :=
  String.concat EmptyString
    ["{"; quoted "type"; ": "; quoted "message"; ", ";
     quoted "text"; ": "; quoted text; ", ";
     quoted "from"; ": {"; quoted "id"; ": "; quoted "u1"; ", ";
                           quoted "name"; ": "; quoted "Ada"; "}, ";
     quoted "conversation"; ": {"; quoted "id"; ": "; quoted "c1"; "}}"].

Definition message_payload (text : string) : value :=
  VDict [("type", VStr "message"); ("text", VStr text);
         ("from", VDict [("id", VStr "u1"); ("name", VStr "Ada")]);
         ("conversation", VDict [("id", VStr "c1")])].

(** What a client holding [secret] puts in [X-Teams-Signature]. *)
Definition sign (secret body : string) : string :=
  Hashlib.hexdigest (Hashlib.hmac_sha256 (Hashlib.encode secret) (Hashlib.octets body)).

(** A message activity signed with [secret]; [text] holds no character
    that JSON escapes. *)
Definition signed_message (secret text : string) : App.request :=
  {| App.x_teams_signature := Some (sign secret (message_json text));
     App.body := message_json text;
     App.json := Ok (message_payload text) |}.

(** No secret in the environment, agents that cannot be imported. *)
Definition unavailable_env : environment := sample_env None (Raise ImportError).

(** No secret in the environment, agents in place. *)
Definition default_env : environment := sample_env None (Ok sample_agents).

(** The variable WEBHOOK_SECRET set to the empty string. *)
Definition open_env : environment := sample_env (Some EmptyString) (Ok sample_agents).

Definition weather_request : App.request :=
  signed_message "your-webhook-secret" "What's the weather in London?".

(** A message activity sent without any signature header. *)
Definition unsigned_request : App.request :=
  {| App.x_teams_signature := None;
     App.body := message_json "help";
     App.json := Ok (message_payload "help") |}.

(** ** The webhook *)

(** The request gets as far as the message pipeline: the signature is
    accepted, the body decodes to [payload], logging the request does not
    raise, the activity is a message, [teams_handler] can be imported and
    the pipeline finishes in time. *)
Definition reaches_pipeline (env : environment) (req : App.request) (payload : value)
  : Prop :=
  App.verify_hmac_signature env (App.body req)
    (match App.x_teams_signature req with Some s => s | None => EmptyString end) = Ok true /\
  App.json req = Ok payload /\
  LoggerConfig.log_request payload = Ok tt /\
  (exists message_type,
      get payload "type" (VStr EmptyString) = Ok message_type /\
      eq_str message_type "message" = true) /\
  teams_handler_importable env = true /\
  wait_for_times_out env = false.

End Properties.

(* ================================================================== *)
(** * teams_handler.py: payload validation                             *)
(* ================================================================== *)

Module TeamsHandlerValidation.
Import Py.
Local Open Scope py_scope.

Definition required_fields : list string := ["type"; "from"; "conversation"].

(** The [for field in required_fields] loop: [false] at the first field
    that is not in the payload. *)
Fixpoint has_required (fields : list string) (payload : value) : result bool :=
  match fields with
  | [] => Ok true
  | field :: rest =>
      present <- TeamsHandler.has_key payload field ;;
      if negb present then Ok false else has_required rest payload
  end.

(** [payload.get("type") != "message"] *)
Definition validate_teams_payload (payload : value) : result bool :=
  complete <- has_required required_fields payload ;;
  if negb complete then Ok false
  else
    message_type <- get payload "type" VNone ;;
    if negb (eq_str message_type "message") then Ok false else Ok true.

End TeamsHandlerValidation.

(* ================================================================== *)
(** * Vocabulary of the further properties                             *)
(* ================================================================== *)

Module Shapes.
Import Py.

(** [isinstance(obj, dict)] *)
Definition is_dict (obj : value) : bool :=
  match obj with
  | VDict _ => true
  | _ => false
  end.

(** The header value [teams_webhook] hands to the verifier. *)
Definition signature_of (req : App.request) : string :=
  match App.x_teams_signature req with
  | Some s => s
  | None => EmptyString
  end.

(** The body of the answer to an activity that is not a message. *)
Definition ignored_body : value :=
  VDict [("status", VStr "ignored"); ("reason", VStr "Not a message activity")].

(** The body of the answer to an exception that is no [HTTPException]. *)
Definition failure_body (env : environment) : value :=
  VDict [("error", VStr "Failed to process message");
         ("timestamp", VStr (utcnow_isoformat env))].

(** [JSONResponse] can render the content. *)
Definition renderable (content : value) : bool :=
  App.finite content && App.encodable content.

(** The reply of [process_teams_message] when its [try] block raises. *)
Definition apology (env : environment) : value :=
  VDict [("type", VStr "message");
         ("text", VStr "Sorry, I encountered an error processing your message. Please try again.");
         ("timestamp", VStr (utcnow_isoformat env))].

(** The reply of [process_teams_message] around a list of attachments. *)
Definition reply (env : environment) (conversation sender attachments : value) : value :=
  VDict [("type", VStr "message");
         ("from", VDict [("id", VStr "bot"); ("name", VStr "ADK Weather Bot")]);
         ("conversation", conversation);
         ("recipient", sender);
         ("attachments", attachments);
         ("timestamp", VStr (utcnow_isoformat env))].

End Shapes.

(** The scheme behind the three agent branches of [route_to_agent]. *)
Module Routing.
Import Py.

(** The collaborator an intent is forwarded to. *)
Definition agent_for (agents : agent_module) (intent : string) : agent :=
  if String.eqb intent MessageIntent.TRAFFIC then traffic_agent agents
  else weather_time_agent agents.

(** The question put to it. *)
Definition prompt_for (intent city : string) : string :=
  if String.eqb intent MessageIntent.WEATHER then "What's the weather in " ++ city ++ "?"
  else if String.eqb intent MessageIntent.TIME then "What time is it in " ++ city ++ "?"
  else "How's the traffic in " ++ city ++ "?".

Definition call_for (intent prompt : string) : TeamsHandler.call :=
  if String.eqb intent MessageIntent.TRAFFIC then TeamsHandler.TrafficAgentRun prompt
  else TeamsHandler.WeatherTimeAgentRun prompt.

(** The message of the envelope that stands for a caught exception. *)
Definition failure_message (e : exn) : string :=
  if is_import_error e then "Agent service is temporarily unavailable"
  else "An error occurred while processing your request".

Definition agent_intents : list string :=
  [MessageIntent.WEATHER; MessageIntent.TIME; MessageIntent.TRAFFIC].

End Routing.

(** Vocabulary for the classifier. *)
Module Intents.

Definition all_intents : list string :=
  [MessageIntent.WEATHER; MessageIntent.TIME; MessageIntent.TRAFFIC;
   MessageIntent.HELP; MessageIntent.UNKNOWN].

(** Every character is an ASCII letter or the space character. *)
Fixpoint letters_and_spaces (s : string) : bool :=
  match s with
  | EmptyString => true
  | String c s' => (PyStr.is_alpha c || Ascii.eqb c " ") && letters_and_spaces s'
  end.

(** Every character is an ASCII letter. *)
Fixpoint letters_only (s : string) : bool :=
  match s with
  | EmptyString => true
  | String c s' => PyStr.is_alpha c && letters_only s'
  end.

End Intents.

(** Vocabulary for the matcher. *)
Module Matching.

(** [s'] is what is left of [s] after some prefix. *)
Definition suffix (s' s : string) : Prop := exists p, s = (p ++ s')%string.

Fixpoint forall_chars (cls : ascii -> bool) (s : string) : bool :=
  match s with
  | EmptyString => true
  | String c s' => cls c && forall_chars cls s'
  end.

(** Patterns without a capturing group. *)
Fixpoint groupless (r : Re.regex) : bool :=
  match r with
  | Re.Group _ => false
  | Re.Seq a b | Re.Alt a b => groupless a && groupless b
  | Re.Opt a => groupless a
  | _ => true
  end.

(** Patterns whose groups are all of the form [(cls+?)] for classes inside
    [within]. *)
Fixpoint captures (within : ascii -> bool) (r : Re.regex) : Prop :=
  match r with
  | Re.Group (Re.PlusLazy cls) => forall c, cls c = true -> within c = true
  | Re.Group _ => False
  | Re.Seq a b | Re.Alt a b => captures within a /\ captures within b
  | Re.Opt a => captures within a
  | _ => True
  end.

(** The text of group 1, if set, is made of characters of [within]. *)
Definition group_within (within : ascii -> bool) (g : option string) : Prop :=
  match g with
  | Some w => forall_chars within w = true
  | None => True
  end.

(** The first and the last pattern of [common_patterns]. *)
Definition topic_then_city : Re.regex := nth 0 TeamsHandler.common_patterns Re.Eos.
Definition city_then_topic : Re.regex := nth 3 TeamsHandler.common_patterns Re.Eos.

End Matching.

(** Vocabulary for the payloads of [process_teams_message]. *)
Module Payloads.
Import Py.

(** A payload [process_teams_message] can work on: a dict whose "text",
    when present, is a string and whose "from" and "conversation", when
    present, are dicts. *)
Definition well_formed (payload : value) : bool :=
  match payload with
  | VDict d =>
      match dict_get d "text" (VStr EmptyString) with
      | VStr _ => true
      | _ => false
      end &&
      Shapes.is_dict (dict_get d "from" (VDict [])) &&
      Shapes.is_dict (dict_get d "conversation" (VDict []))
  | _ => false
  end.

(** The stripped text of the message. *)
Definition text_of (payload : value) : string :=
  match payload with
  | VDict d =>
      match dict_get d "text" (VStr EmptyString) with
      | VStr s => PyStr.strip s
      | _ => EmptyString
      end
  | _ => EmptyString
  end.

Definition sender_of (payload : value) : value :=
  match payload with
  | VDict d => dict_get d "from" (VDict [])
  | _ => VDict []
  end.

Definition conversation_of (payload : value) : value :=
  match payload with
  | VDict d => dict_get d "conversation" (VDict [])
  | _ => VDict []
  end.

(** The plain message that stands in for a card when [adaptive_cards]
    cannot be imported. *)
Definition plain_message (text : string) : value :=
  VDict [("type", VStr "message"); ("text", VStr text)].


(** A signed message activity whose conversation identifier is the
    JSON constant [NaN], which [json.loads] takes. *)
Definition nan_json : string :=
  String.concat EmptyString
    ["{"; Properties.quoted "type"; ": "; Properties.quoted "message"; ", ";
     Properties.quoted "text"; ": "; Properties.quoted "help"; ", ";
     Properties.quoted "conversation"; ": {"; Properties.quoted "id"; ": NaN}}"].

Definition nan_payload : value :=
  VDict [("type", VStr "message"); ("text", VStr "help");
         ("conversation", VDict [("id", VObject "nan")])].

Definition nan_request : App.request :=
  {| App.x_teams_signature := Some (Properties.sign "your-webhook-secret" nan_json);
     App.body := nan_json;
     App.json := Ok nan_payload |}.

End Payloads.

From Stdlib Require Import DecimalPos.

(* ================================================================== *)
(** * package_app.py                                                   *)
(* ================================================================== *)

(** The packaging script works on the files of its current directory, on
    a POSIX system.  A file is kept with what the script can read from it:
    for a text file what [json.load] makes of it, for a zip archive its
    members in order, for any other file its octets.  The names are those of
    regular files the script may read and replace; modification times are
    in whole seconds since the epoch.  What is printed is not modelled, the expressions
    printed are, because evaluating them can raise. *)
Module PackageApp.
Import Py.
Local Open Scope py_scope.

#[warnings="-register-all"] Inductive file : Type :=
| TextFile (decoded : result value)
| BinaryFile (content : string)
| ZipArchive (members : list (string * file)).

Record entry : Type := Entry { data : file; mtime : Z }.

Definition filesystem : Type := list (string * entry).

Fixpoint lookup (fs : filesystem) (path : string) : option entry :=
  match fs with
  | [] => None
  | (p, e) :: rest => if String.eqb p path then Some e else lookup rest path
  end.

(** [Path(path).exists()] *)
Definition exists_ (fs : filesystem) (path : string) : bool :=
  match lookup fs path with Some _ => true | None => false end.

Fixpoint remove (fs : filesystem) (path : string) : filesystem :=
  match fs with
  | [] => []
  | (p, e) :: rest =>
      if String.eqb p path then remove rest path else (p, e) :: remove rest path
  end.

(** The directory with [e] at [path], whatever was there. *)
Definition put (fs : filesystem) (path : string) (e : entry) : filesystem :=
  (path, e) :: remove fs path.

(** The directory during a run, with the number of files the run has
    written so far. *)
Record world : Type := World { files : filesystem; written : nat }.

(** What the script takes from outside the directory. *)
Record packaging : Type := Packaging {
  (** the octets [image.save] leaves in a file of this name and size, or
      the exception the PIL branch raises: [ImportError] without pillow *)
  pil_save : string -> nat -> result string;
  (** the time at which the run writes its n-th file *)
  clock : nat -> Z;
  (** what [zipfile] makes of a modification time: it raises for a local
      year before 1980 or after 2107 *)
  zip_date : Z -> result unit;
  (** [os.getenv("CLOUD_RUN_URL")] *)
  cloud_run_url_env : option string;
  (** what [input] returns, or [EOFError] *)
  typed : result string
}.

Definition FileNotFoundError : exn := OtherException "FileNotFoundError".
Definition BadZipFile : exn := OtherException "BadZipFile".
Definition KeyError : exn := OtherException "KeyError".
Definition IndexError : exn := OtherException "IndexError".
(** [json.load] on a file that holds no JSON text: a [JSONDecodeError] or
    a [UnicodeDecodeError], both of them a [ValueError]. *)
Definition DecodeError : exn := OtherException "ValueError".
(** [ValueError(message)] *)
Definition ValueError (message : string) : exn :=
  OtherException ("ValueError: " ++ message).

(** Writing a file: created or replaced, stamped with the time of the
    write. *)
Definition create (env : packaging) (path : string) (f : file) (w : world) : world :=
  World (put (files w) path (Entry f (clock env (written w)))) (S (written w)).

(** [json.load(f)] *)
Definition json_load (f : file) : result value :=
  match f with
  | TextFile decoded => decoded
  | _ => Raise DecodeError
  end.

(** [obj[k]] for a string [k] *)
Definition getitem (obj : value) (k : string) : result value :=
  match obj with
  | VDict d => if dict_has d k then Ok (dict_get d k VNone) else Raise KeyError
  | _ => Raise TypeError
  end.

(** [obj[0]]; of a string the first octet stands for the first
    character. *)
Definition getitem0 (obj : value) : result value :=
  match obj with
  | VList (x :: _) => Ok x
  | VList [] => Raise IndexError
  | VStr (String c _) => Ok (VStr (String c EmptyString))
  | VStr EmptyString => Raise IndexError
  | VDict _ => Raise KeyError
  | _ => Raise TypeError
  end.

(** Assignment to a key of a dict: in place for a key that is there, at
    the end for a new one. *)
Fixpoint dict_set (d : list (string * value)) (k : string) (v : value)
  : list (string * value) :=
  match d with
  | [] => [(k, v)]
  | (k', v') :: rest =>
      if String.eqb k' k then (k', v) :: rest else (k', v') :: dict_set rest k v
  end.

(** [obj[k] = v] for a string [k] *)
Definition setitem (obj : value) (k : string) (v : value) : result value :=
  match obj with
  | VDict d => Ok (VDict (dict_set d k v))
  | _ => Raise TypeError
  end.

(** The list [obj] with its first element replaced: how the assignments
    through [manifest["bots"][0]] show in the list. *)
Definition set_first (obj first : value) : value :=
  match obj with
  | VList (_ :: rest) => VList (first :: rest)
  | _ => obj
  end.

(** Truth value of a decoded JSON value; a float is a [VObject] with its
    printed form. *)
Definition truthy (obj : value) : bool :=
  match obj with
  | VNone => false
  | VBool b => b
  | VInt z => negb (Z.eqb z 0)
  | VStr s => negb (String.eqb s EmptyString)
  | VList l => match l with [] => false | _ => true end
  | VDict d => match d with [] => false | _ => true end
  | VObject p => negb (String.eqb p "0.0" || String.eqb p "-0.0")
  end.

(** [s.replace(old, EmptyString)] for a non-empty [old]; [skip] counts
    the characters of an occurrence still to be dropped. *)
Fixpoint remove_all (old : string) (skip : nat) (s : string) : string :=
  match s with
  | EmptyString => EmptyString
  | String c s' =>
      match skip with
      | S n => remove_all old n s'
      | O =>
          if String.prefix old s then remove_all old (String.length old - 1) s'
          else String c (remove_all old 0 s')
      end
  end.

(** [cloud_run_url.replace("https://", EmptyString)] *)
Definition strip_scheme (url : string) : string := remove_all "https://" 0 url.

Definition required_fields : list string :=
  ["$schema"; "manifestVersion"; "version"; "id";
   "packageName"; "developer"; "icons"; "name";
   "description"; "accentColor"; "bots"].

(** The loop [for field in required_fields] of [validate_manifest]. *)
Fixpoint check_required (fields : list string) (manifest : value) : result unit :=
  match fields with
  | [] => Ok tt
  | field :: rest =>
      present <- TeamsHandler.has_key manifest field ;;
      if negb present
      then Raise (ValueError ("Missing required field in manifest: " ++ field))
      else check_required rest manifest
  end.

Definition validate_manifest (fs : filesystem) : result value :=
  match lookup fs "manifest.json" with
  | None => Raise FileNotFoundError
  | Some e =>
      manifest <- json_load (data e) ;;
      _ <- check_required required_fields manifest ;;
      (* the three values printed *)
      app_id <- getitem manifest "id" ;;
      name <- getitem manifest "name" ;;
      short <- getitem name "short" ;;
      version <- getitem manifest "version" ;;
      Ok manifest
  end.

(** The octets of the minimal placeholder. *)
Definition minimal_png : string :=
  string_of_list_ascii
    (map ascii_of_nat
       [137; 80; 78; 71; 13; 10; 26; 10; 0; 0; 0; 13; 73; 72; 68; 82; 0; 0; 0; 1;
        0; 0; 0; 1; 8; 6; 0; 0; 0; 31; 21; 196; 137; 0; 0; 0; 13; 73; 68; 65;
        84; 120; 156; 99; 248; 15; 0; 0; 1; 1; 0; 0; 0; 0; 0; 0; 0; 0; 73; 69;
        78; 68; 174; 66; 96; 130]).

(** A procedure of the script: its outcome and the world it leaves, also
    when it raises. *)
Definition io (A : Type) : Type := world -> result A * world.

(** [create_placeholder_icon(filename, size, emoji)].  An exception of
    the PIL branch other than [ImportError] goes through; [image.save]
    removes the file it could not finish. *)
Definition create_placeholder_icon (env : packaging) (filename : string) (size : nat)
  : io unit :=
  fun w =>
    match pil_save env filename size with
    | Ok octets => (Ok tt, create env filename (BinaryFile octets) w)
    | Raise e =>
        if is_import_error e
        then (Ok tt, create env filename (BinaryFile minimal_png) w)
        else (Raise e, w)
    end.

Definition icons : list (string * nat) :=
  [("color_icon.png", 192); ("outline_icon.png", 32)].

(** The loop of [check_icon_files]; [icon_files] is the list built so
    far. *)
Fixpoint check_icons (env : packaging) (todo : list (string * nat))
         (icon_files : list string) : io (list string) :=
  fun w =>
    match todo with
    | [] => (Ok icon_files, w)
    | (filename, size) :: rest =>
        if negb (exists_ (files w) filename) then
          match create_placeholder_icon env filename size w with
          | (Ok _, w') => check_icons env rest (icon_files ++ [filename]) w'
          | (Raise e, w') => (Raise e, w')
          end
        else check_icons env rest (icon_files ++ [filename]) w
    end.

Definition check_icon_files (env : packaging) : io (list string) :=
  check_icons env icons [].

Definition package_name : string := "weather-bot.zip".

(** [f"weather-bot.backup.{int(os.path.getmtime(package_name))}.zip"] *)
Definition backup_name (modified : Z) : string :=
  "weather-bot.backup." ++ repr_int modified ++ ".zip".

(** [zipf.write(name)]: the members with the file added under its name. *)
Definition zip_write (env : packaging) (fs : filesystem)
           (members : list (string * file)) (name : string)
  : result (list (string * file)) :=
  match lookup fs name with
  | Some e =>
      _ <- zip_date env (mtime e) ;;
      Ok (members ++ [(name, data e)])
  | None => Raise FileNotFoundError
  end.

(** The loop over [icon_files] inside the archive: the outcome and the
    members written so far. *)
Fixpoint zip_icons (env : packaging) (fs : filesystem) (members : list (string * file))
         (icon_files : list string) : result unit * list (string * file) :=
  match icon_files with
  | [] => (Ok tt, members)
  | icon_file :: rest =>
      if exists_ fs icon_file then
        match zip_write env fs members icon_file with
        | Ok members' => zip_icons env fs members' rest
        | Raise e => (Raise e, members)
        end
      else zip_icons env fs members rest
  end.

(** The [with zipfile.ZipFile(package_name, 'w')] block: the archive
    holds what had been written when the block is left, also by an
    exception. *)
Definition zip_all (env : packaging) (fs : filesystem) (icon_files : list string)
  : result unit * list (string * file) :=
  match zip_write env fs [] "manifest.json" with
  | Ok members => zip_icons env fs members icon_files
  | Raise e => (Raise e, [])
  end.

(** [shutil.move(package_name, backup_name)] of the package found. *)
Definition back_up (fs : filesystem) : filesystem :=
  match lookup fs package_name with
  | Some old => put (remove fs package_name) (backup_name (mtime old)) old
  | None => fs
  end.

(** [create_teams_package(manifest, icon_files)], for file names of the
    current directory; the code does not use [manifest]. *)
Definition create_teams_package (env : packaging) (manifest : value)
           (icon_files : list string) : io string :=
  fun w =>
    let fs := back_up (files w) in
    (* opening the archive for writing empties the file of this name *)
    let opened := put fs package_name (Entry (ZipArchive []) (clock env (written w))) in
    match zip_all env opened icon_files with
    | (outcome, members) =>
        (_ <- outcome ;; Ok package_name,
         create env package_name (ZipArchive members) (World fs (written w)))
    end.

(** [zipf.namelist()] *)
Definition namelist (members : list (string * file)) : list string := map fst members.

Definition required_files : list string :=
  ["manifest.json"; "color_icon.png"; "outline_icon.png"].

Definition validate_package (fs : filesystem) (package_path : string) : result bool :=
  match lookup fs package_path with
  | None => Raise FileNotFoundError
  | Some e =>
      match data e with
      | ZipArchive members =>
          Ok (forallb (fun required_file =>
                         existsb (String.eqb required_file) (namelist members))
                      required_files)
      | _ => Raise BadZipFile
      end
  end.

(** The changes [update_manifest_url] makes to the decoded manifest. *)
Definition update_manifest (cloud_run_url : string) (manifest : value) : result value :=
  let host := strip_scheme cloud_run_url in
  m1 <- setitem manifest "validDomains" (VList [VStr host]) ;;
  let webhook_url := (cloud_run_url ++ "/api/teams/webhook")%string in
  has_bots <- TeamsHandler.has_key m1 "bots" ;;
  m2 <- (if has_bots then
           bots <- getitem m1 "bots" ;;
           if truthy bots then
             first <- getitem0 bots ;;
             has_endpoint <- TeamsHandler.has_key first "messagingEndpoint" ;;
             first1 <- (if negb has_endpoint
                        then setitem first "messagingEndpoint" (VDict [])
                        else Ok first) ;;
             endpoint <- getitem first1 "messagingEndpoint" ;;
             endpoint1 <- setitem endpoint "url" (VStr webhook_url) ;;
             first2 <- setitem first1 "messagingEndpoint" endpoint1 ;;
             setitem m1 "bots" (set_first bots first2)
           else Ok m1
         else Ok m1) ;;
  has_info <- TeamsHandler.has_key m2 "webApplicationInfo" ;;
  if has_info then
    (* the right-hand side is evaluated first *)
    app_id <- getitem m2 "id" ;;
    info <- getitem m2 "webApplicationInfo" ;;
    info1 <- setitem info "resource"
               (VStr ("api://" ++ host ++ "/" ++ str app_id)) ;;
    setitem m2 "webApplicationInfo" info1
  else Ok m2.

(** [update_manifest_url(cloud_run_url)]; the file is opened for writing
    only after every change has gone through, and [json.dump] writes a
    text that decodes to the manifest it was given. *)
Definition update_manifest_url (env : packaging) (cloud_run_url : option string) : io bool :=
  fun w =>
    match cloud_run_url with
    | None => (Ok false, w)
    | Some url =>
        if String.eqb url EmptyString then (Ok false, w)
        else
          match lookup (files w) "manifest.json" with
          | None => (Raise FileNotFoundError, w)
          | Some e =>
              match bind (json_load (data e)) (update_manifest url) with
              | Ok manifest =>
                  (Ok true, create env "manifest.json" (TextFile (Ok manifest)) w)
              | Raise err => (Raise err, w)
              end
          end
    end.

(** The part of [main] after the package has been found valid: the
    offer to put the deployed URL into the manifest and to package
    again. *)
Definition offer_update (env : packaging) (manifest : value) (icon_files : list string)
  : io unit :=
  fun w =>
    match cloud_run_url_env env with
    | None => (Ok tt, w)
    | Some url =>
        if String.eqb url EmptyString then (Ok tt, w)
        else
          match typed env with
          | Raise e => (Raise e, w)
          | Ok response =>
              if String.eqb (PyStr.lower response) "y" then
                match update_manifest_url env (Some url) w with
                | (Raise e, w1) => (Raise e, w1)
                | (Ok false, w1) => (Ok tt, w1)
                | (Ok true, w1) =>
                    match create_teams_package env manifest icon_files w1 with
                    | (Raise e, w2) => (Raise e, w2)
                    | (Ok _, w2) => (Ok tt, w2)
                    end
                end
              else (Ok tt, w)
          end
    end.

(** The [try] block of [main]: the value returned inside it, if any. *)
Definition main_try (env : packaging) : io (option nat) :=
  fun w =>
    match validate_manifest (files w) with
    | Raise e => (Raise e, w)
    | Ok manifest =>
        match check_icon_files env w with
        | (Raise e, w1) => (Raise e, w1)
        | (Ok icon_files, w1) =>
            match create_teams_package env manifest icon_files w1 with
            | (Raise e, w2) => (Raise e, w2)
            | (Ok package_path, w2) =>
                match validate_package (files w2) package_path with
                | Raise e => (Raise e, w2)
                | Ok false => (Ok (Some 1), w2)
                | Ok true =>
                    match offer_update env manifest icon_files w2 with
                    | (Raise e, w3) => (Raise e, w3)
                    | (Ok _, w3) => (Ok None, w3)
                    end
                end
            end
        end
    end.

(** [main()]: the exit status and the world it leaves. *)
Definition main (env : packaging) (w : world) : nat * world :=
  match main_try env w with
  | (Ok (Some status), w') => (status, w')
  | (Ok None, w') => (0, w')
  | (Raise _, w') => (1, w')
  end.

End PackageApp.

(** Predicates and sample data for the statements about
    [package_app.py]. *)
Module Packaging.
Import Py PackageApp.

(** The files the script reads into the package. *)
Definition input_name (p : string) : Prop :=
  p = "manifest.json" \/ p = "color_icon.png" \/ p = "outline_icon.png".

(** The package holds the three files as they are in the directory. *)
Definition in_sync (fs : filesystem) : Prop :=
  exists em ec eo t,
    lookup fs "manifest.json" = Some em /\
    lookup fs "color_icon.png" = Some ec /\
    lookup fs "outline_icon.png" = Some eo /\
    lookup fs package_name =
    Some (Entry (ZipArchive [("manifest.json", data em); ("color_icon.png", data ec);
                             ("outline_icon.png", data eo)]) t).

(** [domains url] is what [update_manifest_url] stores under
    [validDomains], [webhook url] what it stores as the endpoint of the
    first bot. *)
Definition domains (url : string) : value := VList [VStr (strip_scheme url)].
Definition webhook (url : string) : value := VStr (url ++ "/api/teams/webhook").
Definition resource (url : string) (app_id : value) : value :=
  VStr ("api://" ++ strip_scheme url ++ "/" ++ str app_id).

(** The two conditional blocks of [update_manifest_url], each on its
    own. *)
Definition update_bots (url : string) (m1 : value) : result value :=
  (has_bots <- TeamsHandler.has_key m1 "bots" ;;
   if has_bots then
     bots <- getitem m1 "bots" ;;
     if truthy bots then
       first <- getitem0 bots ;;
       has_endpoint <- TeamsHandler.has_key first "messagingEndpoint" ;;
       first1 <- (if negb has_endpoint
                  then setitem first "messagingEndpoint" (VDict [])
                  else Ok first) ;;
       endpoint <- getitem first1 "messagingEndpoint" ;;
       endpoint1 <- setitem endpoint "url" (webhook url) ;;
       first2 <- setitem first1 "messagingEndpoint" endpoint1 ;;
       setitem m1 "bots" (set_first bots first2)
     else Ok m1
   else Ok m1)%py.

Definition update_info (url : string) (m2 : value) : result value :=
  (has_info <- TeamsHandler.has_key m2 "webApplicationInfo" ;;
   if has_info then
     app_id <- getitem m2 "id" ;;
     info <- getitem m2 "webApplicationInfo" ;;
     info1 <- setitem info "resource" (resource url app_id) ;;
     setitem m2 "webApplicationInfo" info1
   else Ok m2)%py.

(** The first bot after the update: its [messagingEndpoint], made if it
    was not there, with the [url] set. *)
Definition with_endpoint (url : string) (bot endpoint : list (string * value))
  : list (string * value) :=
  dict_set bot "messagingEndpoint" (VDict (dict_set endpoint "url" (webhook url))).

(** What the [bots] step of [update_manifest_url] does to the entries
    [d1] of the manifest when it goes through: nothing, without bots; or
    the first bot, an object, gets the endpoint. *)
Definition bots_step (url : string) (d1 d2 : list (string * value)) : Prop :=
  (d2 = d1 /\
   (dict_has d1 "bots" = false \/
    dict_has d1 "bots" = true /\ truthy (dict_get d1 "bots" VNone) = false)) \/
  (exists bot rest endpoint,
     dict_has d1 "bots" = true /\
     dict_get d1 "bots" VNone = VList (VDict bot :: rest) /\
     (if dict_has bot "messagingEndpoint"
      then dict_get bot "messagingEndpoint" VNone = VDict endpoint
      else endpoint = []) /\
     d2 = dict_set d1 "bots" (VList (VDict (with_endpoint url bot endpoint) :: rest))).

(** And the [webApplicationInfo] step. *)
Definition info_step (url : string) (d2 d3 : list (string * value)) : Prop :=
  (d3 = d2 /\ dict_has d2 "webApplicationInfo" = false) \/
  (exists info,
     dict_has d2 "webApplicationInfo" = true /\
     dict_has d2 "id" = true /\
     dict_get d2 "webApplicationInfo" VNone = VDict info /\
     d3 = dict_set d2 "webApplicationInfo"
            (VDict (dict_set info "resource" (resource url (dict_get d2 "id" VNone))))).

(** The keys of an object, in order. *)
Definition keys (d : list (string * value)) : list string := map fst d.

(** A manifest with the required fields, a bot and the
    [webApplicationInfo] entry. *)
Definition sample_manifest : value :=
  VDict
    [("$schema", VStr "https://developer.microsoft.com/json-schemas/teams/v1.16/MicrosoftTeams.schema.json");
     ("manifestVersion", VStr "1.16");
     ("version", VStr "1.0.0");
     ("id", VStr "00000000-0000-0000-0000-000000000000");
     ("packageName", VStr "com.example.weatherbot");
     ("developer", VDict [("name", VStr "Example")]);
     ("icons", VDict [("color", VStr "color_icon.png"); ("outline", VStr "outline_icon.png")]);
     ("name", VDict [("short", VStr "Weather Bot"); ("full", VStr "Weather and Traffic Bot")]);
     ("description", VDict [("short", VStr "Weather"); ("full", VStr "Weather and traffic")]);
     ("accentColor", VStr "#4285F4");
     ("bots", VList [VDict [("botId", VStr "00000000-0000-0000-0000-000000000000")]]);
     ("webApplicationInfo", VDict [("id", VStr "00000000-0000-0000-0000-000000000000")])].

Definition old_package : entry :=
  Entry (ZipArchive [("manifest.json", TextFile (Ok (VDict [])))]) 1600000000%Z.

(** A directory with the manifest and an older package, no icons. *)
Definition sample_world : world :=
  World [("manifest.json", Entry (TextFile (Ok sample_manifest)) 1650000000%Z);
         ("weather-bot.zip", old_package)] 0.

(** A run without pillow, with the deployed URL set and accepted. *)
Definition sample_packaging : packaging :=
  Packaging (fun _ _ => Raise ImportError) (fun n => 1700000000 + Z.of_nat n)%Z (fun _ => Ok tt)
            (Some "https://bot.example.run.app") (Ok "Y").

(** The same without a deployed URL. *)
Definition local_packaging : packaging :=
  Packaging (fun _ _ => Raise ImportError) (fun n => 1700000000 + Z.of_nat n)%Z (fun _ => Ok tt)
            None (Ok "n").

End Packaging.

(* ================================================================== *)
(** * Known answers for the hash primitives                            *)
(* ================================================================== *)

Module HashlibTests.
Import Hashlib.

(** FIPS 180-4 test messages. *)
Example sha256_empty :
  hexdigest (sha256 (octets "")) =
  "e3b0c44298fc1c149afbf4c8996fb92427ae41e4649b934ca495991b7852b855".
Proof. vm_compute. reflexivity. Qed.

Example sha256_abc :
  hexdigest (sha256 (octets "abc")) =
  "ba7816bf8f01cfea414140de5dae2223b00361a396177a9cb410ff61f20015ad".
Proof. vm_compute. reflexivity. Qed.

Example sha256_two_blocks :
  hexdigest (sha256 (octets "abcdbcdecdefdefgefghfghighijhijkijkljklmklmnlmnomnopnopq")) =
  "248d6a61d20638b8e5c026930c3e6039a33ce45964ff2167f6ecedd419db06c1".
Proof. vm_compute. reflexivity. Qed.

(** RFC 4231, test cases 2 and 6 (a key longer than one block). *)
Example hmac_rfc4231_2 :
  hexdigest (hmac_sha256 (octets "Jefe") (octets "what do ya want for nothing?")) =
  "5bdcc146bf60754e6a042426089575c75a003f089d2739839dec58b964ec3843".
Proof. vm_compute. reflexivity. Qed.

Example hmac_rfc4231_6 :
  hexdigest (hmac_sha256 (repeat 0xaa%Z 131)
               (octets "Test Using Larger Than Block-Size Key - Hash Key First")) =
  "60e431591ee0b67f0d8a26aacbf5b77f8e0bc6213728c5140546040f0ee37f54".
Proof. vm_compute. reflexivity. Qed.

(** The first and last round constants and initial words, as printed in
    the standard. *)
Example round_constants :
  nth 0 K256 0%Z = 0x428a2f98%Z /\ nth 63 K256 0%Z = 0xc67178f2%Z /\
  length K256 = 64 /\
  nth 0 H256 0%Z = 0x6a09e667%Z /\ nth 7 H256 0%Z = 0x5be0cd19%Z.
Proof. repeat split; vm_compute; reflexivity. Qed.

End HashlibTests.

(* ================================================================== *)
(** * Characters and strings                                           *)
(* ================================================================== *)

Module PyStrFacts.
Import PyStr.

Ltac each_char c := destruct c as [[] [] [] [] [] [] [] []]; reflexivity.

Lemma upper_char_idem (c : ascii) : upper_char (upper_char c) = upper_char c.
Proof. each_char c. Qed.

Lemma lower_char_idem (c : ascii) : lower_char (lower_char c) = lower_char c.
Proof. each_char c. Qed.

Lemma is_space_upper_char (c : ascii) : is_space (upper_char c) = is_space c.
Proof. each_char c. Qed.

Lemma is_space_lower_char (c : ascii) : is_space (lower_char c) = is_space c.
Proof. each_char c. Qed.

(** ** ASCII text

    On ASCII text the case maps work character by character. *)

Lemma lower_char_ascii (c : ascii) :
  (nat_of_ascii c <? 128) = true -> (nat_of_ascii (lower_char c) <? 128) = true.
Proof. destruct c as [[] [] [] [] [] [] [] []]; intros H; try reflexivity; discriminate H. Qed.

Lemma upper_char_ascii (c : ascii) :
  (nat_of_ascii c <? 128) = true -> (nat_of_ascii (upper_char c) <? 128) = true.
Proof. destruct c as [[] [] [] [] [] [] [] []]; intros H; try reflexivity; discriminate H. Qed.

Lemma is_space_ascii (c : ascii) : is_space c = true -> (nat_of_ascii c <? 128) = true.
Proof. destruct c as [[] [] [] [] [] [] [] []]; intros H; try reflexivity; discriminate H. Qed.

Lemma octet_ascii (c : ascii) (n : nat) :
  (nat_of_ascii c <? 128) = true -> 128 <= n -> octet c n = false.
Proof.
  intros H Hn. unfold octet. apply Nat.ltb_lt in H. apply Nat.eqb_neq. lia.
Qed.

Lemma lower_cons (c : ascii) (s : string) :
  (nat_of_ascii c <? 128) = true -> lower (String c s) = String (lower_char c) (lower s).
Proof.
  intros H. destruct s as [|c1 [|c2 s]]; cbn [lower]; try reflexivity;
    rewrite ?(octet_ascii c 196 H), ?(octet_ascii c 226 H) by lia; reflexivity.
Qed.

Lemma title_first_ascii (c : ascii) (s : string) :
  (nat_of_ascii c <? 128) = true -> title_first title_cases (String c s) = None.
Proof. destruct c as [[] [] [] [] [] [] [] []]; intros H; try reflexivity; discriminate H. Qed.

Lemma capitalize_cons (c : ascii) (s : string) :
  (nat_of_ascii c <? 128) = true ->
  capitalize (String c s) = String (upper_char c) (lower s).
Proof. intros H. unfold capitalize. now rewrite title_first_ascii. Qed.

Lemma lower_ascii (s : string) : isascii s = true -> isascii (lower s) = true.
Proof.
  induction s as [|c s IH]; [reflexivity|].
  cbn [isascii]. intros H. apply andb_prop in H as [Hc Hs].
  rewrite lower_cons by assumption. cbn [isascii].
  now rewrite lower_char_ascii, IH.
Qed.

Lemma capitalize_ascii (s : string) : isascii s = true -> isascii (capitalize s) = true.
Proof.
  destruct s as [|c s]; [reflexivity|].
  cbn [isascii]. intros H. apply andb_prop in H as [Hc Hs].
  rewrite capitalize_cons by assumption. cbn [isascii].
  now rewrite upper_char_ascii, lower_ascii.
Qed.

Lemma lower_idem (s : string) : isascii s = true -> lower (lower s) = lower s.
Proof.
  induction s as [|c s IH]; [reflexivity|].
  cbn [isascii]. intros H. apply andb_prop in H as [Hc Hs].
  rewrite lower_cons by assumption.
  rewrite lower_cons by now apply lower_char_ascii.
  now rewrite lower_char_idem, IH.
Qed.

Lemma no_space_lower (s : string) : isascii s = true -> no_space (lower s) = no_space s.
Proof.
  induction s as [|c s IH]; [reflexivity|].
  cbn [isascii]. intros H. apply andb_prop in H as [Hc Hs].
  rewrite lower_cons by assumption. cbn [no_space].
  now rewrite is_space_lower_char, IH.
Qed.

Lemma capitalize_idem (s : string) :
  isascii s = true -> capitalize (capitalize s) = capitalize s.
Proof.
  destruct s as [|c s]; [reflexivity|].
  cbn [isascii]. intros H. apply andb_prop in H as [Hc Hs].
  rewrite capitalize_cons by assumption.
  rewrite capitalize_cons by now apply upper_char_ascii.
  now rewrite upper_char_idem, lower_idem.
Qed.

Lemma is_word_capitalize (w : string) :
  isascii w = true -> is_word (capitalize w) = is_word w.
Proof.
  destruct w as [|c w]; [reflexivity|].
  cbn [isascii]. intros H. apply andb_prop in H as [Hc Hs].
  rewrite capitalize_cons by assumption. cbn [is_word no_space].
  now rewrite is_space_upper_char, no_space_lower.
Qed.

Lemma isascii_app (a b : string) : isascii (a ++ b) = isascii a && isascii b.
Proof.
  induction a as [|c a IH]; simpl; [reflexivity|].
  now rewrite IH, andb_assoc.
Qed.

Lemma append_nil_r (s : string) : (s ++ EmptyString)%string = s.
Proof. induction s; simpl; congruence. Qed.

Lemma append_assoc (a b c : string) : ((a ++ b) ++ c = a ++ (b ++ c))%string.
Proof. induction a; simpl; congruence. Qed.

Lemma no_space_app (a b : string) :
  no_space (a ++ b) = no_space a && no_space b.
Proof.
  induction a as [|c a IH]; simpl; [reflexivity|].
  now rewrite IH, andb_assoc.
Qed.

(** ** [split] *)

(** Reading a run of non-whitespace characters only grows the current
    word. *)
Lemma split_from_word (w cur rest : string) :
  no_space w = true ->
  split_from cur (w ++ rest) = split_from (cur ++ w) rest.
Proof.
  revert cur; induction w as [|c w IH]; intros cur Hw; simpl in *.
  - now rewrite append_nil_r.
  - apply andb_prop in Hw as [Hc Hw].
    apply negb_true_iff in Hc. rewrite Hc.
    rewrite IH by assumption.
    now rewrite append_assoc.
Qed.

(** Every element of a split is a word, as long as the pending [cur]
    holds no whitespace. *)
Lemma split_from_words (s cur : string) :
  no_space cur = true ->
  forallb is_word (split_from cur s) = true.
Proof.
  revert cur; induction s as [|c s IH]; intros cur Hcur; simpl.
  - destruct cur; simpl; [reflexivity|]. simpl in Hcur. now rewrite Hcur.
  - destruct (is_space c) eqn:Hc.
    + destruct cur as [|a cur]; [now apply IH|].
      simpl. simpl in Hcur. rewrite Hcur. now apply IH.
    + apply IH. rewrite no_space_app, Hcur. simpl. now rewrite Hc.
Qed.

Lemma split_words (s : string) : forallb is_word (split s) = true.
Proof. now apply split_from_words. Qed.

(** Joining words with single spaces and splitting again gives the words
    back. *)
Lemma split_join (ws : list string) :
  forallb is_word ws = true -> split (join " " ws) = ws.
Proof.
  unfold split.
  induction ws as [|w ws IH]; intros H; [reflexivity|].
  simpl in H. apply andb_prop in H as [Hw Hws].
  assert (Hns : no_space w = true) by (destruct w; [discriminate|exact Hw]).
  destruct ws as [|w' ws].
  - simpl. rewrite <- (append_nil_r w) at 1.
    rewrite split_from_word by assumption. simpl.
    destruct w; [discriminate|reflexivity].
  - change (join " " (w :: w' :: ws)) with (w ++ " " ++ join " " (w' :: ws))%string.
    rewrite split_from_word by assumption. simpl append at 1.
    change (" " ++ join " " (w' :: ws))%string
      with (String " "%char (join " " (w' :: ws))).
    cbn [split_from]. change (is_space " ") with true. cbn iota.
    destruct w as [|a w]; [discriminate|].
    f_equal. now apply IH.
Qed.

(** The words of an ASCII text are ASCII. *)
Lemma split_from_ascii (s cur : string) :
  isascii cur = true -> isascii s = true ->
  forallb isascii (split_from cur s) = true.
Proof.
  revert cur; induction s as [|c s IH]; intros cur Hcur Hs; cbn [split_from].
  - destruct cur; [reflexivity|]. cbn [forallb]. now rewrite Hcur.
  - cbn [isascii] in Hs. apply andb_prop in Hs as [Hc Hs].
    destruct (is_space c).
    + destruct cur as [|a cur]; [now apply IH|].
      cbn [forallb]. rewrite Hcur. now apply IH.
    + apply IH; [|assumption]. rewrite isascii_app, Hcur. cbn [isascii].
      now rewrite Hc.
Qed.

Lemma split_ascii (s : string) : isascii s = true -> forallb isascii (split s) = true.
Proof. now apply split_from_ascii. Qed.

Lemma forallb_map_word (ws : list string) :
  forallb isascii ws = true ->
  forallb is_word ws = true -> forallb is_word (map capitalize ws) = true.
Proof.
  induction ws as [|w ws IH]; simpl; [reflexivity|].
  intros Ha H. apply andb_prop in Ha as [Haw Has]. apply andb_prop in H as [Hw Hws].
  now rewrite is_word_capitalize, Hw, IH.
Qed.

Lemma map_capitalize_idem (ws : list string) :
  forallb isascii ws = true ->
  map capitalize (map capitalize ws) = map capitalize ws.
Proof.
  induction ws as [|w ws IH]; simpl; [reflexivity|].
  intros Ha. apply andb_prop in Ha as [Haw Has].
  now rewrite capitalize_idem, IH.
Qed.

(** Normalising ASCII text twice is normalising it once. *)
Lemma capitalize_words_ascii (city : string) :
  isascii city = true ->
  TeamsHandler.capitalize_words (TeamsHandler.capitalize_words city) =
  TeamsHandler.capitalize_words city.
Proof.
  intros H. unfold TeamsHandler.capitalize_words.
  rewrite split_join
    by (apply forallb_map_word; [now apply split_ascii|apply split_words]).
  f_equal. apply map_capitalize_idem. now apply split_ascii.
Qed.

End PyStrFacts.

(* ================================================================== *)
(** * City normalisation                                               *)
(* ================================================================== *)




(* ================================================================== *)
(** * The matcher                                                      *)
(* ================================================================== *)

Module ReFacts.
Import Re.

Lemma plus_greedy_some (R : Type) (cls : ascii -> bool) (s : string)
      (k : string -> option R) (x : R) :
  plus_greedy R cls s k = Some x -> exists s', k s' = Some x.
Proof.
  induction s as [|c s IH]; simpl; [discriminate|].
  destruct (cls c); [|discriminate].
  unfold or_else. destruct (plus_greedy R cls s k) eqn:E.
  - intros H. injection H as ->. now apply IH.
  - intros H. now exists s.
Qed.

Lemma plus_lazy_some (R : Type) (cls : ascii -> bool) (s : string)
      (k : string -> option R) (x : R) :
  plus_lazy R cls s k = Some x -> exists s', k s' = Some x.
Proof.
  induction s as [|c s IH]; simpl; [discriminate|].
  destruct (cls c); [|discriminate].
  unfold or_else. destruct (k s) eqn:E.
  - intros H. injection H as ->. now exists s.
  - apply IH.
Qed.

(** A successful run of [exec] ends in a successful call of the
    continuation; the group it passes on is set if the pattern binds it or
    if it was set before. *)
Lemma exec_some (R : Type) (r : regex) :
  forall (s : string) (g : option string) (k : cont R) (x : R),
    exec R r s g k = Some x ->
    exists s' g',
      k s' g' = Some x /\
      (binds r = true -> g' <> None) /\
      (g <> None -> g' <> None).
Proof.
  induction r as [l|a IHa b IHb|a IHa b IHb|a IHa|cls|cls|a IHa|];
    intros s g k x H; simpl in H.
  - destruct (match_lit l s) as [s'|]; [|discriminate].
    exists s', g. simpl. repeat split; [assumption|discriminate|trivial].
  - apply IHa in H as (s1 & g1 & H1 & Ba & Pa).
    apply IHb in H1 as (s2 & g2 & H2 & Bb & Pb).
    exists s2, g2. simpl. repeat split; [assumption| |auto].
    intros B. apply orb_prop in B as [B|B]; auto.
  - unfold or_else in H. destruct (exec R a s g k) eqn:Ea.
    + injection H as ->. apply IHa in Ea as (s1 & g1 & H1 & Ba & Pa).
      exists s1, g1. simpl. repeat split; [assumption| |auto].
      intros B. apply andb_prop in B as [B _]; auto.
    + apply IHb in H as (s1 & g1 & H1 & Bb & Pb).
      exists s1, g1. simpl. repeat split; [assumption| |auto].
      intros B. apply andb_prop in B as [_ B]; auto.
  - unfold or_else in H. destruct (exec R a s g k) eqn:Ea.
    + injection H as ->. apply IHa in Ea as (s1 & g1 & H1 & _ & Pa).
      exists s1, g1. simpl. repeat split; [assumption|discriminate|auto].
    + exists s, g. simpl. repeat split; [assumption|discriminate|trivial].
  - apply plus_greedy_some in H as [s' H].
    exists s', g. simpl. repeat split; [assumption|discriminate|trivial].
  - apply plus_lazy_some in H as [s' H].
    exists s', g. simpl. repeat split; [assumption|discriminate|trivial].
  - apply IHa in H as (s1 & g1 & H1 & _ & _).
    eexists s1, _. simpl. repeat split; [exact H1|discriminate|discriminate].
  - destruct (at_end s); [|discriminate].
    exists s, g. simpl. repeat split; [assumption|discriminate|trivial].
Qed.

Lemma match_here_group (r : regex) (s : string) (g : option string) :
  binds r = true -> match_here r s = Some g -> g <> None.
Proof.
  unfold match_here. intros B H.
  apply exec_some in H as (s' & g' & H & Hb & _).
  injection H as <-. now apply Hb.
Qed.

(** A pattern that binds its group never yields [match.group(1) is None]. *)
Lemma search_group (r : regex) (s : string) :
  binds r = true -> search r s <> Some None.
Proof.
  intros B. induction s as [|c s IH]; simpl.
  - destruct (match_here r EmptyString) as [g|] eqn:E; [|discriminate].
    intros H. injection H as ->. now apply (match_here_group r _ None B E).
  - destruct (match_here r (String c s)) as [g|] eqn:E; [|exact IH].
    intros H. injection H as ->. now apply (match_here_group r _ None B E).
Qed.

End ReFacts.

(* ================================================================== *)
(** * Substrings and stripping                                         *)
(* ================================================================== *)

Module ContainsFacts.
Import PyStr.

Lemma prefix_correct (a b : string) :
  String.prefix a b = true <-> exists rest, b = (a ++ rest)%string.
Proof.
  revert b; induction a as [|c a IH]; intros b.
  - split; [intros _; now exists b|intros _; now destruct b].
  - destruct b as [|d b]; simpl.
    + split; [discriminate|intros [r H]; discriminate].
    + destruct (ascii_dec c d) as [->|Hn].
      * rewrite IH. split; intros [r H]; exists r; congruence.
      * split; [discriminate|intros [r H]; congruence].
Qed.

(** [contains] is the substring test. *)
Lemma contains_correct (needle hay : string) :
  contains needle hay = true <->
  exists before after, hay = (before ++ needle ++ after)%string.
Proof.
  induction hay as [|c hay IH]; cbn [contains].
  - rewrite orb_false_r, prefix_correct. split.
    + intros [r H]. now exists EmptyString, r.
    + intros (p & q & H). destruct p; [now exists q|discriminate].
  - rewrite orb_true_iff, IH, prefix_correct. split.
    + intros [[r H]|(p & q & H)].
      * now exists EmptyString, r.
      * exists (String c p), q. simpl. congruence.
    + intros (p & q & H). destruct p as [|d p]; simpl in H.
      * left. now exists q.
      * right. exists p, q. congruence.
Qed.

Lemma prefix_nil_r (k : string) :
  k <> EmptyString -> String.prefix k EmptyString = false.
Proof. destruct k; [congruence|reflexivity]. Qed.

Lemma contains_lstrip (k s : string) :
  starts_solid k = true -> contains k (lstrip s) = contains k s.
Proof.
  destruct k as [|c k]; [discriminate|]. simpl. intros Hc.
  induction s as [|a s IH]; [reflexivity|].
  cbn [lstrip]. destruct (is_space a) eqn:Ha; [|reflexivity].
  rewrite IH. cbn [contains String.prefix].
  destruct (ascii_dec c a) as [->|_]; [|reflexivity].
  now rewrite Ha in Hc.
Qed.

Lemma ends_solid_nonempty (k : string) : ends_solid k = true -> k <> EmptyString.
Proof. destruct k; [discriminate|congruence]. Qed.

Lemma prefix_empty (s : string) : String.prefix EmptyString s = true.
Proof. now destruct s. Qed.

Lemma prefix_rstrip (s : string) :
  forall k, ends_solid k = true -> String.prefix k (rstrip s) = String.prefix k s.
Proof.
  induction s as [|a s IH]; intros k Hk; [reflexivity|].
  destruct k as [|c k]; [discriminate|].
  cbn [rstrip String.prefix].
  destruct k as [|c' k].
  - simpl in Hk. apply negb_true_iff in Hk.
    destruct (rstrip s) as [|b r].
    + destruct (is_space a) eqn:Ha; cbn [String.prefix].
      * destruct (ascii_dec c a) as [->|_]; [congruence|reflexivity].
      * destruct (ascii_dec c a); now rewrite ?prefix_empty.
    + cbn [String.prefix]. destruct (ascii_dec c a); now rewrite ?prefix_empty.
  - assert (Hk' : ends_solid (String c' k) = true) by exact Hk.
    specialize (IH _ Hk').
    destruct (rstrip s) as [|b r] eqn:Er.
    + rewrite <- IH.
      destruct (is_space a); cbn [String.prefix]; destruct (ascii_dec c a); reflexivity.
    + rewrite <- IH. reflexivity.
Qed.

Lemma contains_rstrip (k s : string) :
  ends_solid k = true -> contains k (rstrip s) = contains k s.
Proof.
  intros Hk. pose proof (ends_solid_nonempty _ Hk) as Hne.
  induction s as [|a s IH]; [reflexivity|].
  cbn [contains]. rewrite <- IH, <- (prefix_rstrip (String a s) k Hk).
  cbn [rstrip].
  destruct (rstrip s) as [|b r] eqn:Er.
  - destruct (is_space a); cbn [contains]; rewrite ?prefix_nil_r by assumption;
      now rewrite ?orb_false_r.
  - reflexivity.
Qed.

(** Stripping a text does not change which solid keywords occur in it. *)
Lemma contains_strip (k s : string) :
  starts_solid k = true -> ends_solid k = true ->
  contains k (strip s) = contains k s.
Proof.
  intros H1 H2. unfold strip.
  now rewrite contains_rstrip, contains_lstrip.
Qed.

Lemma any_in_strip (keywords : list string) (s : string) :
  forallb (fun k => starts_solid k && ends_solid k) keywords = true ->
  any_in keywords (strip s) = any_in keywords s.
Proof.
  induction keywords as [|k ks IH]; simpl; [reflexivity|].
  intros H. apply andb_prop in H as [Hk Hks]. apply andb_prop in Hk as [Hk1 Hk2].
  now rewrite contains_strip, IH.
Qed.

Lemma any_in_occurs (keywords : list string) (s : string) :
  any_in keywords s = true <-> Properties.occurs_in keywords s.
Proof.
  unfold Properties.occurs_in.
  induction keywords as [|k ks IH]; simpl.
  - split; [discriminate|intros (k & [] & _)].
  - destruct (contains k s) eqn:E.
    + split; [intros _; exists k; auto|trivial].
    + rewrite IH. split.
      * intros (k' & Hin & Hc). exists k'. auto.
      * intros (k' & [<-|Hin] & Hc); [congruence|exists k'; auto].
Qed.

Lemma any_in_not_occurs (keywords : list string) (s : string) :
  any_in keywords s = false <-> ~ Properties.occurs_in keywords s.
Proof.
  rewrite <- any_in_occurs. destruct (any_in keywords s); split; congruence.
Qed.

End ContainsFacts.

(* ================================================================== *)
(** * Intent extraction                                                *)
(* ================================================================== *)

Module TeamsHandlerFacts.
Import Py TeamsHandler.

Lemma first_pattern_ok (patterns : list Re.regex) (text_lower : string) :
  forallb Re.binds patterns = true ->
  exists found, first_pattern patterns text_lower = Ok found.
Proof.
  induction patterns as [|p ps IH]; simpl; intros H; [(eexists; reflexivity)|].
  apply andb_prop in H as [Hp Hps].
  pose proof (ReFacts.search_group p text_lower Hp) as Hg.
  destruct (Re.search p text_lower) as [[g|]|]; [(eexists; reflexivity)|congruence|now apply IH].
Qed.

(** City extraction never raises and always yields a string. *)
Lemma extract_city_from_text_total (text : string) :
  exists city, extract_city_from_text text = Ok city.
Proof.
  unfold extract_city_from_text.
  destruct (first_pattern_ok common_patterns (PyStr.lower text) eq_refl) as [found ->].
  cbn [bind]. destruct found as [city|]; [(eexists; reflexivity)|].
  destruct (first_default_city default_cities (PyStr.lower text)); (eexists; reflexivity).
Qed.

(** The text the keyword loops look at is the stripped lower-cased text;
    for these keywords that is as good as the lower-cased text. *)
Lemma keywords_strip (text : string) :
  PyStr.any_in weather_keywords (PyStr.strip (PyStr.lower text)) =
    PyStr.any_in weather_keywords (PyStr.lower text) /\
  PyStr.any_in time_keywords (PyStr.strip (PyStr.lower text)) =
    PyStr.any_in time_keywords (PyStr.lower text) /\
  PyStr.any_in traffic_keywords (PyStr.strip (PyStr.lower text)) =
    PyStr.any_in traffic_keywords (PyStr.lower text) /\
  PyStr.any_in help_keywords (PyStr.strip (PyStr.lower text)) =
    PyStr.any_in help_keywords (PyStr.lower text).
Proof. repeat split; now apply ContainsFacts.any_in_strip. Qed.

Lemma any_in_empty (keywords : list string) :
  forallb (fun k => negb (String.eqb k EmptyString)) keywords = true ->
  PyStr.any_in keywords EmptyString = false.
Proof.
  induction keywords as [|k ks IH]; simpl; [reflexivity|].
  intros H. apply andb_prop in H as [Hk Hks].
  destruct k; [discriminate|]. simpl. now apply IH.
Qed.

(** [parse_message_intent] as a cascade over the lower-cased text. *)
Lemma parse_message_intent_cascade (text : string) :
  text <> EmptyString ->
  exists city,
    extract_city_from_text text = Ok city /\
    parse_message_intent text =
    Ok (let low := PyStr.lower text in
        if PyStr.any_in weather_keywords low then (MessageIntent.WEATHER, Some city)
        else if PyStr.any_in time_keywords low then (MessageIntent.TIME, Some city)
        else if PyStr.any_in traffic_keywords low then (MessageIntent.TRAFFIC, Some city)
        else if PyStr.any_in help_keywords low then (MessageIntent.HELP, None)
        else (MessageIntent.UNKNOWN, None)).
Proof.
  intros Hne. unfold parse_message_intent.
  destruct (String.eqb_spec text EmptyString) as [->|_]; [congruence|].
  destruct (extract_city_from_text_total text) as [city Hc].
  exists city. split; [assumption|]. rewrite Hc. cbn [bind].
  destruct (keywords_strip text) as (-> & -> & -> & ->).
  cbv zeta.
  repeat match goal with
         | |- context [if ?b then _ else _] => destruct b
         end; reflexivity.
Qed.

(** Classification never raises. *)
Lemma parse_message_intent_total (text : string) :
  exists intent city, parse_message_intent text = Ok (intent, city).
Proof.
  destruct (String.eqb_spec text EmptyString) as [->|Hne].
  - do 2 eexists; reflexivity.
  - destruct (parse_message_intent_cascade text Hne) as (city & _ & ->).
    cbv zeta.
    repeat match goal with
           | |- context [if ?b then _ else _] => destruct b
           end; do 2 eexists; reflexivity.
Qed.

End TeamsHandlerFacts.

(** C5.  [parse_message_intent] gives the keyword lists the fixed priority
    weather, time, traffic, help: the result is the first category one of
    whose keywords occurs in the lower-cased text, and a non-empty text in
    which no keyword of any list occurs is classified UNKNOWN with no
    city. *)
Theorem parse_message_intent_priority (text : string) :
  let low := PyStr.lower text in
  let weather := Properties.occurs_in TeamsHandler.weather_keywords low in
  let time := Properties.occurs_in TeamsHandler.time_keywords low in
  let traffic := Properties.occurs_in TeamsHandler.traffic_keywords low in
  let help := Properties.occurs_in TeamsHandler.help_keywords low in
  (weather ->
   exists city, TeamsHandler.parse_message_intent text = Py.Ok (MessageIntent.WEATHER, city)) /\
  (~ weather -> time ->
   exists city, TeamsHandler.parse_message_intent text = Py.Ok (MessageIntent.TIME, city)) /\
  (~ weather -> ~ time -> traffic ->
   exists city, TeamsHandler.parse_message_intent text = Py.Ok (MessageIntent.TRAFFIC, city)) /\
  (~ weather -> ~ time -> ~ traffic -> help ->
   exists city, TeamsHandler.parse_message_intent text = Py.Ok (MessageIntent.HELP, city)) /\
  (~ weather -> ~ time -> ~ traffic -> ~ help -> text <> EmptyString ->
   TeamsHandler.parse_message_intent text = Py.Ok (MessageIntent.UNKNOWN, None)).
Proof.
  cbv zeta.
  rewrite <- !ContainsFacts.any_in_not_occurs, <- !ContainsFacts.any_in_occurs.
  destruct (String.eqb_spec text EmptyString) as [->|Hne].
  - change (PyStr.lower EmptyString) with EmptyString.
    rewrite !TeamsHandlerFacts.any_in_empty by reflexivity.
    repeat split; intros; try discriminate; congruence.
  - destruct (TeamsHandlerFacts.parse_message_intent_cascade text Hne)
      as (city & _ & ->). cbv zeta.
    repeat split; intros;
      repeat match goal with
             | H : ?b = true |- context [if ?b then _ else _] => rewrite H
             | H : ?b = false |- context [if ?b then _ else _] => rewrite H
             end; try (eexists; reflexivity); reflexivity.
Qed.

(* ================================================================== *)
(** * Card builders                                                    *)
(* ================================================================== *)

Module AdaptiveCardsFacts.
Import Py AdaptiveCards Properties.

Ltac card_ok := eexists; split; [reflexivity|vm_compute; reflexivity].

Lemma create_weather_card_ok (env : environment) (city data : value) :
  exists card, create_weather_card env city data = Ok card /\
               well_formed_card card = true.
Proof.
  unfold create_weather_card, extract_weather_info.
  destruct (as_str data); card_ok.
Qed.

Lemma create_time_card_ok (env : environment) (city data : value) :
  exists card, create_time_card env city data = Ok card /\
               well_formed_card card = true.
Proof.
  unfold create_time_card, extract_time_info.
  destruct (match as_str data with
            | Some s => PyStr.contains "time" (PyStr.lower s)
            | None => false
            end); card_ok.
Qed.

Lemma create_traffic_card_ok (env : environment) (city data : value) :
  exists card, create_traffic_card env city data = Ok card /\
               well_formed_card card = true.
Proof.
  unfold create_traffic_card, extract_traffic_info.
  destruct (as_str data) as [s|]; [|card_ok].
  destruct (PyStr.contains "heavy" (PyStr.lower s)); [card_ok|].
  destruct (PyStr.contains "light" (PyStr.lower s)); card_ok.
Qed.

Lemma create_help_card_ok :
  exists card, create_help_card = Ok card /\ well_formed_card card = true.
Proof. card_ok. Qed.

Lemma create_error_card_ok (message : value) :
  exists card, create_error_card message = Ok card /\
               well_formed_card card = true.
Proof. card_ok. Qed.

(** Whatever the [try] block returns is a well-formed card. *)
Lemma format_agent_response_try_ok (env : environment) (response card : value) :
  format_agent_response_try env response = Ok card ->
  well_formed_card card = true.
Proof.
  unfold format_agent_response_try.
  destruct (get response "type" (Str "unknown")) as [response_type|]; [|discriminate].
  destruct (get response "city" (Str "Unknown")) as [city|]; [|discriminate].
  destruct (get response "data" (VDict [])) as [data|]; [|discriminate].
  cbn [bind].
  destruct (eq_str response_type "weather").
  { destruct (create_weather_card_ok env city data) as (c & -> & Hc). congruence. }
  destruct (eq_str response_type "time").
  { destruct (create_time_card_ok env city data) as (c & -> & Hc). congruence. }
  destruct (eq_str response_type "traffic").
  { destruct (create_traffic_card_ok env city data) as (c & -> & Hc). congruence. }
  destruct (eq_str response_type "help").
  { destruct create_help_card_ok as (c & -> & Hc). congruence. }
  destruct (eq_str response_type "error").
  { destruct (get data "message" (Str "An error occurred")) as [m|]; [|discriminate].
    cbn [bind].
    destruct (create_error_card_ok m) as (c & -> & Hc). congruence. }
  destruct (create_error_card_ok (Str "I didn't understand your request. Please try again."))
    as (c & -> & Hc). congruence.
Qed.

(** The [try] block really can raise: an error envelope whose data is a
    string has no [get]. *)
Example format_agent_response_try_raises (env : environment) :
  format_agent_response_try env (VDict [("type", Str "error"); ("data", Str "oops")]) =
  Raise AttributeError.
Proof. reflexivity. Qed.

(** So can it on a response that is no dict at all. *)
Example format_agent_response_try_raises_on_list (env : environment) :
  format_agent_response_try env (VList []) = Raise AttributeError.
Proof. reflexivity. Qed.

End AdaptiveCardsFacts.


(** C7.  [format_agent_response] never propagates an exception: on every
    input it returns a card, the card of the [try] block when that block
    returns one, and the error builder's card carrying "Failed to format
    response. Please try again." when the block raises. *)
Theorem format_agent_response_never_raises (env : Py.environment) (response : Py.value) :
  exists card,
    AdaptiveCards.format_agent_response env response = Py.Ok card /\
    match AdaptiveCards.format_agent_response_try env response with
    | Py.Ok built => card = built
    | Py.Raise _ =>
        Py.Ok card =
        AdaptiveCards.create_error_card
          (Py.VStr "Failed to format response. Please try again.")
    end.
Proof.
  unfold AdaptiveCards.format_agent_response.
  destruct (AdaptiveCards.format_agent_response_try env response) as [built|e].
  - exists built. split; reflexivity.
  - eexists. split; reflexivity.
Qed.

(** C9.  Every Card Payload produced by [format_agent_response], and so by
    each of the five builders on any city and data, satisfies the schema:
    contentType is "application/vnd.microsoft.card.adaptive" and content is
    an object with $schema, type "AdaptiveCard", version "1.4", a body list
    of presentation nodes and, when present, a list of submit actions. *)
Theorem format_agent_response_schema (env : Py.environment) (response : Py.value) :
  (exists card,
      AdaptiveCards.format_agent_response env response = Py.Ok card /\
      Properties.well_formed_card card = true) /\
  (forall city data : Py.value,
      (exists card, AdaptiveCards.create_weather_card env city data = Py.Ok card /\
                    Properties.well_formed_card card = true) /\
      (exists card, AdaptiveCards.create_time_card env city data = Py.Ok card /\
                    Properties.well_formed_card card = true) /\
      (exists card, AdaptiveCards.create_traffic_card env city data = Py.Ok card /\
                    Properties.well_formed_card card = true) /\
      (exists card, AdaptiveCards.create_help_card = Py.Ok card /\
                    Properties.well_formed_card card = true) /\
      (exists card, AdaptiveCards.create_error_card data = Py.Ok card /\
                    Properties.well_formed_card card = true)).
Proof.
  split.
  - unfold AdaptiveCards.format_agent_response.
    destruct (AdaptiveCards.format_agent_response_try env response) as [built|e] eqn:E.
    + exists built. split; [reflexivity|].
      exact (AdaptiveCardsFacts.format_agent_response_try_ok env response built E).
    + apply AdaptiveCardsFacts.create_error_card_ok.
  - intros city data. repeat split.
    + apply AdaptiveCardsFacts.create_weather_card_ok.
    + apply AdaptiveCardsFacts.create_time_card_ok.
    + apply AdaptiveCardsFacts.create_traffic_card_ok.
    + apply AdaptiveCardsFacts.create_help_card_ok.
    + apply AdaptiveCardsFacts.create_error_card_ok.
Qed.

(* ================================================================== *)
(** * The agent router                                                 *)
(* ================================================================== *)

Module RouterFacts.
Import Py TeamsHandler Properties.

(** HELP never reaches an agent, whether or not the agents are there. *)
Lemma route_to_agent_help_no_call (env : environment) (city : option string) :
  snd (route_to_agent env MessageIntent.HELP city) = [].
Proof.
  unfold route_to_agent, route_to_agent_try.
  destruct (import_agents env) as [agents|e]; [reflexivity|].
  destruct (is_import_error e); reflexivity.
Qed.

(** When the import of the agents raises [ImportError], every intent gets
    the same error envelope and no agent is called. *)
Lemma route_to_agent_import_error (env : environment) (intent : string)
      (city : option string) :
  import_agents env = Raise ImportError ->
  route_to_agent env intent city =
  (error_envelope "Agent service is temporarily unavailable", []).
Proof.
  intros H. unfold route_to_agent, route_to_agent_try. now rewrite H.
Qed.

(** A call that raises is answered with the generic failure envelope. *)
Example route_to_agent_agent_raises :
  route_to_agent (sample_env None (Ok (AgentModule failing_agent failing_agent)))
                 MessageIntent.TRAFFIC (Some "Rome") =
  (error_envelope "An error occurred while processing your request",
   [TrafficAgentRun "How's the traffic in Rome?"]).
Proof. reflexivity. Qed.

(** An empty city is replaced like a missing one. *)
Example route_to_agent_empty_city :
  route_to_agent (sample_env None (Ok sample_agents)) MessageIntent.WEATHER (Some EmptyString) =
  (envelope "weather" "New York" (VStr "Sunny with light traffic at this time"),
   [WeatherTimeAgentRun "What's the weather in New York?"]).
Proof. reflexivity. Qed.

End RouterFacts.

(** C4, as the code has it.  When the agents can be imported, dispatch of
    HELP returns the static help envelope (type "help", a data payload
    listing the three supported commands, status "success") for every city
    argument, and calls no agent. *)
Theorem route_to_agent_help (env : Py.environment) (agents : Py.agent_module)
        (city : option string) :
  Py.import_agents env = Py.Ok agents ->
  TeamsHandler.route_to_agent env MessageIntent.HELP city =
  (Py.VDict
     [("type", Py.VStr "help");
      ("data",
       Py.VDict
         [("message", Py.VStr "I can help you with weather, time, and traffic information!");
          ("commands",
           Py.VList [Py.VStr "What's the weather in [city]?";
                     Py.VStr "What time is it in [city]?";
                     Py.VStr "How's the traffic in [city]?"])]);
      ("status", Py.VStr "success")],
   []).
Proof.
  intros H. unfold TeamsHandler.route_to_agent, TeamsHandler.route_to_agent_try.
  rewrite H. reflexivity.
Qed.

Lemma route_to_agent_help_witness :
  Py.import_agents (Properties.sample_env None (Py.Ok Properties.sample_agents)) =
    Py.Ok Properties.sample_agents /\
  TeamsHandler.route_to_agent (Properties.sample_env None (Py.Ok Properties.sample_agents))
                              MessageIntent.HELP (Some "London") =
  (Py.VDict
     [("type", Py.VStr "help");
      ("data",
       Py.VDict
         [("message", Py.VStr "I can help you with weather, time, and traffic information!");
          ("commands",
           Py.VList [Py.VStr "What's the weather in [city]?";
                     Py.VStr "What time is it in [city]?";
                     Py.VStr "How's the traffic in [city]?"])]);
      ("status", Py.VStr "success")],
   []).
Proof.
  split; [reflexivity|].
  apply (route_to_agent_help _ Properties.sample_agents). reflexivity.
Defined.

(** C4 as stated fails where the agents cannot be imported: the import is
    the first statement of the [try] block, so HELP gets the error envelope
    of the [except ImportError] clause instead of the help envelope. *)
Lemma route_to_agent_help_without_agents :
  TeamsHandler.route_to_agent (Properties.sample_env None (Py.Raise Py.ImportError))
                              MessageIntent.HELP (Some "London") =
  (Py.VDict
     [("type", Py.VStr "error");
      ("data", Py.VDict [("message", Py.VStr "Agent service is temporarily unavailable")]);
      ("status", Py.VStr "error")],
   []) /\
  fst (TeamsHandler.route_to_agent (Properties.sample_env None (Py.Raise Py.ImportError))
                                   MessageIntent.HELP (Some "London")) <>
  TeamsHandler.help_envelope.
Proof. split; [reflexivity|discriminate]. Qed.

(** C10.  Every envelope returned by [route_to_agent], for every intent and
    city and whatever the import of the agents and their calls do, has a
    type among weather, time, traffic, help, error and a status that is
    "error" exactly when the type is "error" and "success" otherwise. *)
Theorem route_to_agent_envelope (env : Py.environment) (intent : string)
        (city : option string) :
  let response := fst (TeamsHandler.route_to_agent env intent city) in
  exists type status : string,
    Properties.field response "type" = Some (Py.VStr type) /\
    Properties.field response "status" = Some (Py.VStr status) /\
    In type Properties.envelope_types /\
    (status = "error" <-> type = "error") /\
    (type <> "error" -> status = "success").
Proof.
  cbv zeta.
  unfold TeamsHandler.route_to_agent, TeamsHandler.route_to_agent_try.
  assert (Herr : forall message,
             exists type status : string,
               Properties.field (TeamsHandler.error_envelope message) "type" = Some (Py.VStr type) /\
               Properties.field (TeamsHandler.error_envelope message) "status" = Some (Py.VStr status) /\
               In type Properties.envelope_types /\
               (status = "error" <-> type = "error") /\
               (type <> "error" -> status = "success")).
  { intros message. exists "error", "error".
    repeat split; try reflexivity; try congruence. simpl. tauto. }
  assert (Hok : forall type c data,
             In type ["weather"; "time"; "traffic"] ->
             exists type' status : string,
               Properties.field (TeamsHandler.envelope type c data) "type" = Some (Py.VStr type') /\
               Properties.field (TeamsHandler.envelope type c data) "status" = Some (Py.VStr status) /\
               In type' Properties.envelope_types /\
               (status = "error" <-> type' = "error") /\
               (type' <> "error" -> status = "success")).
  { intros type c data Hin. exists type, "success".
    repeat split; try reflexivity; try discriminate.
    - simpl in *. tauto.
    - intros ->. simpl in Hin. intuition discriminate. }
  destruct (Py.import_agents env) as [agents|e].
  - destruct (String.eqb intent MessageIntent.WEATHER).
    { destruct (Py.run (Py.weather_time_agent agents) _) as [r|e]; cbn [Py.bind fst].
      - apply Hok. simpl. tauto.
      - destruct (Py.is_import_error e); apply Herr. }
    destruct (String.eqb intent MessageIntent.TIME).
    { destruct (Py.run (Py.weather_time_agent agents) _) as [r|e]; cbn [Py.bind fst].
      - apply Hok. simpl. tauto.
      - destruct (Py.is_import_error e); apply Herr. }
    destruct (String.eqb intent MessageIntent.TRAFFIC).
    { destruct (Py.run (Py.traffic_agent agents) _) as [r|e]; cbn [Py.bind fst].
      - apply Hok. simpl. tauto.
      - destruct (Py.is_import_error e); apply Herr. }
    destruct (String.eqb intent MessageIntent.HELP).
    { exists "help", "success".
      repeat split; try reflexivity; try discriminate. simpl. tauto. }
    apply Herr.
  - destruct (Py.is_import_error e); apply Herr.
Qed.

(* ================================================================== *)
(** * Digests                                                          *)
(* ================================================================== *)

Module HashlibFacts.
Import Hashlib.
Local Open Scope Z_scope.

Lemma compress_length (h block : list Z) :
  length h = 8%nat -> length (compress h block) = 8%nat.
Proof.
  intros H. unfold compress.
  rewrite length_map, length_combine, H. reflexivity.
Qed.

Lemma blocks_length (fuel : nat) :
  forall h bs, length h = 8%nat -> length (blocks fuel h bs) = 8%nat.
Proof.
  induction fuel as [|fuel IH]; intros h bs H; simpl; [assumption|].
  destruct bs; [assumption|].
  apply IH, compress_length, H.
Qed.

Lemma be_octets_range (n : nat) (x : Z) : Forall octet (be_octets n x).
Proof.
  induction n as [|n IH]; simpl; constructor; [|assumption].
  unfold octet. apply Z.mod_pos_bound. lia.
Qed.

Lemma flat_be_octets_range (l : list Z) : Forall octet (flat_map (be_octets 4) l).
Proof.
  induction l as [|x l IH]; [constructor|].
  cbn [flat_map]. apply Forall_app. split; [apply be_octets_range|assumption].
Qed.

Lemma flat_be_octets_length (l : list Z) :
  length (flat_map (be_octets 4) l) = (4 * length l)%nat.
Proof.
  induction l as [|x l IH]; [reflexivity|].
  cbn [flat_map]. rewrite length_app, IH. simpl. lia.
Qed.

(** A SHA-256 digest is thirty-two octets. *)
Lemma sha256_length (msg : list Z) : length (sha256 msg) = 32%nat.
Proof.
  unfold sha256. rewrite flat_be_octets_length, blocks_length; reflexivity.
Qed.

Lemma sha256_range (msg : list Z) : Forall octet (sha256 msg).
Proof. apply flat_be_octets_range. Qed.

Lemma hex_digit_ascii (x : Z) :
  0 <= x < 16 -> (nat_of_ascii (hex_digit x) <? 128)%nat = true.
Proof.
  intros H.
  assert (E : x = 0 \/ x = 1 \/ x = 2 \/ x = 3 \/ x = 4 \/ x = 5 \/ x = 6 \/ x = 7 \/
              x = 8 \/ x = 9 \/ x = 10 \/ x = 11 \/ x = 12 \/ x = 13 \/ x = 14 \/ x = 15)
    by lia.
  repeat (destruct E as [->|E]; [reflexivity|]). subst x. reflexivity.
Qed.

Lemma hexdigest_ascii (bs : list Z) :
  Forall octet bs -> App.is_ascii (hexdigest bs) = true.
Proof.
  unfold App.is_ascii.
  induction 1 as [|b bs Hb _ IH]; [reflexivity|].
  cbn [hexdigest list_ascii_of_string forallb].
  unfold octet in Hb.
  rewrite !hex_digit_ascii, IH; [reflexivity| |].
  - apply Z.mod_pos_bound. lia.
  - split; [apply Z.div_pos; lia|apply Z.div_lt_upper_bound; lia].
Qed.

Lemma hexdigest_length (bs : list Z) :
  String.length (hexdigest bs) = (2 * length bs)%nat.
Proof. induction bs as [|b bs IH]; simpl; [reflexivity|]. rewrite IH. lia. Qed.

(** [hexdigest()] of an HMAC-SHA256: sixty-four ASCII characters. *)
Lemma hmac_hexdigest (key msg : list Z) :
  String.length (hexdigest (hmac_sha256 key msg)) = 64%nat /\
  App.is_ascii (hexdigest (hmac_sha256 key msg)) = true.
Proof.
  unfold hmac_sha256. split.
  - now rewrite hexdigest_length, sha256_length.
  - apply hexdigest_ascii, sha256_range.
Qed.

End HashlibFacts.

(* ================================================================== *)
(** * The webhook                                                      *)
(* ================================================================== *)

Module AppFacts.
Import Py App Properties.

(** Open mode: with an empty secret every signature passes. *)
Lemma verify_hmac_signature_open_mode (env : environment) (request_body signature : string) :
  WEBHOOK_SECRET env = EmptyString ->
  verify_hmac_signature env request_body signature = Ok true.
Proof. intros H. unfold verify_hmac_signature. now rewrite H. Qed.

(** The secret is empty only when the variable is set to the empty
    string. *)
Lemma WEBHOOK_SECRET_empty (env : environment) :
  WEBHOOK_SECRET env = EmptyString <-> getenv env "WEBHOOK_SECRET" = Some EmptyString.
Proof.
  unfold WEBHOOK_SECRET.
  destruct (getenv env "WEBHOOK_SECRET") as [s|]; split; congruence.
Qed.

(** A signature computed with the secret in force is accepted. *)
Lemma verify_hmac_signature_signed (env : environment) (request_body : string) :
  verify_hmac_signature env request_body (sign (WEBHOOK_SECRET env) request_body) = Ok true.
Proof.
  unfold verify_hmac_signature, sign, compare_digest.
  destruct (String.eqb (WEBHOOK_SECRET env) EmptyString); [reflexivity|].
  destruct (HashlibFacts.hmac_hexdigest (Hashlib.encode (WEBHOOK_SECRET env))
                                        (Hashlib.octets request_body)) as [_ ->].
  now rewrite String.eqb_refl.
Qed.

(** With a non-empty secret, an absent or empty signature is refused. *)
Lemma verify_hmac_signature_empty (env : environment) (request_body : string) :
  WEBHOOK_SECRET env <> EmptyString ->
  verify_hmac_signature env request_body EmptyString = Ok false.
Proof.
  intros H. unfold verify_hmac_signature, compare_digest.
  destruct (String.eqb_spec (WEBHOOK_SECRET env) EmptyString) as [E|_]; [congruence|].
  destruct (HashlibFacts.hmac_hexdigest (Hashlib.encode (WEBHOOK_SECRET env))
                                        (Hashlib.octets request_body)) as [Hl ->].
  remember (Hashlib.hexdigest _) as expected eqn:He. clear He.
  destruct expected; [discriminate Hl|reflexivity].
Qed.

(** The pipeline always hands back a dict. *)
Lemma process_teams_message_dict (env : environment) (payload : value) :
  exists d, TeamsHandler.process_teams_message env payload = VDict d.
Proof.
  unfold TeamsHandler.process_teams_message.
  destruct (TeamsHandler.process_teams_message_try env payload) as [response|e] eqn:E;
    [|eexists; reflexivity].
  unfold TeamsHandler.process_teams_message_try in E.
  repeat match type of E with
         | context [bind ?m _] => destruct m; cbn [bind] in E; try discriminate
         end.
  injection E as <-. eexists; reflexivity.
Qed.

(** Rendering raises nothing that is an [HTTPException]. *)
Lemma render_cases (content : value) :
  render content = Ok tt \/
  exists e, render content = Raise e /\ is_http_exception e = false.
Proof.
  unfold render.
  destruct (finite content); cbn [negb]; [|right; eexists; split; reflexivity].
  destruct (encodable content); cbn [negb]; [now left|].
  right; eexists; split; reflexivity.
Qed.

(** The handler of [teams_webhook] around a [JSONResponse] of the [try]
    block: the response, or the 500 body when rendering raises. *)
Lemma teams_webhook_handler (env : environment) (status : nat) (content : value) :
  match JSONResponse status content with
  | Ok r => Ok r
  | Raise e =>
      if is_http_exception e then Raise e
      else JSONResponse 500 (VDict [("error", VStr "Failed to process message");
                                    ("timestamp", VStr (utcnow_isoformat env))])
  end =
  match render content with
  | Ok _ => Ok (Response status content)
  | Raise _ => JSONResponse 500 (VDict [("error", VStr "Failed to process message");
                                       ("timestamp", VStr (utcnow_isoformat env))])
  end.
Proof.
  unfold JSONResponse at 1.
  destruct (render_cases content) as [-> | (e & -> & He)]; cbn [bind]; [reflexivity|].
  now rewrite He.
Qed.

(** Whatever its content, the 500 answer has status 500. *)
Lemma http_status_500 (content : value) : http_status (JSONResponse 500 content) = 500.
Proof.
  unfold JSONResponse. destruct (render_cases content) as [-> | (e & -> & He)]; cbn [bind].
  - reflexivity.
  - destruct e; try reflexivity. discriminate He.
Qed.

(** What a request that reaches the pipeline is answered. *)
Lemma teams_webhook_pipeline (env : environment) (req : request) (payload : value) :
  reaches_pipeline env req payload ->
  teams_webhook env req =
  match render (TeamsHandler.process_teams_message env payload) with
  | Ok _ => Ok (Response 200 (TeamsHandler.process_teams_message env payload))
  | Raise _ => JSONResponse 500 (VDict [("error", VStr "Failed to process message");
                                       ("timestamp", VStr (utcnow_isoformat env))])
  end.
Proof.
  intros (Hv & Hj & Hl & (mt & Hg & Hm) & Hth & Hto).
  unfold teams_webhook, teams_webhook_try.
  rewrite Hv. cbn [bind negb]. rewrite Hj. cbn [bind]. rewrite Hl. cbn [bind].
  rewrite Hg. cbn [bind]. rewrite Hm, Hth, Hto. cbn [negb].
  destruct (process_teams_message_dict env payload) as [d Hd].
  rewrite Hd at 1. cbn [LoggerConfig.log_response get bind].
  apply teams_webhook_handler.
Qed.

(** The exceptions the stages of the webhook can raise. *)
Lemma verify_hmac_signature_cases (env : environment) (request_body signature : string) :
  (exists b, verify_hmac_signature env request_body signature = Ok b) \/
  verify_hmac_signature env request_body signature = Raise TypeError.
Proof.
  unfold verify_hmac_signature, compare_digest.
  destruct (String.eqb (WEBHOOK_SECRET env) EmptyString); [left; eexists; reflexivity|].
  destruct (is_ascii signature && _); [left; eexists; reflexivity|now right].
Qed.

Lemma get_cases (obj : value) (k : string) (default : value) :
  (exists v, get obj k default = Ok v) \/ get obj k default = Raise AttributeError.
Proof. destruct obj; simpl; (left; eexists; reflexivity) || now right. Qed.

Lemma log_request_cases (payload : value) :
  LoggerConfig.log_request payload = Ok tt \/
  LoggerConfig.log_request payload = Raise AttributeError.
Proof.
  unfold LoggerConfig.log_request.
  repeat match goal with
         | |- context [bind (get ?o ?k ?d) _] =>
             destruct (get_cases o k d) as [[? ->]| ->]; cbn [bind]; [|now right]
         end.
  now left.
Qed.

(** The only way to a 503 is a [teams_handler] that cannot be imported. *)
Lemma teams_webhook_503 (env : environment) (req : request) :
  http_status (teams_webhook env req) = 503 ->
  teams_handler_importable env = false.
Proof.
  unfold teams_webhook, teams_webhook_try.
  destruct (verify_hmac_signature_cases env (body req)
              (match x_teams_signature req with Some s => s | None => EmptyString end))
    as [[[|] ->]| ->]; cbn [bind negb is_http_exception];
    [|cbn; discriminate|rewrite http_status_500; discriminate].
  destruct (json req) as [payload|e]; cbn [bind]; [|cbn; discriminate].
  destruct (log_request_cases payload) as [-> | ->]; cbn [bind is_http_exception];
    [|rewrite http_status_500; discriminate].
  destruct (get_cases payload "type" (VStr EmptyString)) as [[mt ->]| ->];
    cbn [bind is_http_exception]; [|rewrite http_status_500; discriminate].
  destruct (eq_str mt "message"); cbn [negb]; [|vm_compute; discriminate].
  destruct (teams_handler_importable env); cbn [negb]; [|reflexivity].
  destruct (wait_for_times_out env); [vm_compute; discriminate|].
  destruct (process_teams_message_dict env payload) as [d Hd].
  rewrite Hd at 1. cbn [LoggerConfig.log_response get bind].
  rewrite teams_webhook_handler.
  destruct (render _); [cbn; discriminate|rewrite http_status_500; discriminate].
Qed.

(** With agents that cannot be imported, a well-formed message is
    answered with the error card of the [except ImportError] clause. *)
Lemma process_teams_message_unavailable (env : environment) (payload : value)
      (text : string) (sender conversation : list (string * value)) :
  import_agents env = Raise ImportError ->
  adaptive_cards_importable env = true ->
  get payload "text" (VStr EmptyString) = Ok (VStr text) ->
  get payload "from" (VDict []) = Ok (VDict sender) ->
  get payload "conversation" (VDict []) = Ok (VDict conversation) ->
  exists card,
    AdaptiveCards.create_error_card (VStr "Agent service is temporarily unavailable") = Ok card /\
    TeamsHandler.process_teams_message env payload =
    VDict [("type", VStr "message");
           ("from", VDict [("id", VStr "bot"); ("name", VStr "ADK Weather Bot")]);
           ("conversation", VDict conversation);
           ("recipient", VDict sender);
           ("attachments", VList [card]);
           ("timestamp", VStr (utcnow_isoformat env))].
Proof.
  intros Himp Hac Ht Hf Hc.
  eexists. split; [reflexivity|].
  unfold TeamsHandler.process_teams_message, TeamsHandler.process_teams_message_try.
  rewrite Ht, Hf, Hc. cbn [bind TeamsHandler.strip_method get].
  destruct (TeamsHandlerFacts.parse_message_intent_total (PyStr.strip text))
    as (intent & city & ->).
  cbn [bind fst snd].
  rewrite (RouterFacts.route_to_agent_import_error env intent city Himp), Hac.
  reflexivity.
Qed.

(** When the reply around a card can be rendered. *)
Lemma render_ok (content : value) :
  render content = Ok tt <-> Shapes.renderable content = true.
Proof.
  unfold render, Shapes.renderable.
  destruct (finite content), (encodable content); cbn; split; congruence.
Qed.

Lemma render_reply (env : environment) (conversation sender card : value) :
  Shapes.renderable card = true ->
  (render (Shapes.reply env conversation sender (VList [card])) = Ok tt <->
   Shapes.renderable conversation && Shapes.renderable sender &&
   PyStr.encodable (utcnow_isoformat env) = true).
Proof.
  intros Hcard. rewrite render_ok.
  unfold Shapes.renderable in *. apply andb_prop in Hcard as [Hf He].
  unfold Shapes.reply. cbn [finite encodable forallb fst snd].
  rewrite Hf, He.
  destruct (finite conversation), (encodable conversation), (finite sender),
    (encodable sender), (PyStr.encodable (utcnow_isoformat env));
    vm_compute; split; congruence.
Qed.

End AppFacts.

(** C1, where the code departs from it.  With the variable WEBHOOK_SECRET
    not set, the secret in force is the default "your-webhook-secret", not
    the empty one: verification is not skipped, and a request that carries
    no signature is refused with status 401 whatever its body. *)
Theorem verify_hmac_signature_unset_secret (env : Py.environment) (req : App.request) :
  Py.getenv env "WEBHOOK_SECRET" = None ->
  App.x_teams_signature req = None ->
  App.WEBHOOK_SECRET env = "your-webhook-secret" /\
  App.verify_hmac_signature env (App.body req) EmptyString = Py.Ok false /\
  App.teams_webhook env req = Py.Raise (Py.HTTPException 401 "Invalid signature").
Proof.
  intros Henv Hsig.
  assert (Hs : App.WEBHOOK_SECRET env = "your-webhook-secret")
    by (unfold App.WEBHOOK_SECRET; now rewrite Henv).
  assert (Hv : App.verify_hmac_signature env (App.body req) EmptyString = Py.Ok false)
    by (apply AppFacts.verify_hmac_signature_empty; rewrite Hs; discriminate).
  repeat split; [assumption|assumption|].
  unfold App.teams_webhook, App.teams_webhook_try.
  rewrite Hsig, Hv. reflexivity.
Qed.

Lemma verify_hmac_signature_unset_secret_witness :
  Py.getenv Properties.default_env "WEBHOOK_SECRET" = None /\
  App.x_teams_signature Properties.unsigned_request = None /\
  App.WEBHOOK_SECRET Properties.default_env = "your-webhook-secret" /\
  App.verify_hmac_signature Properties.default_env
    (App.body Properties.unsigned_request) EmptyString = Py.Ok false /\
  App.teams_webhook Properties.default_env Properties.unsigned_request =
    Py.Raise (Py.HTTPException 401 "Invalid signature").
Proof.
  split; [reflexivity|]. split; [reflexivity|].
  apply (verify_hmac_signature_unset_secret Properties.default_env Properties.unsigned_request);
    reflexivity.
Defined.

Module OpenModeExamples.
Import Py App Properties.

(** The digest the verifier expects for an empty body under the default
    secret. *)
Example expected_signature_default_secret :
  sign "your-webhook-secret" EmptyString =
  "9b05faa11d309c22d73f09cf58fa137bd436128250daccc545773e612633055f".
Proof. vm_compute. reflexivity. Qed.

Example verify_default_secret_refuses :
  verify_hmac_signature default_env EmptyString EmptyString = Ok false /\
  verify_hmac_signature default_env EmptyString "deadbeef" = Ok false.
Proof. split; vm_compute; reflexivity. Qed.

(** Open mode is reached by setting the variable to the empty string. *)
Example verify_open_env_accepts :
  verify_hmac_signature open_env EmptyString EmptyString = Ok true /\
  http_status (teams_webhook open_env unsigned_request) = 200.
Proof. split; vm_compute; reflexivity. Qed.

(** A signature header with a character above 127 makes the comparison
    raise, which the endpoint answers with 500. *)
Example verify_non_ascii_signature :
  verify_hmac_signature default_env EmptyString (String (ascii_of_nat 233) EmptyString) =
    Raise TypeError /\
  http_status (teams_webhook default_env
                 {| x_teams_signature := Some (String (ascii_of_nat 233) EmptyString);
                    body := EmptyString;
                    json := Raise (OtherException "JSONDecodeError") |}) = 500.
Proof. split; vm_compute; reflexivity. Qed.

End OpenModeExamples.

(* ================================================================== *)
(** * City extraction on a blank capture                               *)
(* ================================================================== *)

Module ExtractionFacts.
Import Py TeamsHandler.

(** What holds of C2 on every text: a weather keyword gives WEATHER, paired
    with the string [extract_city_from_text] returns. *)
Lemma parse_message_intent_weather (text : string) :
  Properties.occurs_in weather_keywords (PyStr.lower text) ->
  exists city,
    extract_city_from_text text = Ok city /\
    parse_message_intent text = Ok (MessageIntent.WEATHER, Some city).
Proof.
  intros H. apply ContainsFacts.any_in_occurs in H.
  assert (Hne : text <> EmptyString) by (intros ->; discriminate H).
  destruct (TeamsHandlerFacts.parse_message_intent_cascade text Hne) as (city & Hc & ->).
  exists city. cbv zeta. now rewrite H.
Qed.

(** "New York" is what comes out when no pattern matches and no known
    city occurs. *)
Lemma extract_city_default (text : string) :
  first_pattern common_patterns (PyStr.lower text) = Ok None ->
  first_default_city default_cities (PyStr.lower text) = None ->
  extract_city_from_text text = Ok "New York".
Proof. intros H1 H2. unfold extract_city_from_text. now rewrite H1, H2. Qed.

Example extract_city_examples :
  extract_city_from_text "What's the weather in London?" = Ok "London" /\
  extract_city_from_text "will it rain today" = Ok "New York" /\
  extract_city_from_text "weather in new york today!" = Ok "New York" /\
  extract_city_from_text "forecast for chicago please" = Ok "Chicago" /\
  extract_city_from_text "san   jose traffic" = Ok "San Jose".
Proof. repeat split; vm_compute; reflexivity. Qed.

End ExtractionFacts.

(** C2, where the code departs from it.  The text "weather in  ?" (two
    spaces before the question mark) holds the keyword "weather"; the first
    pattern matches it with a group made of one space, which strips to the
    empty string, so [parse_message_intent] returns WEATHER paired with an
    empty city. *)
Theorem parse_message_intent_blank_city :
  PyStr.contains "weather" (PyStr.lower "weather in  ?") = true /\
  Re.search (nth 0 TeamsHandler.common_patterns Re.Eos) (PyStr.lower "weather in  ?") =
    Some (Some " ") /\
  TeamsHandler.extract_city_from_text "weather in  ?" = Py.Ok EmptyString /\
  TeamsHandler.parse_message_intent "weather in  ?" =
    Py.Ok (MessageIntent.WEATHER, Some EmptyString).
Proof. repeat split; vm_compute; reflexivity. Qed.

(* ================================================================== *)
(** * Agents that cannot be imported                                   *)
(* ================================================================== *)

(** C3 as stated fails: with agents that cannot be imported, a signed
    weather question is answered with status 200, not 503. *)
Lemma teams_webhook_unavailable_agents_200 :
  Py.import_agents Properties.unavailable_env = Py.Raise Py.ImportError /\
  App.http_status (App.teams_webhook Properties.unavailable_env Properties.weather_request) = 200 /\
  App.http_status (App.teams_webhook Properties.unavailable_env Properties.weather_request) <> 503.
Proof.
  split; [reflexivity|].
  split; [vm_compute; reflexivity|vm_compute; discriminate].
Qed.

(** C3, as the code has it.  When importing the agents raises
    [ImportError] while a message is processed, [route_to_agent] answers
    every intent with the error envelope "Agent service is temporarily
    unavailable", and the endpoint never responds with 503: it responds
    with status 200, its body being the reply of [process_teams_message],
    whenever [JSONResponse] can render that reply, and with 500 when it
    cannot.  For a message with a text, a sender and a conversation the
    reply carries the error card with that message, and it can be rendered
    exactly when the sender and the conversation it echoes hold no [nan]
    or infinity and only text that can be encoded. *)
Theorem teams_webhook_unavailable_agents (env : Py.environment) (req : App.request)
        (payload : Py.value) :
  Py.import_agents env = Py.Raise Py.ImportError ->
  Properties.reaches_pipeline env req payload ->
  (App.render (TeamsHandler.process_teams_message env payload) = Py.Ok tt ->
   App.http_status (App.teams_webhook env req) = 200 /\
   App.teams_webhook env req =
     Py.Ok (App.Response 200 (TeamsHandler.process_teams_message env payload))) /\
  (App.render (TeamsHandler.process_teams_message env payload) <> Py.Ok tt ->
   App.http_status (App.teams_webhook env req) = 500) /\
  App.http_status (App.teams_webhook env req) <> 503 /\
  (forall intent city,
      TeamsHandler.route_to_agent env intent city =
      (TeamsHandler.error_envelope "Agent service is temporarily unavailable", [])) /\
  (forall text sender conversation,
      Py.adaptive_cards_importable env = true ->
      Py.get payload "text" (Py.VStr EmptyString) = Py.Ok (Py.VStr text) ->
      Py.get payload "from" (Py.VDict []) = Py.Ok (Py.VDict sender) ->
      Py.get payload "conversation" (Py.VDict []) = Py.Ok (Py.VDict conversation) ->
      exists card,
        AdaptiveCards.create_error_card
          (Py.VStr "Agent service is temporarily unavailable") = Py.Ok card /\
        Properties.field (TeamsHandler.process_teams_message env payload) "attachments" =
        Some (Py.VList [card]) /\
        (App.render (TeamsHandler.process_teams_message env payload) = Py.Ok tt <->
         Shapes.renderable (Py.VDict conversation) &&
         Shapes.renderable (Py.VDict sender) &&
         PyStr.encodable (Py.utcnow_isoformat env) = true)).
Proof.
  intros Himp Hreach.
  rewrite (AppFacts.teams_webhook_pipeline env req payload Hreach).
  split; [|split; [|split; [|split]]].
  - intros ->. split; reflexivity.
  - destruct (App.render _) as [[]|e]; [congruence|].
    intros _. apply AppFacts.http_status_500.
  - destruct (App.render _); [discriminate|].
    rewrite AppFacts.http_status_500. discriminate.
  - intros intent city. now apply RouterFacts.route_to_agent_import_error.
  - intros text sender conversation Hac Ht Hf Hc.
    destruct (AppFacts.process_teams_message_unavailable
                env payload text sender conversation Himp Hac Ht Hf Hc)
      as (card & Hcard & ->).
    exists card. split; [exact Hcard|]. split; [reflexivity|].
    injection Hcard as <-.
    apply (AppFacts.render_reply env (Py.VDict conversation) (Py.VDict sender)).
    vm_compute. reflexivity.
Qed.

Lemma teams_webhook_unavailable_agents_witness :
  Py.import_agents Properties.unavailable_env = Py.Raise Py.ImportError /\
  Properties.reaches_pipeline Properties.unavailable_env Properties.weather_request
    (Properties.message_payload "What's the weather in London?") /\
  App.render
    (TeamsHandler.process_teams_message Properties.unavailable_env
       (Properties.message_payload "What's the weather in London?")) = Py.Ok tt /\
  App.http_status (App.teams_webhook Properties.unavailable_env Properties.weather_request) = 200 /\
  App.teams_webhook Properties.unavailable_env Properties.weather_request =
    Py.Ok (App.Response 200
             (TeamsHandler.process_teams_message Properties.unavailable_env
                (Properties.message_payload "What's the weather in London?"))).
Proof.
  assert (Hreach : Properties.reaches_pipeline Properties.unavailable_env
                     Properties.weather_request
                     (Properties.message_payload "What's the weather in London?")).
  { unfold Properties.reaches_pipeline.
    split; [vm_compute; reflexivity|].
    split; [reflexivity|].
    split; [reflexivity|].
    split; [exists (Py.VStr "message"); split; reflexivity|].
    split; reflexivity. }
  assert (Hr : App.render
                 (TeamsHandler.process_teams_message Properties.unavailable_env
                    (Properties.message_payload "What's the weather in London?")) = Py.Ok tt)
    by (vm_compute; reflexivity).
  split; [reflexivity|]. split; [exact Hreach|]. split; [exact Hr|].
  exact (proj1 (teams_webhook_unavailable_agents Properties.unavailable_env
                  Properties.weather_request
                  (Properties.message_payload "What's the weather in London?")
                  eq_refl Hreach) Hr).
Defined.

Module UnavailableAgentsExamples.
Import Py App Properties.

(** The card the client gets in that case. *)
Example unavailable_agents_card :
  match teams_webhook unavailable_env weather_request with
  | Ok resp =>
      at_path (content resp)
              [Key "attachments"; Index 0; Key "content"; Key "body"; Index 0;
               Key "items"; Index 1; Key "text"]
  | Raise _ => None
  end = Some (VStr "Agent service is temporarily unavailable").
Proof. vm_compute. reflexivity. Qed.

(** With the agents in place the same request gets the weather card for
    London. *)
Example weather_card_for_london :
  match teams_webhook default_env weather_request with
  | Ok resp =>
      at_path (content resp)
              [Key "attachments"; Index 0; Key "content"; Key "body"; Index 0;
               Key "items"; Index 0; Key "text"]
  | Raise _ => None
  end = Some (VStr "☁️ Weather in London").
Proof. vm_compute. reflexivity. Qed.

(** 503 is the answer when [teams_handler] itself cannot be imported. *)
Example teams_handler_missing_503 :
  http_status
    (teams_webhook
       {| getenv := getenv default_env;
          import_agents := import_agents default_env;
          teams_handler_importable := false;
          adaptive_cards_importable := true;
          now_long := now_long default_env;
          new_york_time := new_york_time default_env;
          new_york_date := new_york_date default_env;
          utcnow_isoformat := utcnow_isoformat default_env;
          wait_for_times_out := false |}
       weather_request) = 503.
Proof. vm_compute. reflexivity. Qed.

End UnavailableAgentsExamples.

(* ================================================================== *)
(** * Replaying the priority order                                     *)
(* ================================================================== *)

Lemma parse_message_intent_priority_witness :
  Properties.occurs_in TeamsHandler.weather_keywords
    (PyStr.lower "Is it sunny at this time in Rome?") /\
  (exists city,
      TeamsHandler.parse_message_intent "Is it sunny at this time in Rome?" =
      Py.Ok (MessageIntent.WEATHER, city)) /\
  ~ Properties.occurs_in TeamsHandler.weather_keywords (PyStr.lower "qwerty") /\
  ~ Properties.occurs_in TeamsHandler.time_keywords (PyStr.lower "qwerty") /\
  ~ Properties.occurs_in TeamsHandler.traffic_keywords (PyStr.lower "qwerty") /\
  ~ Properties.occurs_in TeamsHandler.help_keywords (PyStr.lower "qwerty") /\
  "qwerty" <> EmptyString /\
  TeamsHandler.parse_message_intent "qwerty" = Py.Ok (MessageIntent.UNKNOWN, None).
Proof.
  assert (Hw : Properties.occurs_in TeamsHandler.weather_keywords
                 (PyStr.lower "Is it sunny at this time in Rome?")).
  { exists "sunny". split; [simpl; tauto|reflexivity]. }
  assert (H1 : ~ Properties.occurs_in TeamsHandler.weather_keywords (PyStr.lower "qwerty"))
    by (apply ContainsFacts.any_in_not_occurs; reflexivity).
  assert (H2 : ~ Properties.occurs_in TeamsHandler.time_keywords (PyStr.lower "qwerty"))
    by (apply ContainsFacts.any_in_not_occurs; reflexivity).
  assert (H3 : ~ Properties.occurs_in TeamsHandler.traffic_keywords (PyStr.lower "qwerty"))
    by (apply ContainsFacts.any_in_not_occurs; reflexivity).
  assert (H4 : ~ Properties.occurs_in TeamsHandler.help_keywords (PyStr.lower "qwerty"))
    by (apply ContainsFacts.any_in_not_occurs; reflexivity).
  assert (H5 : "qwerty" <> EmptyString) by discriminate.
  split; [exact Hw|].
  split; [exact (proj1 (parse_message_intent_priority "Is it sunny at this time in Rome?") Hw)|].
  repeat (split; [assumption|]).
  exact (proj2 (proj2 (proj2 (proj2 (parse_message_intent_priority "qwerty")))) H1 H2 H3 H4 H5).
Defined.

(* ================================================================== *)
(** * Outside ASCII                                                    *)
(* ================================================================== *)

Module UnicodeExamples.
Import PyStr.

(** The Kelvin sign lower-cases to [k], and U+0130 to [i] followed by
    U+0307: both can complete a keyword. *)
Example lower_kelvin : lower (of_octets [226; 132; 170]) = "k".
Proof. reflexivity. Qed.

Example lower_dotted_i : lower (of_octets [196; 176]) = String "i" (of_octets [204; 135]).
Proof. reflexivity. Qed.

Example parse_message_intent_kelvin :
  TeamsHandler.parse_message_intent ("what does the cloc" ++ of_octets [226; 132; 170] ++ " say") =
  Py.Ok (MessageIntent.TIME, Some "New York").
Proof. vm_compute. reflexivity. Qed.

Example parse_message_intent_dotted_i :
  TeamsHandler.parse_message_intent ("H" ++ of_octets [196; 176]) =
  Py.Ok (MessageIntent.HELP, None).
Proof. vm_compute. reflexivity. Qed.

(** A word that starts with U+00DF or with the ligature U+FB01. *)
Example capitalize_sharp_s : capitalize (of_octets [195; 159] ++ "A") = "Ssa".
Proof. reflexivity. Qed.

Example capitalize_fi : capitalize (of_octets [239; 172; 129] ++ "N") = "Fin".
Proof. reflexivity. Qed.

(** A hundred and fifty two-octet characters are a hundred and fifty
    characters, and the first two hundred characters of them are all of
    them. *)
Example len_two_octets :
  len (String.concat EmptyString (repeat (of_octets [195; 169]) 150)) = 150 /\
  String.length (String.concat EmptyString (repeat (of_octets [195; 169]) 150)) = 300 /\
  take 200 (String.concat EmptyString (repeat (of_octets [195; 169]) 150)) =
  String.concat EmptyString (repeat (of_octets [195; 169]) 150).
Proof. repeat split; vm_compute; reflexivity. Qed.

(** A lone surrogate cannot be encoded; a character of four octets
    can. *)
Example encodable_examples :
  encodable (of_octets [237; 160; 128]) = false /\
  encodable (of_octets [240; 159; 140; 164]) = true /\
  encodable (of_octets [226; 132; 170]) = true /\
  encodable (of_octets [192; 128]) = false.
Proof. repeat split; reflexivity. Qed.

(** A conversation that holds [nan] cannot be rendered: the signed
    message goes through the pipeline and is answered 500. *)
Example nan_conversation_500 :
  Properties.reaches_pipeline Properties.default_env Payloads.nan_request
    Payloads.nan_payload /\
  Shapes.renderable
    (TeamsHandler.process_teams_message Properties.default_env Payloads.nan_payload) = false /\
  App.http_status (App.teams_webhook Properties.default_env Payloads.nan_request) = 500.
Proof.
  split; [|split; vm_compute; reflexivity].
  unfold Properties.reaches_pipeline.
  split; [vm_compute; reflexivity|].
  split; [reflexivity|]. split; [reflexivity|].
  split; [exists (Py.VStr "message"); split; reflexivity|].
  split; reflexivity.
Qed.

End UnicodeExamples.

(* ================================================================== *)
(** * Further properties of the signature check                        *)
(* ================================================================== *)



(* ================================================================== *)
(** * Further properties of the webhook                                *)
(* ================================================================== *)

Module WebhookFacts.
Import Py App Properties Shapes.

Lemma get_dict (d : list (string * value)) (k : string) (default : value) :
  get (VDict d) k default = Ok (dict_get d k default).
Proof. reflexivity. Qed.

Lemma get_ok_dict (obj : value) (k : string) (default v : value) :
  get obj k default = Ok v -> exists d, obj = VDict d.
Proof. destruct obj; simpl; try discriminate. intros _. now eexists. Qed.

Lemma get_not_dict (obj : value) (k : string) (default : value) :
  is_dict obj = false -> get obj k default = Raise AttributeError.
Proof. destruct obj; simpl; try reflexivity. discriminate. Qed.

(** What [teams_webhook] does once the signature is accepted and the body
    is decoded. *)
Lemma teams_webhook_accepted (env : environment) (req : request) (payload : value) :
  verify_hmac_signature env (body req) (signature_of req) = Ok true ->
  json req = Ok payload ->
  teams_webhook env req =
  match LoggerConfig.log_request payload with
  | Raise _ => JSONResponse 500 (failure_body env)
  | Ok _ =>
      match payload with
      | VDict d =>
          if negb (eq_str (dict_get d "type" (VStr EmptyString)) "message")
          then Ok (Response 200 ignored_body)
          else if negb (teams_handler_importable env)
          then Ok (Response 503 (VDict [("error", VStr "Service temporarily unavailable")]))
          else if wait_for_times_out env
          then Ok (Response 504 (VDict [("error", VStr "Request processing timeout")]))
          else
            match render (TeamsHandler.process_teams_message env payload) with
            | Ok _ => Ok (Response 200 (TeamsHandler.process_teams_message env payload))
            | Raise _ => JSONResponse 500 (failure_body env)
            end
      | _ => JSONResponse 500 (failure_body env)
      end
  end.
Proof.
  intros Hv Hj. unfold teams_webhook, teams_webhook_try.
  fold (signature_of req). rewrite Hv. cbn [bind negb]. rewrite Hj. cbn [bind].
  destruct (AppFacts.log_request_cases payload) as [Hl|Hl]; rewrite Hl; cbn [bind];
    [|reflexivity].
  destruct payload; try discriminate Hl.
  cbn [get bind].
  destruct (eq_str (dict_get entries "type" (VStr EmptyString)) "message"); cbn [negb];
    [|reflexivity].
  destruct (teams_handler_importable env); cbn [negb]; [|reflexivity].
  destruct (wait_for_times_out env); [reflexivity|].
  destruct (AppFacts.process_teams_message_dict env (VDict entries)) as [d Hd].
  rewrite Hd at 1. cbn [LoggerConfig.log_response get bind].
  apply AppFacts.teams_webhook_handler.
Qed.

(** Without an accepted signature or a decoded body. *)
Lemma teams_webhook_refused (env : environment) (req : request) :
  verify_hmac_signature env (body req) (signature_of req) = Ok false ->
  teams_webhook env req = Raise (HTTPException 401 "Invalid signature").
Proof.
  intros Hv. unfold teams_webhook, teams_webhook_try.
  fold (signature_of req). now rewrite Hv.
Qed.

Lemma teams_webhook_type_error (env : environment) (req : request) :
  verify_hmac_signature env (body req) (signature_of req) = Raise TypeError ->
  teams_webhook env req = JSONResponse 500 (failure_body env).
Proof.
  intros Hv. unfold teams_webhook, teams_webhook_try.
  fold (signature_of req). now rewrite Hv.
Qed.

Lemma teams_webhook_undecoded (env : environment) (req : request) (e : exn) :
  verify_hmac_signature env (body req) (signature_of req) = Ok true ->
  json req = Raise e ->
  teams_webhook env req = Raise (HTTPException 400 "Invalid JSON payload").
Proof.
  intros Hv Hj. unfold teams_webhook, teams_webhook_try.
  fold (signature_of req). now rewrite Hv, Hj.
Qed.

End WebhookFacts.

(** X2.  [log_request] succeeds exactly on a dict payload whose "from" and
    "conversation" entries, when present, are dicts themselves; on any
    other payload evaluating its arguments raises [AttributeError]. *)
Theorem log_request_succeeds_iff (payload : Py.value) :
  (LoggerConfig.log_request payload = Py.Ok tt <->
   exists d,
     payload = Py.VDict d /\
     Shapes.is_dict (Py.dict_get d "from" (Py.VDict [])) = true /\
     Shapes.is_dict (Py.dict_get d "conversation" (Py.VDict [])) = true) /\
  (LoggerConfig.log_request payload = Py.Ok tt \/
   LoggerConfig.log_request payload = Py.Raise Py.AttributeError).
Proof.
  split; [|apply AppFacts.log_request_cases].
  unfold LoggerConfig.log_request. split.
  - destruct payload as [| | | | |d|]; try discriminate.
    cbn [Py.get Py.bind].
    destruct (Py.dict_get d "from" (Py.VDict [])) eqn:Ef;
      cbn [Py.get Py.bind]; try discriminate.
    destruct (Py.dict_get d "conversation" (Py.VDict [])) eqn:Ec;
      cbn [Py.get Py.bind]; try discriminate.
    intros _. exists d. rewrite Ef, Ec. repeat split.
  - intros (d & -> & Hf & Hc). cbn [Py.get Py.bind].
    destruct (Py.dict_get d "from" (Py.VDict [])); try discriminate Hf.
    cbn [Py.get Py.bind].
    destruct (Py.dict_get d "conversation" (Py.VDict [])); try discriminate Hc.
    reflexivity.
Qed.

(** X3.  [teams_webhook] answers with one of the statuses 200, 400, 401,
    500, 503, 504 and with no other, whatever the request and the
    environment. *)
Theorem teams_webhook_statuses (env : Py.environment) (req : App.request) :
  In (App.http_status (App.teams_webhook env req)) [200; 400; 401; 500; 503; 504].
Proof.
  destruct (AppFacts.verify_hmac_signature_cases env (App.body req) (Shapes.signature_of req))
    as [[[|] Hv]|Hv].
  - destruct (App.json req) as [payload|e] eqn:Hj.
    + rewrite (WebhookFacts.teams_webhook_accepted env req payload Hv Hj).
      destruct (LoggerConfig.log_request payload);
        [|rewrite AppFacts.http_status_500; simpl; tauto].
      destruct payload; try (rewrite AppFacts.http_status_500; simpl; tauto).
      repeat match goal with
             | |- context [if ?b then _ else _] => destruct b
             end; try (simpl; tauto).
      rewrite AppFacts.http_status_500; simpl; tauto.
    + rewrite (WebhookFacts.teams_webhook_undecoded env req e Hv Hj). simpl. tauto.
  - rewrite (WebhookFacts.teams_webhook_refused env req Hv). simpl. tauto.
  - rewrite (WebhookFacts.teams_webhook_type_error env req Hv).
    rewrite AppFacts.http_status_500. simpl. tauto.
Qed.




(* ================================================================== *)
(** * Further properties of the formatter                              *)
(* ================================================================== *)

Module FormatterFacts.
Import Py AdaptiveCards Properties Shapes.

Ltac is_attachment := eexists; reflexivity.

Lemma create_weather_card_attachment (env : environment) (city data : value) :
  exists c, create_weather_card env city data = Ok (attachment c).
Proof. unfold create_weather_card, extract_weather_info. destruct (as_str data); is_attachment. Qed.

Lemma create_time_card_attachment (env : environment) (city data : value) :
  exists c, create_time_card env city data = Ok (attachment c).
Proof.
  unfold create_time_card, extract_time_info.
  destruct (match as_str data with
            | Some s => PyStr.contains "time" (PyStr.lower s)
            | None => false
            end); is_attachment.
Qed.

Lemma create_traffic_card_attachment (env : environment) (city data : value) :
  exists c, create_traffic_card env city data = Ok (attachment c).
Proof.
  unfold create_traffic_card, extract_traffic_info.
  destruct (as_str data) as [s|]; [|is_attachment].
  destruct (PyStr.contains "heavy" (PyStr.lower s)); [is_attachment|].
  destruct (PyStr.contains "light" (PyStr.lower s)); is_attachment.
Qed.

(** Every card of the formatter is a dict with the two keys contentType and
    content, and a well-formed one. *)
Lemma format_agent_response_attachment (env : environment) (response : value) :
  exists c,
    format_agent_response env response = Ok (attachment c) /\
    well_formed_card (attachment c) = true.
Proof.
  assert (H : exists c, format_agent_response env response = Ok (attachment c)).
  { unfold format_agent_response.
    destruct (format_agent_response_try env response) as [card|e] eqn:E; [|is_attachment].
    unfold format_agent_response_try in E.
    destruct (get response "type" (Str "unknown")) as [response_type|]; [|discriminate].
    destruct (get response "city" (Str "Unknown")) as [city|]; [|discriminate].
    destruct (get response "data" (VDict [])) as [data|]; [|discriminate].
    cbn [bind] in E.
    destruct (eq_str response_type "weather").
    { destruct (create_weather_card_attachment env city data) as [c Hc]. exists c. congruence. }
    destruct (eq_str response_type "time").
    { destruct (create_time_card_attachment env city data) as [c Hc]. exists c. congruence. }
    destruct (eq_str response_type "traffic").
    { destruct (create_traffic_card_attachment env city data) as [c Hc]. exists c. congruence. }
    destruct (eq_str response_type "help").
    { injection E as <-. is_attachment. }
    destruct (eq_str response_type "error").
    { destruct (get data "message" (Str "An error occurred")) as [m|]; [|discriminate].
      injection E as <-. is_attachment. }
    injection E as <-. is_attachment. }
  destruct H as [c H]. exists c. split; [exact H|].
  unfold format_agent_response in H.
  destruct (format_agent_response_try env response) as [card|e] eqn:E.
  - injection H as ->.
    exact (AdaptiveCardsFacts.format_agent_response_try_ok env response _ E).
  - destruct (AdaptiveCardsFacts.create_error_card_ok
                (Str "Failed to format response. Please try again.")) as (c' & Hc' & Hw).
    congruence.
Qed.

End FormatterFacts.

(* ================================================================== *)
(** * Further properties of the message pipeline                       *)
(* ================================================================== *)

(** X6.  [process_teams_message] never raises and always answers with a
    message: either the apology of its [except] clause, or a reply that
    echoes the conversation and the sender of the payload and carries
    exactly one attachment - a well-formed card whenever [adaptive_cards]
    can be imported.  The branch that would reuse an "attachments" entry
    of the formatted response is never taken. *)
Theorem process_teams_message_shape (env : Py.environment) (payload : Py.value) :
  TeamsHandler.process_teams_message env payload = Shapes.apology env \/
  exists d attachment,
    payload = Py.VDict d /\
    TeamsHandler.process_teams_message env payload =
      Shapes.reply env (Py.dict_get d "conversation" (Py.VDict []))
                   (Py.dict_get d "from" (Py.VDict [])) (Py.VList [attachment]) /\
    (Py.adaptive_cards_importable env = true ->
     Properties.well_formed_card attachment = true).
Proof.
  unfold TeamsHandler.process_teams_message.
  destruct (TeamsHandler.process_teams_message_try env payload) as [response|e] eqn:E;
    [|now left].
  right. unfold TeamsHandler.process_teams_message_try in E.
  destruct payload as [| | | | |d|]; try discriminate E.
  cbn [Py.get Py.bind] in E.
  destruct (TeamsHandler.strip_method _) as [text|]; cbn [Py.bind] in E; [|discriminate].
  destruct (Py.get (Py.dict_get d "from" (Py.VDict [])) "name" _); cbn [Py.bind] in E;
    [|discriminate].
  destruct (Py.get (Py.dict_get d "from" (Py.VDict [])) "id" _); cbn [Py.bind] in E;
    [|discriminate].
  destruct (Py.get (Py.dict_get d "conversation" (Py.VDict [])) "id" _); cbn [Py.bind] in E;
    [|discriminate].
  destruct (TeamsHandler.parse_message_intent text) as [parsed|]; cbn [Py.bind] in E;
    [|discriminate].
  destruct (Py.adaptive_cards_importable env) eqn:Hac.
  - destruct (FormatterFacts.format_agent_response_attachment env
                (fst (TeamsHandler.route_to_agent env (fst parsed) (snd parsed))))
      as (c & Hc & Hw).
    rewrite Hc in E. cbn in E. injection E as <-.
    exists d, (AdaptiveCards.attachment c). repeat split. intros _. exact Hw.
  - destruct (Py.get (fst (TeamsHandler.route_to_agent env (fst parsed) (snd parsed)))
                     "data" (Py.VDict [])) as [data|]; cbn [Py.bind] in E; [|discriminate].
    destruct (Py.get data "message" _) as [message|]; cbn [Py.bind] in E; [|discriminate].
    cbn in E. injection E as <-.
    eexists d, _. repeat split. discriminate.
Qed.

(* ================================================================== *)
(** * Further properties of the router                                 *)
(* ================================================================== *)

Module RoutingFacts.
Import Py TeamsHandler Routing.

Lemma city_or_default_nonempty (city : option string) :
  city_or_default city <> EmptyString.
Proof.
  unfold city_or_default. destruct city as [c|]; [|discriminate].
  destruct (String.eqb_spec c EmptyString); [discriminate|assumption].
Qed.

Lemma agent_intent_cases (intent : string) :
  In intent agent_intents ->
  intent = "weather" \/ intent = "time" \/ intent = "traffic".
Proof. intros [H|[H|[H|[]]]]; subst; auto. Qed.

(** The three agent branches are one scheme. *)
Lemma route_to_agent_scheme (env : environment) (agents : agent_module)
      (intent : string) (city : option string) :
  import_agents env = Ok agents ->
  In intent agent_intents ->
  route_to_agent env intent city =
  (match run (agent_for agents intent) (prompt_for intent (city_or_default city)) with
   | Ok reply => envelope intent (city_or_default city) reply
   | Raise e => error_envelope (failure_message e)
   end,
   [call_for intent (prompt_for intent (city_or_default city))]).
Proof.
  intros Himp Hin. unfold route_to_agent, route_to_agent_try. rewrite Himp.
  destruct (agent_intent_cases intent Hin) as [-> | [-> | ->]];
    cbn [String.eqb Ascii.eqb Bool.eqb MessageIntent.WEATHER MessageIntent.TIME
         MessageIntent.TRAFFIC agent_for prompt_for call_for];
    match goal with
    | |- context [run ?a ?p] => destruct (run a p) as [reply|e]
    end; cbn [bind]; try reflexivity;
    unfold failure_message; destruct (is_import_error e); reflexivity.
Qed.

Lemma route_to_agent_other (env : environment) (agents : agent_module)
      (intent : string) (city : option string) :
  import_agents env = Ok agents ->
  ~ In intent agent_intents ->
  snd (route_to_agent env intent city) = [].
Proof.
  intros Himp Hnot. unfold route_to_agent, route_to_agent_try. rewrite Himp.
  destruct (String.eqb_spec intent MessageIntent.WEATHER) as [->|_];
    [exfalso; apply Hnot; simpl; tauto|].
  destruct (String.eqb_spec intent MessageIntent.TIME) as [->|_];
    [exfalso; apply Hnot; simpl; tauto|].
  destruct (String.eqb_spec intent MessageIntent.TRAFFIC) as [->|_];
    [exfalso; apply Hnot; simpl; tauto|].
  destruct (String.eqb intent MessageIntent.HELP); reflexivity.
Qed.

Lemma route_to_agent_import_fails (env : environment) (e : exn)
      (intent : string) (city : option string) :
  import_agents env = Raise e ->
  route_to_agent env intent city = (error_envelope (failure_message e), []).
Proof.
  intros Himp. unfold route_to_agent, route_to_agent_try, failure_message. rewrite Himp.
  destruct (is_import_error e); reflexivity.
Qed.

End RoutingFacts.

(** X7.  A dispatch calls an agent at most once, and only for the intents
    weather, time and traffic with the agents imported: weather and time go
    to the weather/time agent and traffic to the traffic agent, with the
    prompt built from the city, where a missing or empty city is replaced
    by "New York" - no prompt ever names an empty city.  Help, unknown
    intents and a failed import call nobody. *)
Theorem route_to_agent_calls (env : Py.environment) (intent : string) (city : option string) :
  let calls := snd (TeamsHandler.route_to_agent env intent city) in
  let named := TeamsHandler.city_or_default city in
  named <> EmptyString /\
  (forall c, city = Some c -> c <> EmptyString -> named = c) /\
  (calls = [] \/
   calls = [Routing.call_for intent (Routing.prompt_for intent named)]) /\
  (calls <> [] <->
   (exists agents, Py.import_agents env = Py.Ok agents) /\ In intent Routing.agent_intents) /\
  (forall prompt, In (TeamsHandler.TrafficAgentRun prompt) calls -> intent = "traffic") /\
  (forall prompt, In (TeamsHandler.WeatherTimeAgentRun prompt) calls ->
                  intent = "weather" \/ intent = "time").
Proof.
  cbv zeta.
  split; [apply RoutingFacts.city_or_default_nonempty|].
  split.
  { intros c -> Hc. unfold TeamsHandler.city_or_default.
    destruct (String.eqb_spec c EmptyString); congruence. }
  destruct (Py.import_agents env) as [agents|e] eqn:Himp.
  - destruct (in_dec string_dec intent Routing.agent_intents) as [Hin|Hnot].
    + rewrite (RoutingFacts.route_to_agent_scheme env agents intent city Himp Hin).
      cbn [snd].
      split; [now right|].
      split; [split; [intros _; split; [now exists agents|assumption]|discriminate]|].
      destruct (RoutingFacts.agent_intent_cases intent Hin) as [-> | [-> | ->]];
        split; intros prompt [H|[]]; try discriminate H; auto.
    + rewrite (RoutingFacts.route_to_agent_other env agents intent city Himp Hnot).
      split; [now left|].
      split; [split; [congruence|intros [_ H]; contradiction]|].
      split; intros prompt [].
  - rewrite (RoutingFacts.route_to_agent_import_fails env e intent city Himp).
    cbn [snd].
    split; [now left|].
    split; [split; [congruence|intros [[a H] _]; discriminate]|].
    split; intros prompt [].
Qed.

(** X8.  With the agents imported and an intent among weather, time and
    traffic, the envelope carries the agent's reply unchanged under type =
    intent, with the city that was named in the prompt and status
    "success"; when the call raises, the envelope is the error envelope
    with a fixed message that does not show the exception - "Agent service
    is temporarily unavailable" for an [ImportError], "An error occurred
    while processing your request" for anything else. *)
Theorem route_to_agent_reply (env : Py.environment) (agents : Py.agent_module)
        (intent : string) (city : option string) :
  Py.import_agents env = Py.Ok agents ->
  In intent Routing.agent_intents ->
  fst (TeamsHandler.route_to_agent env intent city) =
  match Py.run (Routing.agent_for agents intent)
               (Routing.prompt_for intent (TeamsHandler.city_or_default city)) with
  | Py.Ok reply =>
      Py.VDict [("type", Py.VStr intent);
                ("city", Py.VStr (TeamsHandler.city_or_default city));
                ("data", reply);
                ("status", Py.VStr "success")]
  | Py.Raise e =>
      Py.VDict [("type", Py.VStr "error");
                ("data", Py.VDict [("message", Py.VStr (Routing.failure_message e))]);
                ("status", Py.VStr "error")]
  end.
Proof.
  intros Himp Hin.
  rewrite (RoutingFacts.route_to_agent_scheme env agents intent city Himp Hin).
  reflexivity.
Qed.

Lemma route_to_agent_reply_witness :
  Py.import_agents Properties.default_env = Py.Ok Properties.sample_agents /\
  In "time" Routing.agent_intents /\
  fst (TeamsHandler.route_to_agent Properties.default_env "time" (Some "Oslo")) =
  match Py.run (Routing.agent_for Properties.sample_agents "time")
               (Routing.prompt_for "time" (TeamsHandler.city_or_default (Some "Oslo"))) with
  | Py.Ok reply =>
      Py.VDict [("type", Py.VStr "time");
                ("city", Py.VStr (TeamsHandler.city_or_default (Some "Oslo")));
                ("data", reply);
                ("status", Py.VStr "success")]
  | Py.Raise e =>
      Py.VDict [("type", Py.VStr "error");
                ("data", Py.VDict [("message", Py.VStr (Routing.failure_message e))]);
                ("status", Py.VStr "error")]
  end.
Proof.
  split; [reflexivity|]. split; [simpl; tauto|].
  apply (route_to_agent_reply Properties.default_env Properties.sample_agents "time" (Some "Oslo"));
    [reflexivity|simpl; tauto].
Defined.

Module RouteShapes.
Import Py TeamsHandler Routing.

(** The envelopes [route_to_agent] can return. *)
Inductive routed : value -> Prop :=
| routed_reply (intent city : string) (reply : value) :
    In intent agent_intents -> routed (envelope intent city reply)
| routed_help : routed help_envelope
| routed_error (message : string) :
    In message ["Agent service is temporarily unavailable";
                "An error occurred while processing your request";
                "I didn't understand that. Try asking about weather, time, or traffic!"] ->
    routed (error_envelope message).

Lemma failure_message_in (e : exn) :
  In (failure_message e)
     ["Agent service is temporarily unavailable";
      "An error occurred while processing your request";
      "I didn't understand that. Try asking about weather, time, or traffic!"].
Proof. unfold failure_message. destruct (is_import_error e); simpl; tauto. Qed.

Lemma route_to_agent_routed (env : environment) (intent : string) (city : option string) :
  routed (fst (route_to_agent env intent city)).
Proof.
  destruct (import_agents env) as [agents|e] eqn:Himp.
  - destruct (in_dec string_dec intent agent_intents) as [Hin|Hnot].
    + rewrite (RoutingFacts.route_to_agent_scheme env agents intent city Himp Hin).
      cbn [fst]. destruct (run _ _) as [reply|e].
      * now constructor.
      * constructor. apply failure_message_in.
    + unfold route_to_agent, route_to_agent_try. rewrite Himp.
      destruct (String.eqb_spec intent MessageIntent.WEATHER) as [->|_];
        [exfalso; apply Hnot; simpl; tauto|].
      destruct (String.eqb_spec intent MessageIntent.TIME) as [->|_];
        [exfalso; apply Hnot; simpl; tauto|].
      destruct (String.eqb_spec intent MessageIntent.TRAFFIC) as [->|_];
        [exfalso; apply Hnot; simpl; tauto|].
      destruct (String.eqb intent MessageIntent.HELP); cbn [fst].
      * constructor.
      * constructor. simpl. tauto.
  - rewrite (RoutingFacts.route_to_agent_import_fails env e intent city Himp).
    cbn [fst]. constructor. apply failure_message_in.
Qed.

End RouteShapes.

(** X9.  The formatter never has to fall back on an envelope that comes
    from the router: on every envelope [route_to_agent] returns, the [try]
    block of [format_agent_response] returns a card, and that card is not
    the "Failed to format response" card. *)
Theorem format_after_route (env env' : Py.environment) (intent : string)
        (city : option string) :
  exists card,
    AdaptiveCards.format_agent_response_try env'
      (fst (TeamsHandler.route_to_agent env intent city)) = Py.Ok card /\
    AdaptiveCards.format_agent_response env'
      (fst (TeamsHandler.route_to_agent env intent city)) = Py.Ok card /\
    Py.Ok card <>
    AdaptiveCards.create_error_card (Py.VStr "Failed to format response. Please try again.").
Proof.
  assert (H : exists card,
             AdaptiveCards.format_agent_response_try env'
               (fst (TeamsHandler.route_to_agent env intent city)) = Py.Ok card /\
             Py.Ok card <>
             AdaptiveCards.create_error_card
               (Py.VStr "Failed to format response. Please try again.")).
  { destruct (RouteShapes.route_to_agent_routed env intent city) as [i c reply Hin| |m Hm].
    - destruct (RoutingFacts.agent_intent_cases i Hin) as [-> | [-> | ->]].
      + unfold AdaptiveCards.format_agent_response_try, TeamsHandler.envelope.
        cbn [Py.get Py.dict_get Py.bind String.eqb Ascii.eqb Bool.eqb Py.eq_str].
        unfold AdaptiveCards.create_weather_card, AdaptiveCards.extract_weather_info.
        destruct (AdaptiveCards.as_str reply); eexists; (split; [reflexivity|discriminate]).
      + unfold AdaptiveCards.format_agent_response_try, TeamsHandler.envelope.
        cbn [Py.get Py.dict_get Py.bind String.eqb Ascii.eqb Bool.eqb Py.eq_str].
        unfold AdaptiveCards.create_time_card, AdaptiveCards.extract_time_info.
        destruct (match AdaptiveCards.as_str reply with
                  | Some s => PyStr.contains "time" (PyStr.lower s)
                  | None => false
                  end); eexists; (split; [reflexivity|discriminate]).
      + unfold AdaptiveCards.format_agent_response_try, TeamsHandler.envelope.
        cbn [Py.get Py.dict_get Py.bind String.eqb Ascii.eqb Bool.eqb Py.eq_str].
        unfold AdaptiveCards.create_traffic_card, AdaptiveCards.extract_traffic_info.
        destruct (AdaptiveCards.as_str reply) as [s|];
          [destruct (PyStr.contains "heavy" (PyStr.lower s));
           [|destruct (PyStr.contains "light" (PyStr.lower s))]|];
          eexists; (split; [reflexivity|discriminate]).
    - eexists. split; [reflexivity|discriminate].
    - destruct Hm as [<-|[<-|[<-|[]]]]; eexists; (split; [reflexivity|discriminate]). }
  destruct H as (card & H1 & H2). exists card.
  split; [exact H1|]. split; [|exact H2].
  unfold AdaptiveCards.format_agent_response. now rewrite H1.
Qed.

(* ================================================================== *)
(** * What the cards show of an agent's reply                          *)
(* ================================================================== *)

Module ReplyFacts.
Import PyStr.

Lemma prefix_refl (s : string) : String.prefix s s = true.
Proof.
  induction s as [|c s IH]; simpl; [reflexivity|].
  destruct (ascii_dec c c); [assumption|congruence].
Qed.

(** A slice holds no more characters than asked for ... *)
Lemma len_take (n : nat) (s : string) : len (take n s) <= n.
Proof.
  revert n; induction s as [|c s IH]; intros n; cbn [take len]; [lia|].
  destruct (is_continuation c) eqn:E.
  - cbn [len]. rewrite E. apply IH.
  - destruct n as [|n]; cbn [len]; [lia|]. rewrite E. specialize (IH n). lia.
Qed.

(** ... it starts the string ... *)
Lemma prefix_take (n : nat) (s : string) : String.prefix (take n s) s = true.
Proof.
  revert n; induction s as [|c s IH]; intros n; cbn [take]; [reflexivity|].
  destruct (is_continuation c).
  - cbn [String.prefix]. destruct (ascii_dec c c); [apply IH|congruence].
  - destruct n as [|n]; [reflexivity|].
    cbn [String.prefix]. destruct (ascii_dec c c); [apply IH|congruence].
Qed.

(** ... and it is the whole string when that has few enough characters
    and starts with one. *)
Lemma take_all (n : nat) (s : string) :
  len s <= n -> take n s = s.
Proof.
  revert n; induction s as [|c s IH]; intros n; cbn [take len]; [reflexivity|].
  destruct (is_continuation c).
  - intros H. f_equal. now apply IH.
  - destruct n as [|n]; [lia|]. intros H. f_equal. apply IH. lia.
Qed.

(** In ASCII text the characters are the octets. *)
Lemma len_ascii (s : string) : isascii s = true -> len s = String.length s.
Proof.
  induction s as [|c s IH]; [reflexivity|].
  cbn [isascii len String.length]. intros H. apply andb_prop in H as [Hc Hs].
  assert (E : is_continuation c = false).
  { unfold is_continuation. apply Nat.ltb_lt in Hc.
    apply andb_false_iff. left. apply Nat.leb_gt. exact Hc. }
  rewrite E. now rewrite IH.
Qed.

End ReplyFacts.

(** X10.  Of a string reply the weather card shows at most the first 200
    characters: the forecast text starts the reply, has at most 200
    characters - characters, not octets: a reply of 150 two-octet
    characters is shown whole - and is the whole reply when that has at
    most 200 characters. *)
Theorem weather_forecast_bounded (env : Py.environment) (city : Py.value) (reply : string) :
  exists card forecast,
    AdaptiveCards.create_weather_card env city (Py.VStr reply) = Py.Ok card /\
    Properties.at_path card [Properties.Key "content"; Properties.Key "body";
                             Properties.Index 2; Properties.Key "text"] =
      Some (Py.VStr forecast) /\
    PyStr.len forecast <= 200 /\
    String.prefix forecast reply = true /\
    forecast = PyStr.take 200 reply /\
    (PyStr.len reply <= 200 -> forecast = reply).
Proof.
  unfold AdaptiveCards.create_weather_card, AdaptiveCards.extract_weather_info.
  cbn [AdaptiveCards.as_str].
  destruct (Nat.ltb_spec 200 (PyStr.len reply)) as [Hlong|Hshort].
  - eexists. exists (PyStr.take 200 reply).
    split; [reflexivity|]. split; [reflexivity|].
    split; [apply ReplyFacts.len_take|].
    split; [apply ReplyFacts.prefix_take|]. split; [reflexivity|lia].
  - eexists. exists reply.
    split; [reflexivity|]. split; [reflexivity|].
    split; [lia|]. split; [apply ReplyFacts.prefix_refl|].
    split; [symmetry; now apply ReplyFacts.take_all|reflexivity].
Qed.

(** X11.  The traffic card reads only two words out of a reply.  Its
    status is Heavy, shown with the style Attention, exactly when the reply
    is a string containing "heavy" in any letter case - also when it
    contains "light" as well; Light with the style Good exactly when it is
    a string containing "light" and no "heavy"; Moderate with the style
    Warning otherwise.  The style "Default" and the table entry for Severe
    are never used. *)
Theorem traffic_card_status (env : Py.environment) (city reply : Py.value) :
  let heavy := exists s, reply = Py.VStr s /\ PyStr.contains "heavy" (PyStr.lower s) = true in
  let light := exists s, reply = Py.VStr s /\ PyStr.contains "heavy" (PyStr.lower s) = false /\
                         PyStr.contains "light" (PyStr.lower s) = true in
  exists card status style,
    AdaptiveCards.create_traffic_card env city reply = Py.Ok card /\
    Properties.at_path card [Properties.Key "content"; Properties.Key "body";
                             Properties.Index 1; Properties.Key "style"] =
      Some (Py.VStr style) /\
    Properties.at_path card [Properties.Key "content"; Properties.Key "body";
                             Properties.Index 1; Properties.Key "items";
                             Properties.Index 0; Properties.Key "text"] =
      Some (Py.VStr ("Status: " ++ status)) /\
    ((status = "Heavy" /\ style = "Attention" /\ heavy) \/
     (status = "Light" /\ style = "Good" /\ light) \/
     (status = "Moderate" /\ style = "Warning" /\ ~ heavy /\ ~ light)).
Proof.
  cbv zeta.
  unfold AdaptiveCards.create_traffic_card, AdaptiveCards.extract_traffic_info.
  destruct reply as [| | |s| | |];
    try (cbn [AdaptiveCards.as_str];
         eexists; exists "Moderate", "Warning";
         split; [reflexivity|]; split; [reflexivity|]; split; [reflexivity|];
         right; right; repeat split; intros (s' & H & _); discriminate H).
  cbn [AdaptiveCards.as_str].
  destruct (PyStr.contains "heavy" (PyStr.lower s)) eqn:Hh.
  - eexists. exists "Heavy", "Attention".
    split; [reflexivity|]. split; [reflexivity|]. split; [reflexivity|].
    left. repeat split. now exists s.
  - destruct (PyStr.contains "light" (PyStr.lower s)) eqn:Hl.
    + eexists. exists "Light", "Good".
      split; [reflexivity|]. split; [reflexivity|]. split; [reflexivity|].
      right; left. repeat split. now exists s.
    + eexists. exists "Moderate", "Warning".
      split; [reflexivity|]. split; [reflexivity|]. split; [reflexivity|].
      right; right. repeat split.
      * intros (s' & H & H'). injection H as <-. congruence.
      * intros (s' & H & _ & H'). injection H as <-. congruence.
Qed.

(** X12.  A reply that is not a string never reaches a card: the weather
    and the traffic card are then the cards built on empty data.  The time
    card ignores the reply altogether, a string or not: it always shows the
    New York clock with EST and UTC-5, whatever city was asked for. *)
Theorem structured_reply_discarded (env : Py.environment) (city reply : Py.value) :
  (AdaptiveCards.as_str reply = None ->
   AdaptiveCards.create_weather_card env city reply =
     AdaptiveCards.create_weather_card env city (Py.VDict []) /\
   AdaptiveCards.create_traffic_card env city reply =
     AdaptiveCards.create_traffic_card env city (Py.VDict [])) /\
  AdaptiveCards.create_time_card env city reply =
    AdaptiveCards.create_time_card env city (Py.VDict []) /\
  exists card,
    AdaptiveCards.create_time_card env city reply = Py.Ok card /\
    Properties.at_path card [Properties.Key "content"; Properties.Key "body";
                             Properties.Index 1; Properties.Key "items";
                             Properties.Index 0; Properties.Key "text"] =
      Some (Py.VStr (Py.new_york_time env)) /\
    Properties.at_path card [Properties.Key "content"; Properties.Key "body";
                             Properties.Index 2; Properties.Key "facts"] =
      Some (Py.VList [AdaptiveCards.fact "Timezone" (Py.VStr "EST");
                      AdaptiveCards.fact "UTC Offset" (Py.VStr "UTC-5")]).
Proof.
  split; [|split].
  - intros H.
    unfold AdaptiveCards.create_weather_card, AdaptiveCards.extract_weather_info,
      AdaptiveCards.create_traffic_card, AdaptiveCards.extract_traffic_info.
    rewrite H. split; reflexivity.
  - unfold AdaptiveCards.create_time_card, AdaptiveCards.extract_time_info.
    destruct (match AdaptiveCards.as_str reply with
              | Some s => PyStr.contains "time" (PyStr.lower s)
              | None => false
              end); reflexivity.
  - unfold AdaptiveCards.create_time_card, AdaptiveCards.extract_time_info.
    destruct (match AdaptiveCards.as_str reply with
              | Some s => PyStr.contains "time" (PyStr.lower s)
              | None => false
              end); eexists; repeat split.
Qed.

(* ================================================================== *)
(** * Further properties of the classifier                             *)
(* ================================================================== *)

(** X13.  The intent returned by [parse_message_intent] is one of the five
    of [MessageIntent], and it comes with a city exactly when it is
    weather, time or traffic; that city is the one [extract_city_from_text]
    finds in the text.  HELP and UNKNOWN never carry a city. *)
Theorem parse_message_intent_city (text intent : string) (city : option string) :
  TeamsHandler.parse_message_intent text = Py.Ok (intent, city) ->
  In intent Intents.all_intents /\
  (In intent Routing.agent_intents <-> city <> None) /\
  (forall c, city = Some c -> TeamsHandler.extract_city_from_text text = Py.Ok c).
Proof.
  destruct (String.eqb_spec text EmptyString) as [->|Hne].
  - cbn. intros H. injection H as <- <-.
    split; [simpl; tauto|]. split; [|discriminate].
    split; [|congruence].
    intros [H|[H|[H|[]]]]; discriminate H.
  - destruct (TeamsHandlerFacts.parse_message_intent_cascade text Hne) as (c & Hc & ->).
    cbv zeta.
    repeat match goal with
           | |- context [if ?b then _ else _] => destruct b
           end; intros H; injection H as <- <-;
      (split; [simpl; tauto|]); (split; [|intros c' E; congruence]);
      (split; [first [intros _; discriminate | intros [H|[H|[H|[]]]]; discriminate H]
              |first [intros _; simpl; tauto | congruence]]).
Qed.

Lemma parse_message_intent_city_witness :
  TeamsHandler.parse_message_intent "traffic in boston?" = Py.Ok ("traffic", Some "Boston") /\
  In "traffic" Intents.all_intents /\
  (In "traffic" Routing.agent_intents <-> Some "Boston" <> None) /\
  (forall c, Some "Boston" = Some c ->
             TeamsHandler.extract_city_from_text "traffic in boston?" = Py.Ok c).
Proof.
  assert (H : TeamsHandler.parse_message_intent "traffic in boston?" =
              Py.Ok ("traffic", Some "Boston")) by (vm_compute; reflexivity).
  split; [exact H|].
  exact (parse_message_intent_city "traffic in boston?" "traffic" (Some "Boston") H).
Defined.

(* ================================================================== *)
(** * Further properties of the matcher                                *)
(* ================================================================== *)

Module MatcherFacts.
Import Re Matching.

Lemma suffix_refl (s : string) : suffix s s.
Proof. now exists EmptyString. Qed.

Lemma suffix_trans (a b c : string) : suffix a b -> suffix b c -> suffix a c.
Proof.
  intros [p ->] [q ->]. exists (q ++ p)%string.
  now rewrite PyStrFacts.append_assoc.
Qed.

Lemma suffix_cons (c : ascii) (s' s : string) : suffix s' s -> suffix s' (String c s).
Proof. intros [p ->]. now exists (String c p). Qed.

Lemma match_lit_suffix (R : Type) (l : string) :
  forall s s', match_lit l s = Some s' -> suffix s' s.
Proof.
  induction l as [|a l IH]; intros s s' H.
  - destruct s; simpl in H; injection H as <-; apply suffix_refl.
  - destruct s as [|c s]; simpl in H; [discriminate|].
    destruct (Ascii.eqb _ _); [|discriminate].
    apply suffix_cons. now apply IH.
Qed.

Lemma substring_app (w s : string) :
  String.substring 0 (String.length (w ++ s) - String.length s) (w ++ s) = w.
Proof.
  replace (String.length (w ++ s) - String.length s) with (String.length w).
  - induction w as [|c w IH]; simpl; [now destruct s|now rewrite IH].
  - assert (H : String.length (w ++ s) = String.length w + String.length s)
      by (induction w; simpl; congruence).
    rewrite H. lia.
Qed.

(** What a run of [+] hands to its continuation. *)
Lemma plus_greedy_inv (R : Type) (cls : ascii -> bool) (s : string)
      (k : string -> option R) (x : R) :
  plus_greedy R cls s k = Some x ->
  exists w s', s = (w ++ s')%string /\ w <> EmptyString /\
               forall_chars cls w = true /\ k s' = Some x.
Proof.
  induction s as [|c s IH]; simpl; [discriminate|].
  destruct (cls c) eqn:Hc; [|discriminate].
  unfold or_else. destruct (plus_greedy R cls s k) eqn:E.
  - intros H. injection H as ->.
    destruct (IH eq_refl) as (w & s' & -> & _ & Hw & Hk).
    exists (String c w), s'. simpl. rewrite Hc, Hw. repeat split; [discriminate|assumption].
  - intros H. exists (String c EmptyString), s. simpl. rewrite Hc.
    repeat split; [discriminate|assumption].
Qed.

Lemma plus_lazy_inv (R : Type) (cls : ascii -> bool) (s : string)
      (k : string -> option R) (x : R) :
  plus_lazy R cls s k = Some x ->
  exists w s', s = (w ++ s')%string /\ w <> EmptyString /\
               forall_chars cls w = true /\ k s' = Some x.
Proof.
  induction s as [|c s IH]; simpl; [discriminate|].
  destruct (cls c) eqn:Hc; [|discriminate].
  unfold or_else. destruct (k s) eqn:E.
  - intros H. injection H as ->.
    exists (String c EmptyString), s. simpl. rewrite Hc.
    repeat split; [discriminate|assumption].
  - intros H. destruct (IH H) as (w & s' & -> & _ & Hw & Hk).
    exists (String c w), s'. simpl. rewrite Hc, Hw. repeat split; [discriminate|assumption].
Qed.

Lemma forall_chars_weaken (cls within : ascii -> bool) (w : string) :
  (forall c, cls c = true -> within c = true) ->
  forall_chars cls w = true -> forall_chars within w = true.
Proof.
  intros H. induction w as [|c w IH]; simpl; [reflexivity|].
  intros Hw. apply andb_prop in Hw as [Hc Hw]. now rewrite (H c Hc), IH.
Qed.

(** A successful run of [exec] calls its continuation on a suffix of the
    input; the group it passes on is the one it received when the pattern
    has no group, and stays within a class when the pattern captures only
    runs of that class. *)
Lemma exec_inv (R : Type) (within : ascii -> bool) (r : regex) :
  forall (s : string) (g : option string) (k : cont R) (x : R),
    exec R r s g k = Some x ->
    exists s' g',
      k s' g' = Some x /\
      suffix s' s /\
      (groupless r = true -> g' = g) /\
      (captures within r -> group_within within g -> group_within within g').
Proof.
  induction r as [l|a IHa b IHb|a IHa b IHb|a IHa|cls|cls|a IHa|];
    intros s g k x H; cbn [exec] in H.
  - destruct (match_lit l s) as [s'|] eqn:E; [|discriminate].
    exists s', g. repeat split; auto. now apply (match_lit_suffix R l).
  - apply IHa in H as (s1 & g1 & H1 & S1 & G1 & C1).
    apply IHb in H1 as (s2 & g2 & H2 & S2 & G2 & C2).
    exists s2, g2. split; [assumption|]. split; [now apply (suffix_trans _ s1)|].
    split.
    + cbn [groupless]. intros B. apply andb_prop in B as [Ba Bb].
      now rewrite G2, G1.
    + cbn [captures]. intros [Ca Cb] Hg. auto.
  - unfold or_else in H. destruct (exec R a s g k) eqn:Ea.
    + injection H as ->. apply IHa in Ea as (s1 & g1 & H1 & S1 & G1 & C1).
      exists s1, g1. split; [assumption|]. split; [assumption|]. split.
      * cbn [groupless]. intros B. apply andb_prop in B as [Ba _]. auto.
      * cbn [captures]. intros [Ca _]. auto.
    + apply IHb in H as (s1 & g1 & H1 & S1 & G1 & C1).
      exists s1, g1. split; [assumption|]. split; [assumption|]. split.
      * cbn [groupless]. intros B. apply andb_prop in B as [_ Bb]. auto.
      * cbn [captures]. intros [_ Cb]. auto.
  - unfold or_else in H. destruct (exec R a s g k) eqn:Ea.
    + injection H as ->. apply IHa in Ea as (s1 & g1 & H1 & S1 & G1 & C1).
      exists s1, g1. auto.
    + exists s, g. repeat split; auto. apply suffix_refl.
  - apply plus_greedy_inv in H as (w & s' & -> & _ & _ & H).
    exists s', g. repeat split; auto. now exists w.
  - apply plus_lazy_inv in H as (w & s' & -> & _ & _ & H).
    exists s', g. repeat split; auto. now exists w.
  - assert (Hgen : exists s' g',
               k s' g' = Some x /\ suffix s' s /\
               (captures within (Group a) -> group_within within g')).
    { destruct a;
        try (apply IHa in H as (s1 & g1 & H1 & S1 & _ & _);
             eexists s1, _; split; [exact H1|]; split; [assumption|];
             cbn [captures]; contradiction).
      cbn [exec] in H.
      apply plus_lazy_inv in H as (w & s' & -> & _ & Hw & Hk).
      rewrite substring_app in Hk.
      exists s', (Some w). split; [assumption|]. split; [now exists w|].
      cbn [captures group_within]. intros Hc.
      now apply (forall_chars_weaken cls). }
    destruct Hgen as (s' & g' & Hk & Hs & Hc).
    exists s', g'. split; [assumption|]. split; [assumption|].
    split; [discriminate|auto].
  - destruct (at_end s); [|discriminate].
    exists s, g. repeat split; auto. apply suffix_refl.
Qed.

Lemma search_some (r : regex) (s : string) (g : option string) :
  search r s = Some g -> exists s', suffix s' s /\ match_here r s' = Some g.
Proof.
  induction s as [|c s IH]; cbn [search].
  - destruct (match_here r EmptyString) as [g'|] eqn:E; [|discriminate].
    intros H. injection H as ->. exists EmptyString. split; [apply suffix_refl|assumption].
  - destruct (match_here r (String c s)) as [g'|] eqn:E.
    + intros H. injection H as ->. exists (String c s). split; [apply suffix_refl|assumption].
    + intros H. destruct (IH H) as (s' & Hs & Hm).
      exists s'. split; [now apply suffix_cons|assumption].
Qed.

Lemma suffix_inv (s' : string) (c : ascii) (s : string) :
  suffix s' (String c s) -> s' = String c s \/ suffix s' s.
Proof.
  intros [p H]. destruct p as [|a p]; simpl in H.
  - now left.
  - right. injection H as _ ->. now exists p.
Qed.

Lemma suffix_empty (s' : string) : suffix s' EmptyString -> s' = EmptyString.
Proof. intros [p H]. destruct p; simpl in H; [congruence|discriminate]. Qed.

(** A match anywhere in the text makes [search] succeed. *)
Lemma search_complete (r : regex) (s s' : string) :
  suffix s' s -> match_here r s' <> None -> search r s <> None.
Proof.
  induction s as [|c s IH]; intros Hs Hm; cbn [search].
  - apply suffix_empty in Hs. subst s'.
    destruct (match_here r EmptyString); [discriminate|congruence].
  - destruct (match_here r (String c s)) eqn:E; [discriminate|].
    apply suffix_inv in Hs as [->|Hs]; [congruence|].
    now apply IH.
Qed.

(** The group found by [search] stays within the class the pattern
    captures. *)
Lemma search_group_within (within : ascii -> bool) (r : regex) (s w : string) :
  captures within r -> search r s = Some (Some w) -> forall_chars within w = true.
Proof.
  intros Hc H. apply search_some in H as (s' & _ & H).
  unfold match_here in H.
  apply (exec_inv _ within) in H as (s1 & g1 & H1 & _ & _ & Hg).
  injection H1 as ->. now apply (Hg Hc I).
Qed.

(** The part of [exec_inv] that matters in front of a groupless node. *)
Lemma exec_inv_any (R : Type) (a : regex) (s : string) (k : cont R) (x : R) :
  groupless a = true ->
  exec R a s None k = Some x ->
  exists s', suffix s' s /\ k s' None = Some x.
Proof.
  intros Ha H.
  apply (exec_inv R (fun _ => true)) in H as (s' & g' & Hk & Hs & Hg & _).
  rewrite (Hg Ha) in Hk. now exists s'.
Qed.

(** A groupless node in front of a pattern: a match of the sequence
    leaves a match of the rest further on in the text. *)
Lemma peel_seq (R : Type) (a b : regex) (s : string) (k : cont R) (x : R) :
  groupless a = true ->
  exec R (Seq a b) s None k = Some x ->
  exists s', suffix s' s /\ exec R b s' None k = Some x.
Proof.
  intros Ha H. cbn [exec] in H.
  apply exec_inv_any in H as (s' & Hs & H); [|assumption].
  now exists s'.
Qed.

End MatcherFacts.

(* ================================================================== *)
(** * Which patterns decide                                            *)
(* ================================================================== *)

Module ShadowFacts.
Import Re Matching TeamsHandler.

(** The second pattern ends in the first one. *)
Lemma second_pattern_shape :
  nth 1 common_patterns Eos =
  Seq (alts ["what's"; "what is"; "whats"])
      (Seq spaces (Seq (Lit "the") (Seq spaces topic_then_city))).
Proof. reflexivity. Qed.

(** The third pattern and the first one end alike, and the topics of the
    third are among those of the first. *)
Lemma third_pattern_shape :
  exists rest,
    nth 2 common_patterns Eos =
    Seq (alts ["how's"; "how is"; "hows"])
        (Seq spaces
             (Seq (Opt (Seq (Lit "the") spaces))
                  (Seq (Alt (Lit "weather") (Lit "traffic")) rest))) /\
    topic_then_city =
    Seq (Alt (Lit "weather") (Alt (Lit "time") (Lit "traffic"))) rest.
Proof. eexists. split; reflexivity. Qed.

Lemma second_shadowed (s : string) :
  search (nth 1 common_patterns Eos) s <> None -> search topic_then_city s <> None.
Proof.
  destruct (search (nth 1 common_patterns Eos) s) as [g|] eqn:E; [|congruence].
  intros _. apply MatcherFacts.search_some in E as (s0 & S0 & H).
  unfold match_here in H. rewrite second_pattern_shape in H.
  apply MatcherFacts.peel_seq in H as (s1 & S1 & H); [|reflexivity].
  apply MatcherFacts.peel_seq in H as (s2 & S2 & H); [|reflexivity].
  apply MatcherFacts.peel_seq in H as (s3 & S3 & H); [|reflexivity].
  apply MatcherFacts.peel_seq in H as (s4 & S4 & H); [|reflexivity].
  apply (MatcherFacts.search_complete topic_then_city s s4).
  - eauto using MatcherFacts.suffix_trans.
  - unfold match_here. congruence.
Qed.

Lemma third_shadowed (s : string) :
  search (nth 2 common_patterns Eos) s <> None -> search topic_then_city s <> None.
Proof.
  destruct third_pattern_shape as (rest & E3 & E1).
  destruct (search (nth 2 common_patterns Eos) s) as [g|] eqn:E; [|congruence].
  intros _. apply MatcherFacts.search_some in E as (s0 & S0 & H).
  unfold match_here in H. rewrite E3 in H.
  apply MatcherFacts.peel_seq in H as (s1 & S1 & H); [|reflexivity].
  apply MatcherFacts.peel_seq in H as (s2 & S2 & H); [|reflexivity].
  apply MatcherFacts.peel_seq in H as (s3 & S3 & H); [|reflexivity].
  cbn [exec] in H.
  apply (MatcherFacts.search_complete topic_then_city s s3).
  - eauto using MatcherFacts.suffix_trans.
  - unfold match_here. rewrite E1. cbn [exec].
    unfold or_else in *.
    destruct (match_lit "weather" s3) as [a|];
      [destruct (exec _ rest a None _); [discriminate|]|];
      (destruct (match_lit "time" s3) as [b|];
       [destruct (exec _ rest b None _); [discriminate|]|]);
      rewrite H; discriminate.
Qed.

Lemma not_none_or_none {A : Type} (o : option A) : o = None \/ o <> None.
Proof. destruct o; [right; discriminate|now left]. Qed.

End ShadowFacts.

(** X14.  Of the four entries of [common_patterns] only the first and the
    last ever decide: wherever the second ("what's the weather in ...") or
    the third ("how's the weather in ...") matches, the first one matches
    too and is tried before them. *)
Theorem common_patterns_shadowed (text_lower : string) :
  (Re.search (nth 1 TeamsHandler.common_patterns Re.Eos) text_lower <> None ->
   Re.search Matching.topic_then_city text_lower <> None) /\
  (Re.search (nth 2 TeamsHandler.common_patterns Re.Eos) text_lower <> None ->
   Re.search Matching.topic_then_city text_lower <> None) /\
  TeamsHandler.first_pattern TeamsHandler.common_patterns text_lower =
  TeamsHandler.first_pattern [Matching.topic_then_city; Matching.city_then_topic] text_lower.
Proof.
  split; [apply ShadowFacts.second_shadowed|].
  split; [apply ShadowFacts.third_shadowed|].
  change TeamsHandler.common_patterns
    with [Matching.topic_then_city;
          nth 1 TeamsHandler.common_patterns Re.Eos;
          nth 2 TeamsHandler.common_patterns Re.Eos;
          Matching.city_then_topic].
  cbn [TeamsHandler.first_pattern].
  destruct (Re.search Matching.topic_then_city text_lower) as [g|] eqn:E1; [reflexivity|].
  destruct (ShadowFacts.not_none_or_none
              (Re.search (nth 1 TeamsHandler.common_patterns Re.Eos) text_lower)) as [->|H2];
    [|exfalso; now apply (ShadowFacts.second_shadowed text_lower H2)].
  destruct (ShadowFacts.not_none_or_none
              (Re.search (nth 2 TeamsHandler.common_patterns Re.Eos) text_lower)) as [->|H3];
    [|exfalso; now apply (ShadowFacts.third_shadowed text_lower H3)].
  reflexivity.
Qed.

(* ================================================================== *)
(** * The form of an extracted city                                    *)
(* ================================================================== *)

Module CityFacts.
Import PyStr Matching Intents TeamsHandler.

Lemma is_alpha_upper_char (c : ascii) : is_alpha (upper_char c) = is_alpha c.
Proof. PyStrFacts.each_char c. Qed.

Lemma is_alpha_lower_char (c : ascii) : is_alpha (lower_char c) = is_alpha c.
Proof. PyStrFacts.each_char c. Qed.

Lemma letter_not_space (c : ascii) :
  Re.alpha_or_space c = true -> is_space c = false -> is_alpha c = true.
Proof.
  unfold Re.alpha_or_space. intros H Hs. rewrite Hs, orb_false_r in H. exact H.
Qed.

Lemma lstrip_chars (cls : ascii -> bool) (s : string) :
  forall_chars cls s = true -> forall_chars cls (lstrip s) = true.
Proof.
  induction s as [|c s IH]; [reflexivity|].
  intros H. cbn [lstrip]. destruct (is_space c); [|assumption].
  simpl in H. apply andb_prop in H as [_ H]. now apply IH.
Qed.

Lemma rstrip_chars (cls : ascii -> bool) (s : string) :
  forall_chars cls s = true -> forall_chars cls (rstrip s) = true.
Proof.
  induction s as [|c s IH]; [reflexivity|].
  intros H. simpl in H. apply andb_prop in H as [Hc H]. specialize (IH H).
  cbn [rstrip]. destruct (rstrip s) as [|b r].
  - destruct (is_space c); [reflexivity|]. simpl. now rewrite Hc.
  - cbn [forall_chars] in *. now rewrite Hc.
Qed.

Lemma letters_only_app (a b : string) :
  letters_only (a ++ b) = letters_only a && letters_only b.
Proof.
  induction a as [|c a IH]; simpl; [reflexivity|]. now rewrite IH, andb_assoc.
Qed.

(** The words of a text of letters and whitespace are made of letters. *)
Lemma split_from_letters (s : string) :
  forall cur,
    forall_chars Re.alpha_or_space s = true ->
    letters_only cur = true ->
    forallb letters_only (split_from cur s) = true.
Proof.
  induction s as [|c s IH]; intros cur Hs Hcur; cbn [split_from].
  - destruct cur; [reflexivity|]. cbn [forallb]. now rewrite Hcur.
  - cbn [forall_chars] in Hs. apply andb_prop in Hs as [Hc Hs].
    destruct (is_space c) eqn:Hsp.
    + destruct cur as [|a cur]; [now apply IH|].
      cbn [forallb]. rewrite Hcur. now apply IH.
    + apply IH; [assumption|].
      rewrite letters_only_app, Hcur. simpl.
      now rewrite (letter_not_space c Hc Hsp).
Qed.

(** Letters and ASCII white space are ASCII. *)
Lemma is_alpha_ascii (c : ascii) : is_alpha c = true -> (nat_of_ascii c <? 128) = true.
Proof. destruct c as [[] [] [] [] [] [] [] []]; intros H; try reflexivity; discriminate H. Qed.

Lemma alpha_or_space_ascii (s : string) :
  forall_chars Re.alpha_or_space s = true -> isascii s = true.
Proof.
  induction s as [|c s IH]; [reflexivity|].
  cbn [forall_chars isascii]. intros H. apply andb_prop in H as [Hc Hs].
  rewrite (IH Hs), andb_true_r.
  unfold Re.alpha_or_space in Hc. apply orb_prop in Hc as [Hc|Hc].
  - now apply is_alpha_ascii.
  - now apply PyStrFacts.is_space_ascii.
Qed.

Lemma letters_only_ascii (s : string) : letters_only s = true -> isascii s = true.
Proof.
  induction s as [|c s IH]; [reflexivity|].
  cbn [letters_only isascii]. intros H. apply andb_prop in H as [Hc Hs].
  now rewrite (is_alpha_ascii c Hc), IH.
Qed.

Lemma letters_only_lower (s : string) :
  letters_only s = true -> letters_only (lower s) = true.
Proof.
  induction s as [|c s IH]; [reflexivity|].
  cbn [letters_only]. intros H. apply andb_prop in H as [Hc Hs].
  rewrite PyStrFacts.lower_cons by now apply is_alpha_ascii.
  cbn [letters_only]. now rewrite is_alpha_lower_char, Hc, IH.
Qed.

Lemma letters_only_capitalize (w : string) :
  letters_only w = true -> letters_only (capitalize w) = true.
Proof.
  destruct w as [|c w]; [reflexivity|].
  cbn [letters_only]. intros H. apply andb_prop in H as [Hc Hs].
  rewrite PyStrFacts.capitalize_cons by now apply is_alpha_ascii.
  cbn [letters_only]. now rewrite is_alpha_upper_char, Hc, letters_only_lower.
Qed.

Lemma letters_only_spaces (w : string) :
  letters_only w = true -> letters_and_spaces w = true.
Proof.
  induction w as [|c w IH]; simpl; [reflexivity|].
  intros H. apply andb_prop in H as [Hc H]. now rewrite Hc, IH.
Qed.

Lemma letters_and_spaces_app (a b : string) :
  letters_and_spaces (a ++ b) = letters_and_spaces a && letters_and_spaces b.
Proof.
  induction a as [|c a IH]; simpl; [reflexivity|]. now rewrite IH, andb_assoc.
Qed.

Lemma join_letters (ws : list string) :
  forallb letters_only ws = true -> letters_and_spaces (join " " ws) = true.
Proof.
  induction ws as [|w ws IH]; [reflexivity|].
  intros H. simpl in H. apply andb_prop in H as [Hw Hws].
  destruct ws as [|w' ws]; [now apply letters_only_spaces|].
  change (join " " (w :: w' :: ws)) with (w ++ " " ++ join " " (w' :: ws))%string.
  rewrite !letters_and_spaces_app, (letters_only_spaces w Hw), (IH Hws). reflexivity.
Qed.

Lemma forallb_map_letters (ws : list string) :
  forallb letters_only ws = true -> forallb letters_only (map capitalize ws) = true.
Proof.
  induction ws as [|w ws IH]; simpl; [reflexivity|].
  intros H. apply andb_prop in H as [Hw Hws].
  now rewrite letters_only_capitalize, IH.
Qed.

(** Normalising a text of letters and whitespace leaves letters and single
    spaces. *)
Lemma capitalize_words_letters (s : string) :
  forall_chars Re.alpha_or_space s = true ->
  letters_and_spaces (capitalize_words s) = true.
Proof.
  intros H. unfold capitalize_words, split.
  apply join_letters, forallb_map_letters, split_from_letters; [assumption|reflexivity].
Qed.

(** Normalising such a text twice is normalising it once. *)
Lemma capitalize_words_again (s : string) :
  forall_chars Re.alpha_or_space s = true ->
  capitalize_words (capitalize_words s) = capitalize_words s.
Proof. intros H. now apply PyStrFacts.capitalize_words_ascii, alpha_or_space_ascii. Qed.

Lemma common_patterns_capture :
  Forall (captures Re.alpha_or_space) common_patterns.
Proof. repeat constructor; cbn; auto. Qed.

(** What the pattern loop returns is a normalised run of letters and
    whitespace. *)
Lemma first_pattern_city (patterns : list Re.regex) (text_lower city : string) :
  Forall (captures Re.alpha_or_space) patterns ->
  first_pattern patterns text_lower = Py.Ok (Some city) ->
  exists g, forall_chars Re.alpha_or_space g = true /\
            city = capitalize_words (strip g).
Proof.
  induction 1 as [|p ps Hp _ IH]; cbn [first_pattern]; [discriminate|].
  destruct (Re.search p text_lower) as [[g|]|] eqn:E; [|discriminate|exact IH].
  intros H. injection H as <-. exists g. split; [|reflexivity].
  exact (MatcherFacts.search_group_within _ p text_lower g Hp E).
Qed.

Lemma first_default_city_in (cities : list string) (text_lower city : string) :
  first_default_city cities text_lower = Some city ->
  exists known, In known cities /\ city = capitalize_words known.
Proof.
  induction cities as [|k ks IH]; cbn [first_default_city]; [discriminate|].
  destruct (contains k text_lower).
  - intros H. injection H as <-. exists k. split; [now left|reflexivity].
  - intros H. destruct (IH H) as (known & Hin & ->). exists known. split; [now right|reflexivity].
Qed.

End CityFacts.

(** X15.  For an ASCII text the city [extract_city_from_text] returns is
    in normal form - normalising it again changes nothing - and consists
    of ASCII letters and single spaces only: no digit, punctuation or
    other whitespace gets into the city, and so into a prompt.  (Outside
    ASCII the class [[A-Za-z]] of a pattern compiled with [re.IGNORECASE]
    also takes U+017F and U+0131, which the model of the patterns leaves
    out.) *)
Theorem extract_city_normal_form (text city : string) :
  PyStr.isascii text = true ->
  TeamsHandler.extract_city_from_text text = Py.Ok city ->
  TeamsHandler.capitalize_words city = city /\
  Intents.letters_and_spaces city = true.
Proof.
  intros _. unfold TeamsHandler.extract_city_from_text.
  destruct (TeamsHandler.first_pattern TeamsHandler.common_patterns (PyStr.lower text))
    as [[found|]|e] eqn:E; cbn [Py.bind]; [| |discriminate].
  - intros H. injection H as <-.
    destruct (CityFacts.first_pattern_city _ _ _ CityFacts.common_patterns_capture E)
      as (g & Hg & ->).
    assert (Hs : Matching.forall_chars Re.alpha_or_space (PyStr.strip g) = true)
      by (unfold PyStr.strip; now apply CityFacts.rstrip_chars, CityFacts.lstrip_chars).
    split; [now apply CityFacts.capitalize_words_again|].
    now apply CityFacts.capitalize_words_letters.
  - destruct (TeamsHandler.first_default_city TeamsHandler.default_cities (PyStr.lower text))
      as [c|] eqn:Ed.
    + intros H. injection H as <-.
      destruct (CityFacts.first_default_city_in _ _ _ Ed) as (known & Hin & ->).
      assert (Hk : Matching.forall_chars Re.alpha_or_space known = true)
        by (destruct Hin as [<-|[<-|[<-|[<-|[<-|[]]]]]]; reflexivity).
      split; [now apply CityFacts.capitalize_words_again|].
      now apply CityFacts.capitalize_words_letters.
    + intros H. injection H as <-. split; reflexivity.
Qed.

Lemma extract_city_normal_form_witness :
  PyStr.isascii "Weather in san   JOSE?" = true /\
  TeamsHandler.extract_city_from_text "Weather in san   JOSE?" = Py.Ok "San Jose" /\
  TeamsHandler.capitalize_words "San Jose" = "San Jose" /\
  Intents.letters_and_spaces "San Jose" = true.
Proof.
  assert (H : TeamsHandler.extract_city_from_text "Weather in san   JOSE?" = Py.Ok "San Jose")
    by (vm_compute; reflexivity).
  split; [reflexivity|]. split; [exact H|].
  exact (extract_city_normal_form "Weather in san   JOSE?" "San Jose" eq_refl H).
Defined.

(* ================================================================== *)
(** * A city after a topic and a preposition                           *)
(* ================================================================== *)

Module TopicCityFacts.
Import Re Matching Intents TeamsHandler PyStr.

Lemma alpha_char_facts (c : ascii) :
  negb (is_alpha c) ||
  (negb (Ascii.eqb (lower_char "?") (lower_char c)) &&
   negb (Ascii.eqb (lower_char ".") (lower_char c)) &&
   negb (is_space c) && Re.alpha_or_space c &&
   negb (Nat.eqb (nat_of_ascii c) 10)) = true.
Proof. PyStrFacts.each_char c. Qed.

Lemma alpha_char (c : ascii) :
  is_alpha c = true ->
  Ascii.eqb (lower_char "?") (lower_char c) = false /\
  Ascii.eqb (lower_char ".") (lower_char c) = false /\
  is_space c = false /\ Re.alpha_or_space c = true /\
  Nat.eqb (nat_of_ascii c) 10 = false.
Proof.
  intros H. pose proof (alpha_char_facts c) as F. rewrite H in F. cbn [negb orb] in F.
  repeat (apply andb_prop in F as [F ?]).
  repeat split; try (now apply negb_true_iff); assumption.
Qed.

Lemma upper_lower_char (c : ascii) : upper_char (lower_char c) = upper_char c.
Proof. PyStrFacts.each_char c. Qed.

Lemma lower_app (a b : string) :
  isascii a = true -> lower (a ++ b) = (lower a ++ lower b)%string.
Proof.
  induction a as [|c a IH]; [reflexivity|].
  cbn [isascii append]. intros H. apply andb_prop in H as [Hc Ha].
  rewrite !PyStrFacts.lower_cons by assumption. cbn [append]. now rewrite IH.
Qed.

Lemma match_lit_app (l s : string) : match_lit l (l ++ s) = Some s.
Proof.
  induction l as [|a l IH]; simpl; [now destruct s|].
  now rewrite Ascii.eqb_refl.
Qed.

(** A single space in front of a solid text is all that [\s+] takes. *)
Lemma spaces_one (R : Type) (s : string) (g : option string) (k : cont R) :
  starts_solid s = true ->
  exec R spaces (String " " s) g k = k s g.
Proof.
  intros H. destruct s as [|c s]; [discriminate|].
  simpl in H. apply negb_true_iff in H.
  cbn [exec spaces plus_greedy]. change (is_space " ") with true. cbn iota.
  now rewrite H.
Qed.

(** The lazy group runs over a word up to the question mark. *)
Lemma lazy_word (R : Type) (u : string) (k : string -> option R) :
  letters_only u = true -> u <> EmptyString ->
  (forall c rest, is_alpha c = true -> k (String c rest) = None) ->
  plus_lazy R Re.alpha_or_space (u ++ "?") k = k "?"%string.
Proof.
  intros Hu Hne Hk. induction u as [|c u IH]; [congruence|].
  cbn [letters_only] in Hu. apply andb_prop in Hu as [Hc Hu].
  destruct (alpha_char c Hc) as (_ & _ & _ & Hcls & _).
  change (String c u ++ "?")%string with (String c (u ++ "?")).
  cbn [plus_lazy]. rewrite Hcls. unfold or_else.
  destruct u as [|c' u]; [cbn [append]; now destruct (k "?"%string)|].
  change (String c' u ++ "?")%string with (String c' (u ++ "?")).
  cbn [letters_only] in Hu. apply andb_prop in Hu as [Hc' Hu'].
  rewrite (Hk c' _ Hc'). apply IH; [|discriminate].
  cbn [letters_only]. now rewrite Hc', Hu'.
Qed.

Lemma city_and_terminator (u : string) (g : option string) :
  letters_only u = true -> u <> EmptyString ->
  exec (option string) (Seq city_group terminator) (u ++ "?") g (fun _ g => Some g) =
  Some (Some u).
Proof.
  intros Hu Hne. cbn [exec city_group].
  rewrite lazy_word; [| assumption | assumption |].
  - rewrite MatcherFacts.substring_app. reflexivity.
  - intros c rest Hc. destruct (alpha_char c Hc) as (Hq & Hd & _ & _ & Hn).
    cbn [terminator exec match_lit at_end]. rewrite Hq, Hd. unfold or_else.
    destruct rest; [now rewrite Hn|reflexivity].
Qed.

Lemma search_here (r : regex) (s : string) (g : option string) :
  match_here r s = Some g -> search r s = Some g.
Proof. intros H. destruct s; cbn [search]; now rewrite H. Qed.

Lemma letters_no_space (u : string) : letters_only u = true -> no_space u = true.
Proof.
  induction u as [|c u IH]; [reflexivity|].
  cbn [letters_only no_space]. intros H. apply andb_prop in H as [Hc Hu].
  destruct (alpha_char c Hc) as (_ & _ & Hs & _). now rewrite Hs, IH.
Qed.

Lemma lstrip_solid (u : string) : no_space u = true -> lstrip u = u.
Proof.
  destruct u as [|c u]; [reflexivity|]. cbn [no_space lstrip].
  intros H. apply andb_prop in H as [Hc _]. apply negb_true_iff in Hc. now rewrite Hc.
Qed.

Lemma rstrip_solid (u : string) : no_space u = true -> rstrip u = u.
Proof.
  induction u as [|c u IH]; [reflexivity|]. cbn [no_space rstrip].
  intros H. apply andb_prop in H as [Hc Hu]. apply negb_true_iff in Hc.
  rewrite (IH Hu). destruct u; [now rewrite Hc|reflexivity].
Qed.

(** A single word is normalised by capitalising it. *)
Lemma capitalize_words_word (u : string) :
  letters_only u = true -> u <> EmptyString ->
  capitalize_words (strip u) = capitalize u.
Proof.
  intros Hu Hne. pose proof (letters_no_space u Hu) as Hn.
  unfold strip. rewrite lstrip_solid, rstrip_solid by assumption.
  unfold capitalize_words, split.
  rewrite <- (PyStrFacts.append_nil_r u) at 1.
  rewrite PyStrFacts.split_from_word by assumption.
  cbn [append split_from]. destruct u; [congruence|reflexivity].
Qed.

Lemma capitalize_lower (w : string) :
  isascii w = true -> capitalize (lower w) = capitalize w.
Proof.
  destruct w as [|c w]; [reflexivity|].
  cbn [isascii]. intros H. apply andb_prop in H as [Hc Hw].
  rewrite PyStrFacts.lower_cons by assumption.
  rewrite !PyStrFacts.capitalize_cons
    by (assumption || now apply PyStrFacts.lower_char_ascii).
  now rewrite upper_lower_char, PyStrFacts.lower_idem.
Qed.

Lemma word_starts_solid (u rest : string) :
  letters_only u = true -> u <> EmptyString -> starts_solid (u ++ rest) = true.
Proof.
  destruct u as [|c u]; [congruence|]. cbn [letters_only]. intros H _.
  apply andb_prop in H as [Hc _]. destruct (alpha_char c Hc) as (_ & _ & Hs & _).
  cbn. now rewrite Hs.
Qed.

Ltac literals :=
  repeat match goal with
         | |- context [match_lit ?l (?l ++ ?s)] => rewrite (match_lit_app l s)
         | |- context [match_lit ?l ?s] => change (match_lit l s) with (@None string)
         end.

Lemma exec_seq (R : Type) (a b : regex) (s : string) (g : option string) (k : cont R) :
  exec R (Seq a b) s g k = exec R a s g (fun s' g' => exec R b s' g' k).
Proof. reflexivity. Qed.

Lemma topic_alt (R : Type) (topic s : string) (g : option string) (k : cont R) (x : R) :
  In topic topics -> k s g = Some x ->
  exec R (alts topics) (topic ++ s) g k = Some x.
Proof.
  intros Ht Hk.
  destruct Ht as [<-|[<-|[<-|[]]]];
    cbn [alts topics exec]; literals; unfold or_else; now rewrite Hk.
Qed.

Lemma prep_alt (R : Type) (prep s : string) (g : option string) (k : cont R) (x : R) :
  In prep prepositions -> k s g = Some x ->
  exec R (alts prepositions) (prep ++ s) g k = Some x.
Proof.
  intros Hp Hk.
  destruct Hp as [<-|[<-|[<-|[]]]];
    cbn [alts prepositions exec]; literals; unfold or_else; now rewrite Hk.
Qed.

Lemma prep_starts_solid (prep s : string) :
  In prep prepositions -> starts_solid (prep ++ s) = true.
Proof. intros [<-|[<-|[<-|[]]]]; reflexivity. Qed.

(** The first pattern on "<topic> <preposition> <word>?". *)
Lemma topic_then_city_word (topic prep u : string) :
  In topic topics -> In prep prepositions ->
  letters_only u = true -> u <> EmptyString ->
  match_here topic_then_city (topic ++ " " ++ prep ++ " " ++ u ++ "?") = Some (Some u).
Proof.
  intros Ht Hp Hu Hne.
  unfold match_here.
  change topic_then_city
    with (Seq (alts topics)
              (Seq spaces (Seq (alts prepositions) (Seq spaces (Seq city_group terminator))))).
  rewrite exec_seq. apply topic_alt; [assumption|].
  change (" " ++ prep ++ " " ++ u ++ "?")%string
    with (String " " (prep ++ " " ++ u ++ "?")).
  rewrite exec_seq, spaces_one by now apply prep_starts_solid.
  rewrite exec_seq. apply prep_alt; [assumption|].
  change (" " ++ u ++ "?")%string with (String " " (u ++ "?")).
  rewrite exec_seq, spaces_one by now apply word_starts_solid.
  now apply city_and_terminator.
Qed.

End TopicCityFacts.

(** X16.  A question of the form "<topic> <preposition> <word>?", with the
    topic among weather, time, traffic, the preposition among in, for, at
    and the word made of letters in any case, yields that word as the
    city, capitalised. *)
Theorem extract_city_topic_word (topic prep word : string) :
  In topic TeamsHandler.topics ->
  In prep TeamsHandler.prepositions ->
  Intents.letters_only word = true ->
  word <> EmptyString ->
  TeamsHandler.extract_city_from_text (topic ++ " " ++ prep ++ " " ++ word ++ "?") =
  Py.Ok (PyStr.capitalize word).
Proof.
  intros Ht Hp Hw Hne.
  pose proof (CityFacts.letters_only_ascii word Hw) as Ha.
  assert (Hu : Intents.letters_only (PyStr.lower word) = true)
    by now apply CityFacts.letters_only_lower.
  assert (Hune : PyStr.lower word <> EmptyString).
  { destruct word as [|c word]; [congruence|].
    cbn [PyStr.isascii] in Ha. apply andb_prop in Ha as [Hc _].
    rewrite PyStrFacts.lower_cons by assumption. discriminate. }
  assert (Hlow : PyStr.lower (topic ++ " " ++ prep ++ " " ++ word ++ "?") =
                 (topic ++ " " ++ prep ++ " " ++ PyStr.lower word ++ "?")%string).
  { destruct Ht as [<-|[<-|[<-|[]]]]; destruct Hp as [<-|[<-|[<-|[]]]];
      cbn [append]; rewrite !PyStrFacts.lower_cons by reflexivity;
      rewrite TopicCityFacts.lower_app by assumption; reflexivity. }
  unfold TeamsHandler.extract_city_from_text. rewrite Hlow.
  change TeamsHandler.common_patterns
    with (Matching.topic_then_city :: tl TeamsHandler.common_patterns).
  cbn [TeamsHandler.first_pattern].
  rewrite (TopicCityFacts.search_here _ _ _
             (TopicCityFacts.topic_then_city_word topic prep (PyStr.lower word) Ht Hp Hu Hune)).
  cbn [Py.bind].
  rewrite TopicCityFacts.capitalize_words_word by assumption.
  now rewrite TopicCityFacts.capitalize_lower.
Qed.

Lemma extract_city_topic_word_witness :
  In "time" TeamsHandler.topics /\
  In "at" TeamsHandler.prepositions /\
  Intents.letters_only "ToKyO" = true /\
  "ToKyO" <> EmptyString /\
  TeamsHandler.extract_city_from_text ("time" ++ " " ++ "at" ++ " " ++ "ToKyO" ++ "?") =
  Py.Ok (PyStr.capitalize "ToKyO").
Proof.
  assert (Ht : In "time" TeamsHandler.topics) by (simpl; tauto).
  assert (Hp : In "at" TeamsHandler.prepositions) by (simpl; tauto).
  assert (Hne : "ToKyO" <> EmptyString) by discriminate.
  split; [exact Ht|]. split; [exact Hp|]. split; [reflexivity|]. split; [exact Hne|].
  exact (extract_city_topic_word "time" "at" "ToKyO" Ht Hp eq_refl Hne).
Defined.

(* ================================================================== *)
(** * The pipeline as a composition                                    *)
(* ================================================================== *)

Module PipelineFacts.
Import Py TeamsHandler Payloads Shapes.

(** The [try] block of [process_teams_message] on a well-formed payload, up
    to the formatting step. *)
Lemma process_teams_message_try_well_formed (env : environment) (payload : value) :
  well_formed payload = true ->
  exists intent city,
    parse_message_intent (text_of payload) = Ok (intent, city) /\
    process_teams_message_try env payload =
    bind (if adaptive_cards_importable env
          then AdaptiveCards.format_agent_response env (fst (route_to_agent env intent city))
          else bind (get (fst (route_to_agent env intent city)) "data" (VDict []))
                    (fun data =>
                       bind (get data "message" (VStr "Response generated"))
                            (fun message => Ok (plain_message (str message)))))
         (fun formatted =>
            bind (has_key formatted "attachments")
                 (fun has_attachments =>
                    bind (if negb has_attachments then Ok (VList [formatted])
                          else get formatted "attachments" VNone)
                         (fun attachments =>
                            Ok (reply env (conversation_of payload) (sender_of payload)
                                      attachments)))).
Proof.
  destruct payload as [| | | | |d|]; try discriminate.
  unfold well_formed, text_of, sender_of, conversation_of, process_teams_message_try.
  cbn [get bind].
  destruct (dict_get d "text" (VStr EmptyString)) as [| | |text| | |]; try discriminate.
  destruct (dict_get d "from" (VDict [])) as [| | | | |sender|]; try discriminate.
  destruct (dict_get d "conversation" (VDict [])) as [| | | | |conversation|]; try discriminate.
  intros _. cbn [strip_method get bind].
  destruct (TeamsHandlerFacts.parse_message_intent_total (PyStr.strip text))
    as (intent & city & Hp).
  exists intent, city. split; [exact Hp|]. rewrite Hp. reflexivity.
Qed.

Lemma process_teams_message_try_malformed (env : environment) (payload : value) :
  well_formed payload = false ->
  exists e, process_teams_message_try env payload = Raise e.
Proof.
  destruct payload as [| | | | |d|]; try (intros _; eexists; reflexivity).
  unfold well_formed, process_teams_message_try. cbn [get bind].
  destruct (dict_get d "text" (VStr EmptyString)) as [| | |text| | |];
    try (intros _; eexists; reflexivity).
  cbn [strip_method bind andb].
  destruct (dict_get d "from" (VDict [])) as [| | | | |sender|];
    try (intros _; eexists; reflexivity).
  destruct (dict_get d "conversation" (VDict [])) as [| | | | |conversation|];
    try (intros _; eexists; reflexivity).
  discriminate.
Qed.

End PipelineFacts.

(** X17.  With [adaptive_cards] importable, [process_teams_message] is the
    composition of its stages on every well-formed payload with an ASCII
    text: the reply carries exactly the card that [format_agent_response]
    makes of the envelope [route_to_agent] returns for the intent and city
    that [parse_message_intent] reads off the stripped text, and echoes
    the sender and the conversation.  The apology is returned exactly for
    the payloads that are not well formed, whatever their text.  (The
    text is ASCII because [strip] here takes ASCII white space only: the
    code also strips U+00A0 and the like, so that a text of such
    characters alone is answered with the help card.) *)
Theorem process_teams_message_composition (env : Py.environment) (payload : Py.value) :
  Py.adaptive_cards_importable env = true ->
  (Payloads.well_formed payload = false <->
   TeamsHandler.process_teams_message env payload = Shapes.apology env) /\
  (Payloads.well_formed payload = true ->
   PyStr.isascii (Payloads.text_of payload) = true ->
   exists intent city card,
     TeamsHandler.parse_message_intent (Payloads.text_of payload) = Py.Ok (intent, city) /\
     AdaptiveCards.format_agent_response env
       (fst (TeamsHandler.route_to_agent env intent city)) = Py.Ok card /\
     TeamsHandler.process_teams_message env payload =
     Shapes.reply env (Payloads.conversation_of payload) (Payloads.sender_of payload)
                  (Py.VList [card])).
Proof.
  intros Hac.
  assert (Hwf : Payloads.well_formed payload = true ->
                exists intent city card,
                  TeamsHandler.parse_message_intent (Payloads.text_of payload) =
                    Py.Ok (intent, city) /\
                  AdaptiveCards.format_agent_response env
                    (fst (TeamsHandler.route_to_agent env intent city)) = Py.Ok card /\
                  TeamsHandler.process_teams_message env payload =
                  Shapes.reply env (Payloads.conversation_of payload)
                               (Payloads.sender_of payload) (Py.VList [card])).
  { intros H.
    destruct (PipelineFacts.process_teams_message_try_well_formed env payload H)
      as (intent & city & Hp & Ht).
    destruct (FormatterFacts.format_agent_response_attachment env
                (fst (TeamsHandler.route_to_agent env intent city))) as (c & Hc & _).
    exists intent, city, (AdaptiveCards.attachment c).
    split; [exact Hp|]. split; [exact Hc|].
    unfold TeamsHandler.process_teams_message. rewrite Ht, Hac, Hc. reflexivity. }
  split; [|intros H _; exact (Hwf H)].
  destruct (Payloads.well_formed payload) eqn:E.
  - destruct (Hwf eq_refl) as (intent & city & card & _ & _ & ->).
    split; discriminate.
  - split; [intros _|reflexivity].
    destruct (PipelineFacts.process_teams_message_try_malformed env payload E) as [e He].
    unfold TeamsHandler.process_teams_message. now rewrite He.
Qed.

Lemma process_teams_message_composition_witness :
  Py.adaptive_cards_importable Properties.default_env = true /\
  (Payloads.well_formed (Properties.message_payload "help") = false <->
   TeamsHandler.process_teams_message Properties.default_env
     (Properties.message_payload "help") = Shapes.apology Properties.default_env) /\
  (Payloads.well_formed (Properties.message_payload "help") = true ->
   PyStr.isascii (Payloads.text_of (Properties.message_payload "help")) = true ->
   exists intent city card,
     TeamsHandler.parse_message_intent
       (Payloads.text_of (Properties.message_payload "help")) = Py.Ok (intent, city) /\
     AdaptiveCards.format_agent_response Properties.default_env
       (fst (TeamsHandler.route_to_agent Properties.default_env intent city)) = Py.Ok card /\
     TeamsHandler.process_teams_message Properties.default_env
       (Properties.message_payload "help") =
     Shapes.reply Properties.default_env
       (Payloads.conversation_of (Properties.message_payload "help"))
       (Payloads.sender_of (Properties.message_payload "help")) (Py.VList [card])).
Proof.
  split; [reflexivity|].
  apply (process_teams_message_composition Properties.default_env
           (Properties.message_payload "help")).
  reflexivity.
Defined.



(* ================================================================== *)
(** * Payload validation                                               *)
(* ================================================================== *)

(** X19.  [validate_teams_payload] returns [True] exactly for a dict that
    has the keys "type", "from" and "conversation" and whose type is
    "message"; on a dict it never raises.  It looks at the presence of the
    keys only: the values of "from" and "conversation" are not examined. *)
Theorem validate_teams_payload_true_iff (payload : Py.value) :
  (TeamsHandlerValidation.validate_teams_payload payload = Py.Ok true <->
   exists d,
     payload = Py.VDict d /\
     Py.dict_has d "type" = true /\
     Py.dict_has d "from" = true /\
     Py.dict_has d "conversation" = true /\
     Py.eq_str (Py.dict_get d "type" Py.VNone) "message" = true) /\
  (Shapes.is_dict payload = true ->
   exists b, TeamsHandlerValidation.validate_teams_payload payload = Py.Ok b).
Proof.
  unfold TeamsHandlerValidation.validate_teams_payload,
    TeamsHandlerValidation.required_fields.
  cbn [TeamsHandlerValidation.has_required].
  destruct payload as [| | |s|l|d|];
    try (split; [split; [discriminate|intros (d & H & _); discriminate H]|discriminate]).
  - split; [|discriminate].
    split; [|intros (d & H & _); discriminate H].
    cbn [TeamsHandler.has_key Py.bind].
    repeat (match goal with
            | |- context [PyStr.contains ?k s] => destruct (PyStr.contains k s)
            end; cbn [negb Py.bind]); discriminate.
  - split; [|discriminate].
    split; [|intros (d & H & _); discriminate H].
    cbn [TeamsHandler.has_key Py.bind].
    repeat (match goal with
            | |- context [existsb ?f l] => destruct (existsb f l)
            end; cbn [negb Py.bind]); discriminate.
  - cbn [TeamsHandler.has_key Py.bind Py.get].
    destruct (Py.dict_has d "type") eqn:Ht; cbn [negb Py.bind];
      [|split; [split; [discriminate|intros (d' & H & H' & _); injection H as <-; congruence]
               |intros _; eexists; reflexivity]].
    destruct (Py.dict_has d "from") eqn:Hf; cbn [negb Py.bind];
      [|split; [split; [discriminate|intros (d' & H & _ & H' & _); injection H as <-; congruence]
               |intros _; eexists; reflexivity]].
    destruct (Py.dict_has d "conversation") eqn:Hc; cbn [negb Py.bind];
      [|split; [split; [discriminate
                       |intros (d' & H & _ & _ & H' & _); injection H as <-; congruence]
               |intros _; eexists; reflexivity]].
    destruct (Py.eq_str (Py.dict_get d "type" Py.VNone) "message") eqn:Hm; cbn [negb].
    + split; [|intros _; eexists; reflexivity].
      split; [intros _; exists d; repeat split; assumption|reflexivity].
    + split; [|intros _; eexists; reflexivity].
      split; [discriminate|].
      intros (d' & H & _ & _ & _ & H'). injection H as <-. congruence.
Qed.

(* ================================================================== *)
(** * package_app.py: the directory, the manifest and the archive      *)
(* ================================================================== *)

Module DirectoryFacts.
Import Py PackageApp.

Lemma lookup_remove_same (fs : filesystem) (p : string) : lookup (remove fs p) p = None.
Proof.
  induction fs as [|[q e] fs IH]; simpl; [reflexivity|].
  destruct (String.eqb q p) eqn:E; [exact IH|].
  simpl. rewrite E. exact IH.
Qed.

Lemma lookup_remove_other (fs : filesystem) (p q : string) :
  p <> q -> lookup (remove fs p) q = lookup fs q.
Proof.
  intros N. induction fs as [|[r e] fs IH]; simpl; [reflexivity|].
  destruct (String.eqb r p) eqn:E.
  - apply String.eqb_eq in E. subst r.
    destruct (String.eqb p q) eqn:E'; [apply String.eqb_eq in E'; contradiction|].
    exact IH.
  - simpl. destruct (String.eqb r q); [reflexivity|exact IH].
Qed.

Lemma lookup_put_same (fs : filesystem) (p : string) (e : entry) :
  lookup (put fs p e) p = Some e.
Proof. unfold put. simpl. now rewrite String.eqb_refl. Qed.

Lemma lookup_put_other (fs : filesystem) (p q : string) (e : entry) :
  p <> q -> lookup (put fs p e) q = lookup fs q.
Proof.
  intros N. unfold put. simpl.
  destruct (String.eqb p q) eqn:E; [apply String.eqb_eq in E; contradiction|].
  now apply lookup_remove_other.
Qed.

Lemma lookup_create_same env p f w :
  lookup (files (create env p f w)) p = Some (Entry f (clock env (written w))).
Proof. apply lookup_put_same. Qed.

Lemma lookup_create_other env p q f w :
  p <> q -> lookup (files (create env p f w)) q = lookup (files w) q.
Proof. apply lookup_put_other. Qed.

Lemma exists_lookup fs p : exists_ fs p = true <-> exists e, lookup fs p = Some e.
Proof.
  unfold exists_. destruct (lookup fs p) as [e|]; split; intros H;
    try reflexivity; try discriminate; [now exists e|now destruct H].
Qed.

End DirectoryFacts.

Module ManifestFacts.
Import Py PackageApp.


(** It stops at the first field that is not there. *)
Lemma check_required_first_missing (pre post : list string) (field : string) (m : value) :
  Forall (fun f => TeamsHandler.has_key m f = Ok true) pre ->
  TeamsHandler.has_key m field = Ok false ->
  check_required (pre ++ field :: post) m =
  Raise (ValueError ("Missing required field in manifest: " ++ field)).
Proof.
  induction 1 as [|f pre Hf _ IH]; intros Hm; simpl.
  - now rewrite Hm.
  - rewrite Hf. simpl. now apply IH.
Qed.



End ManifestFacts.


(** X21.  When a required field is missing, the [ValueError] names the
    first one in the order of the list, whatever else is missing: here
    for a manifest in which [field] is the first of the required fields
    that is not there. *)
Theorem validate_manifest_first_missing
  (fs : PackageApp.filesystem) (e : PackageApp.entry) (manifest : Py.value)
  (pre post : list string) (field : string) :
  PackageApp.lookup fs "manifest.json" = Some e ->
  PackageApp.json_load (PackageApp.data e) = Py.Ok manifest ->
  PackageApp.required_fields = pre ++ field :: post ->
  Forall (fun f => TeamsHandler.has_key manifest f = Py.Ok true) pre ->
  TeamsHandler.has_key manifest field = Py.Ok false ->
  PackageApp.validate_manifest fs =
  Py.Raise (PackageApp.ValueError ("Missing required field in manifest: " ++ field)).
Proof.
  intros L J R P M. unfold PackageApp.validate_manifest.
  rewrite L, J. cbn [Py.bind]. rewrite R.
  now rewrite (ManifestFacts.check_required_first_missing pre post field manifest P M).
Qed.

(** A manifest without [version] and without [bots]: the error is about
    [version]. *)
Lemma validate_manifest_first_missing_witness :
  PackageApp.validate_manifest
    [("manifest.json",
      PackageApp.Entry
        (PackageApp.TextFile
           (Py.Ok (Py.VDict [("$schema", Py.VStr "s"); ("manifestVersion", Py.VStr "1.16")])))
        7)] =
  Py.Raise (PackageApp.ValueError "Missing required field in manifest: version").
Proof.
  eapply (validate_manifest_first_missing _ _ _
            ["$schema"; "manifestVersion"]
            ["id"; "packageName"; "developer"; "icons"; "name";
             "description"; "accentColor"; "bots"] "version").
  - reflexivity.
  - reflexivity.
  - reflexivity.
  - repeat constructor.
  - reflexivity.
Defined.

Module PackagingFacts.
Import Py PackageApp Packaging DirectoryFacts.





Lemma backup_name_not_package (t : Z) : backup_name t <> package_name.
Proof. unfold backup_name, package_name. simpl. discriminate. Qed.

Lemma backup_name_not_manifest (t : Z) : backup_name t <> "manifest.json".
Proof. unfold backup_name. simpl. discriminate. Qed.

Lemma backup_name_not_color (t : Z) : backup_name t <> "color_icon.png".
Proof. unfold backup_name. simpl. discriminate. Qed.

Lemma backup_name_not_outline (t : Z) : backup_name t <> "outline_icon.png".
Proof. unfold backup_name. simpl. discriminate. Qed.

Lemma input_name_not_package p : input_name p -> p <> package_name.
Proof. intros [-> | [-> | ->]]; discriminate. Qed.

Lemma input_name_not_backup p t : input_name p -> p <> backup_name t.
Proof.
  intros [-> | [-> | ->]] H; symmetry in H; revert H;
    [apply backup_name_not_manifest | apply backup_name_not_color
     | apply backup_name_not_outline].
Qed.

(** Moving the package to its backup leaves every other file alone. *)
Lemma lookup_back_up_other (fs : filesystem) (p : string) :
  p <> package_name -> (forall t, p <> backup_name t) ->
  lookup (back_up fs) p = lookup fs p.
Proof.
  intros N B. unfold back_up.
  destruct (lookup fs package_name) as [old|]; [|reflexivity].
  rewrite lookup_put_other by (intros H; now apply (B (mtime old))).
  apply lookup_remove_other. congruence.
Qed.

Lemma lookup_back_up_backup (fs : filesystem) (old : entry) :
  lookup fs package_name = Some old ->
  lookup (back_up fs) (backup_name (mtime old)) = Some old.
Proof. intros H. unfold back_up. rewrite H. apply lookup_put_same. Qed.

Lemma lookup_back_up_package (fs : filesystem) : lookup (back_up fs) package_name = None.
Proof.
  unfold back_up. destruct (lookup fs package_name) as [old|] eqn:E; [|exact E].
  rewrite lookup_put_other by apply backup_name_not_package.
  apply lookup_remove_same.
Qed.


(** What [create_teams_package] leaves, whatever its outcome. *)
Lemma create_teams_package_world env manifest icon_files w :
  snd (create_teams_package env manifest icon_files w) =
  World
    (put (back_up (files w)) package_name
       (Entry
          (ZipArchive
             (snd (zip_all env
                     (put (back_up (files w)) package_name
                        (Entry (ZipArchive []) (clock env (written w))))
                     icon_files)))
          (clock env (written w))))
    (S (written w)).
Proof.
  unfold create_teams_package.
  destruct (zip_all env _ icon_files) as [outcome members]. reflexivity.
Qed.

Lemma create_teams_package_outcome env manifest icon_files w :
  fst (create_teams_package env manifest icon_files w) =
  bind (fst (zip_all env
               (put (back_up (files w)) package_name
                  (Entry (ZipArchive []) (clock env (written w))))
               icon_files))
       (fun _ => Ok package_name).
Proof.
  unfold create_teams_package.
  destruct (zip_all env _ icon_files) as [outcome members]. reflexivity.
Qed.

(** The files read while the archive is open are those of the
    directory. *)
Lemma lookup_opened fs e p :
  p <> package_name -> (forall t, p <> backup_name t) ->
  lookup (put (back_up fs) package_name e) p = lookup fs p.
Proof.
  intros N B. rewrite lookup_put_other by congruence.
  now apply lookup_back_up_other.
Qed.

Lemma create_teams_package_other env manifest icon_files w p :
  p <> package_name -> (forall t, p <> backup_name t) ->
  lookup (files (snd (create_teams_package env manifest icon_files w))) p =
  lookup (files w) p.
Proof.
  intros N B. rewrite create_teams_package_world. simpl files.
  now apply lookup_opened.
Qed.

Lemma create_teams_package_package env manifest icon_files w :
  exists members,
    lookup (files (snd (create_teams_package env manifest icon_files w))) package_name =
    Some (Entry (ZipArchive members) (clock env (written w))).
Proof.
  rewrite create_teams_package_world. simpl files. eexists. apply lookup_put_same.
Qed.

(** The archive of a run that goes through, when both icons are there:
    the three files as they are in the directory. *)
Lemma zip_all_three env fs members :
  exists_ fs "color_icon.png" = true ->
  exists_ fs "outline_icon.png" = true ->
  zip_all env fs ["color_icon.png"; "outline_icon.png"] = (Ok tt, members) ->
  exists em ec eo,
    lookup fs "manifest.json" = Some em /\
    lookup fs "color_icon.png" = Some ec /\
    lookup fs "outline_icon.png" = Some eo /\
    members = [("manifest.json", data em); ("color_icon.png", data ec);
               ("outline_icon.png", data eo)].
Proof.
  intros C O. unfold zip_all, zip_icons, zip_write. rewrite C, O.
  apply exists_lookup in C. destruct C as [ec C].
  apply exists_lookup in O. destruct O as [eo O].
  rewrite C, O.
  destruct (lookup fs "manifest.json") as [em|]; [|discriminate].
  destruct (zip_date env (mtime em)) as [[]|x]; [|discriminate]. cbn [bind].
  destruct (zip_date env (mtime ec)) as [[]|x]; [|discriminate]. cbn [bind].
  destruct (zip_date env (mtime eo)) as [[]|x]; [|discriminate]. cbn [bind].
  intros [= <-]. now exists em, ec, eo.
Qed.

Lemma exists_opened fs e p :
  input_name p -> exists_ (put (back_up fs) package_name e) p = exists_ fs p.
Proof.
  intros I. unfold exists_. rewrite lookup_opened; [reflexivity| |].
  - now apply input_name_not_package.
  - intros t. now apply input_name_not_backup.
Qed.

Lemma create_teams_package_contents env manifest w p w' :
  exists_ (files w) "color_icon.png" = true ->
  exists_ (files w) "outline_icon.png" = true ->
  create_teams_package env manifest ["color_icon.png"; "outline_icon.png"] w = (Ok p, w') ->
  p = package_name /\
  exists em ec eo,
    lookup (files w) "manifest.json" = Some em /\
    lookup (files w) "color_icon.png" = Some ec /\
    lookup (files w) "outline_icon.png" = Some eo /\
    lookup (files w') package_name =
    Some (Entry (ZipArchive [("manifest.json", data em); ("color_icon.png", data ec);
                             ("outline_icon.png", data eo)])
                (clock env (written w))).
Proof.
  intros C O H.
  pose proof (create_teams_package_world env manifest ["color_icon.png"; "outline_icon.png"] w) as W.
  pose proof (create_teams_package_outcome env manifest ["color_icon.png"; "outline_icon.png"] w) as R.
  rewrite H in W, R. simpl fst in R. simpl snd in W.
  set (opened := put (back_up (files w)) package_name
                   (Entry (ZipArchive []) (clock env (written w)))) in *.
  destruct (zip_all env opened ["color_icon.png"; "outline_icon.png"]) as [outcome members] eqn:Z.
  simpl in R, W. destruct outcome as [[]|x]; [|discriminate].
  simpl in R. injection R as ->. split; [reflexivity|].
  apply zip_all_three in Z.
  - destruct Z as (em & ec & eo & M & Cc & Oo & ->).
    exists em, ec, eo.
    unfold opened in M, Cc, Oo.
    rewrite lookup_opened in M, Cc, Oo;
      try discriminate; try (intros t X; symmetry in X; revert X);
      try apply backup_name_not_manifest; try apply backup_name_not_color;
      try apply backup_name_not_outline.
    repeat split; try assumption.
    rewrite W. simpl files. apply lookup_put_same.
  - unfold opened. rewrite exists_opened; [exact C|unfold input_name; tauto].
  - unfold opened. rewrite exists_opened; [exact O|unfold input_name; tauto].
Qed.

(** [create_placeholder_icon] writes the file or raises and writes
    nothing. *)
Lemma create_placeholder_icon_cases env filename size w :
  (exists octets,
     create_placeholder_icon env filename size w =
     (Ok tt, create env filename (BinaryFile octets) w)) \/
  (exists e, create_placeholder_icon env filename size w = (Raise e, w)).
Proof.
  unfold create_placeholder_icon.
  destruct (pil_save env filename size) as [octets|e].
  - left. now exists octets.
  - destruct (is_import_error e); [left; now exists minimal_png|right; now exists e].
Qed.

Lemma check_icons_spec env todo :
  forall acc w,
    let r := check_icons env todo acc w in
    (forall p e, lookup (files w) p = Some e -> lookup (files (snd r)) p = Some e) /\
    (forall p, ~ In p (map fst todo) -> lookup (files (snd r)) p = lookup (files w) p) /\
    (forall l, fst r = Ok l ->
               l = acc ++ map fst todo /\
               forall p, In p (map fst todo) -> exists_ (files (snd r)) p = true).
Proof.
  induction todo as [|[filename size] rest IH]; intros acc w; cbn zeta.
  - simpl. split; [tauto|]. split; [tauto|].
    intros l [= <-]. rewrite app_nil_r. split; [reflexivity|tauto].
  - cbn [check_icons]. destruct (exists_ (files w) filename) eqn:E; cbn [negb].
    + specialize (IH (acc ++ [filename]) w). cbn zeta in IH.
      destruct IH as (K & U & R). split; [exact K|]. split.
      * intros p N. apply U. simpl in N. tauto.
      * intros l H. apply R in H. destruct H as [-> H]. split.
        -- now rewrite <- app_assoc.
        -- intros p [<- | I]; [|now apply H].
           apply exists_lookup in E. destruct E as [e E].
           apply exists_lookup. exists e. now apply K.
    + destruct (create_placeholder_icon_cases env filename size w)
        as [[octets ->] | [e ->]].
      * specialize (IH (acc ++ [filename]) (create env filename (BinaryFile octets) w)).
        cbn zeta in IH. destruct IH as (K & U & R).
        assert (D : forall p, p <> filename ->
                     lookup (files (create env filename (BinaryFile octets) w)) p =
                     lookup (files w) p).
        { intros p N. apply lookup_create_other. congruence. }
        split; [|split].
        -- intros p e L. apply K. rewrite D; [exact L|].
           intros ->. unfold exists_ in E. now rewrite L in E.
        -- intros p N. rewrite U by (simpl in N; tauto).
           apply D. simpl in N. intros ->. tauto.
        -- intros l H. apply R in H. destruct H as [-> H]. split.
           ++ now rewrite <- app_assoc.
           ++ intros p [<- | I]; [|now apply H].
              apply exists_lookup. eexists. apply K. apply lookup_create_same.
      * simpl. split; [tauto|]. split; [tauto|]. discriminate.
Qed.

End PackagingFacts.

(** X22.  [check_icon_files] never touches a file that is there: every
    file of the directory is found unchanged afterwards, also when a
    placeholder could not be made; no file other than the two icons is
    created; and when it returns, it returns the two icon names and both
    icons are there. *)
Theorem check_icon_files_keeps_files (env : PackageApp.packaging) (w : PackageApp.world) :
  let r := PackageApp.check_icon_files env w in
  (forall p e, PackageApp.lookup (PackageApp.files w) p = Some e ->
               PackageApp.lookup (PackageApp.files (snd r)) p = Some e) /\
  (forall p, p <> "color_icon.png" -> p <> "outline_icon.png" ->
             PackageApp.lookup (PackageApp.files (snd r)) p =
             PackageApp.lookup (PackageApp.files w) p) /\
  (forall icon_files,
     fst r = Py.Ok icon_files ->
     icon_files = ["color_icon.png"; "outline_icon.png"] /\
     PackageApp.exists_ (PackageApp.files (snd r)) "color_icon.png" = true /\
     PackageApp.exists_ (PackageApp.files (snd r)) "outline_icon.png" = true).
Proof.
  cbn zeta. unfold PackageApp.check_icon_files.
  destruct (PackagingFacts.check_icons_spec env PackageApp.icons [] w) as (K & U & R).
  split; [exact K|]. split.
  - intros p Nc No. apply U. simpl. intros [<- | [<- | []]]; congruence.
  - intros icon_files H. apply R in H. destruct H as [-> H].
    split; [reflexivity|]. split; apply H; simpl; tauto.
Qed.

(** X23.  [create_teams_package] never destroys the package it finds:
    whether it returns or raises, the old package is afterwards under the
    backup name made from its modification time, with that time; a new
    archive stands under the package name; and every file other than these
    two is as before. *)
Theorem create_teams_package_backup
  (env : PackageApp.packaging) (manifest : Py.value) (icon_files : list string)
  (w : PackageApp.world) (old : PackageApp.entry) :
  PackageApp.lookup (PackageApp.files w) PackageApp.package_name = Some old ->
  let w' := snd (PackageApp.create_teams_package env manifest icon_files w) in
  PackageApp.lookup (PackageApp.files w') (PackageApp.backup_name (PackageApp.mtime old)) =
    Some old /\
  (exists members,
     PackageApp.lookup (PackageApp.files w') PackageApp.package_name =
     Some (PackageApp.Entry (PackageApp.ZipArchive members)
                            (PackageApp.clock env (PackageApp.written w)))) /\
  (forall p, p <> PackageApp.package_name ->
             p <> PackageApp.backup_name (PackageApp.mtime old) ->
             PackageApp.lookup (PackageApp.files w') p =
             PackageApp.lookup (PackageApp.files w) p).
Proof.
  intros L. cbn zeta. split; [|split].
  - rewrite PackagingFacts.create_teams_package_world. simpl PackageApp.files.
    rewrite DirectoryFacts.lookup_put_other.
    + now apply PackagingFacts.lookup_back_up_backup.
    + intros X. symmetry in X. revert X. apply PackagingFacts.backup_name_not_package.
  - apply PackagingFacts.create_teams_package_package.
  - intros p Np Nb.
    rewrite PackagingFacts.create_teams_package_world. simpl PackageApp.files.
    rewrite DirectoryFacts.lookup_put_other by congruence.
    unfold PackageApp.back_up. rewrite L.
    rewrite DirectoryFacts.lookup_put_other by congruence.
    apply DirectoryFacts.lookup_remove_other. congruence.
Qed.

Lemma create_teams_package_backup_witness :
  PackageApp.lookup (PackageApp.files Packaging.sample_world) PackageApp.package_name =
    Some Packaging.old_package /\
  PackageApp.lookup
    (PackageApp.files
       (snd (PackageApp.create_teams_package Packaging.sample_packaging
               Packaging.sample_manifest ["color_icon.png"; "outline_icon.png"]
               Packaging.sample_world)))
    "weather-bot.backup.1600000000.zip" = Some Packaging.old_package.
Proof.
  split; [reflexivity|].
  exact (proj1 (create_teams_package_backup Packaging.sample_packaging
                  Packaging.sample_manifest ["color_icon.png"; "outline_icon.png"]
                  Packaging.sample_world Packaging.old_package eq_refl)).
Defined.

Module MainFacts.
Import Py PackageApp Packaging DirectoryFacts PackagingFacts.

Lemma check_icon_files_ok env w icon_files w1 :
  check_icon_files env w = (Ok icon_files, w1) ->
  icon_files = ["color_icon.png"; "outline_icon.png"] /\
  exists_ (files w1) "color_icon.png" = true /\
  exists_ (files w1) "outline_icon.png" = true.
Proof.
  intros H. unfold check_icon_files in H.
  destruct (check_icons_spec env icons [] w) as (_ & _ & R).
  rewrite H in R. simpl in R. destruct (R icon_files eq_refl) as [-> E].
  split; [reflexivity|]. split; apply E; tauto.
Qed.

Lemma check_icon_files_keeps env w p e :
  lookup (files w) p = Some e ->
  lookup (files (snd (check_icon_files env w))) p = Some e.
Proof.
  unfold check_icon_files.
  destruct (check_icons_spec env icons [] w) as (K & _ & _). apply K.
Qed.

(** A package made from a directory with both icons passes
    [validate_package]. *)
Lemma package_valid env manifest w p w' :
  exists_ (files w) "color_icon.png" = true ->
  exists_ (files w) "outline_icon.png" = true ->
  create_teams_package env manifest ["color_icon.png"; "outline_icon.png"] w = (Ok p, w') ->
  validate_package (files w') p = Ok true.
Proof.
  intros C O H.
  destruct (create_teams_package_contents env manifest w p w' C O H)
    as (-> & em & ec & eo & _ & _ & _ & L).
  unfold validate_package. rewrite L. reflexivity.
Qed.

Lemma create_teams_package_sync env manifest w p w' :
  exists_ (files w) "color_icon.png" = true ->
  exists_ (files w) "outline_icon.png" = true ->
  create_teams_package env manifest ["color_icon.png"; "outline_icon.png"] w = (Ok p, w') ->
  in_sync (files w').
Proof.
  intros C O H.
  destruct (create_teams_package_contents env manifest w p w' C O H)
    as (-> & em & ec & eo & M & Cc & Oo & L).
  assert (W : w' = snd (create_teams_package env manifest
                          ["color_icon.png"; "outline_icon.png"] w))
    by now rewrite H.
  exists em, ec, eo, (clock env (written w)).
  rewrite <- M, <- Cc, <- Oo, W.
  repeat split;
    try (apply create_teams_package_other;
         [discriminate
         |intros t X; symmetry in X; revert X;
          first [apply backup_name_not_manifest | apply backup_name_not_color
                | apply backup_name_not_outline]]).
  rewrite <- W. exact L.
Qed.

(** [update_manifest_url] with a URL rewrites the manifest or raises and
    leaves the directory alone. *)
Lemma update_manifest_url_cases env url w :
  String.eqb url EmptyString = false ->
  (exists manifest,
     update_manifest_url env (Some url) w =
     (Ok true, create env "manifest.json" (TextFile (Ok manifest)) w)) \/
  (exists e, update_manifest_url env (Some url) w = (Raise e, w)).
Proof.
  intros N. unfold update_manifest_url. rewrite N.
  destruct (lookup (files w) "manifest.json") as [e|];
    [|right; now exists FileNotFoundError].
  destruct (bind (json_load (data e)) (update_manifest url)) as [m|x];
    [left; now exists m|right; now exists x].
Qed.

(** Where [offer_update] leaves the world: as it was, or repackaged from
    a rewritten manifest. *)
Lemma offer_update_cases env manifest icon_files w :
  (snd (offer_update env manifest icon_files w) = w /\
   forall x, fst (offer_update env manifest icon_files w) = Ok x ->
             cloud_run_url_env env = None \/
             cloud_run_url_env env = Some EmptyString \/
             exists response, typed env = Ok response /\
                              String.eqb (PyStr.lower response) "y" = false) \/
  (exists manifest',
     offer_update env manifest icon_files w =
     (bind (fst (create_teams_package env manifest icon_files
                   (create env "manifest.json" (TextFile (Ok manifest')) w)))
           (fun _ => Ok tt),
      snd (create_teams_package env manifest icon_files
             (create env "manifest.json" (TextFile (Ok manifest')) w)))).
Proof.
  unfold offer_update.
  destruct (cloud_run_url_env env) as [url|]; [|left; split; [reflexivity|tauto]].
  destruct (String.eqb url EmptyString) eqn:U.
  { apply String.eqb_eq in U. subst url. left. split; [reflexivity|tauto]. }
  destruct (typed env) as [response|e]; [|left; split; [reflexivity|discriminate]].
  destruct (String.eqb (PyStr.lower response) "y") eqn:Y.
  - destruct (update_manifest_url_cases env url w U) as [[m ->] | [e ->]].
    + right. exists m.
      destruct (create_teams_package env manifest icon_files
                  (create env "manifest.json" (TextFile (Ok m)) w)) as [[p|e] w2];
        reflexivity.
    + left. split; [reflexivity|discriminate].
  - left. split; [reflexivity|]. intros _ _. right. right. now exists response.
Qed.

End MainFacts.

(** X24.  The branch of [main] that reports a failed package validation
    is never taken: a package made after [check_icon_files] holds the
    three required files, so [main] returns 1 only by way of an
    exception. *)
Theorem main_validation_never_fails (env : PackageApp.packaging) (w : PackageApp.world) :
  match fst (PackageApp.main_try env w) with
  | Py.Ok (Some _) => False
  | _ => True
  end.
Proof.
  unfold PackageApp.main_try.
  destruct (PackageApp.validate_manifest (PackageApp.files w)) as [manifest|e];
    [|exact I].
  destruct (PackageApp.check_icon_files env w) as [[icon_files|e] w1] eqn:C; [|exact I].
  apply MainFacts.check_icon_files_ok in C. destruct C as (-> & Ec & Eo).
  destruct (PackageApp.create_teams_package env manifest
              ["color_icon.png"; "outline_icon.png"] w1) as [[p|e] w2] eqn:P; [|exact I].
  rewrite (MainFacts.package_valid env manifest w1 p w2 Ec Eo P).
  destruct (PackageApp.offer_update env manifest _ w2) as [[[]|e] w3]; exact I.
Qed.

(** X25.  When [main] returns 0 the package is in step with the
    directory: it holds exactly [manifest.json] and the two icons, in
    this order, each with the content the file of that name has when
    [main] ends, also after the manifest was rewritten with the deployed
    URL. *)
Theorem main_package_in_sync
  (env : PackageApp.packaging) (w w' : PackageApp.world) :
  PackageApp.main env w = (0, w') ->
  exists em ec eo t,
    PackageApp.lookup (PackageApp.files w') "manifest.json" = Some em /\
    PackageApp.lookup (PackageApp.files w') "color_icon.png" = Some ec /\
    PackageApp.lookup (PackageApp.files w') "outline_icon.png" = Some eo /\
    PackageApp.lookup (PackageApp.files w') PackageApp.package_name =
    Some (PackageApp.Entry
            (PackageApp.ZipArchive
               [("manifest.json", PackageApp.data em);
                ("color_icon.png", PackageApp.data ec);
                ("outline_icon.png", PackageApp.data eo)]) t).
Proof.
  unfold PackageApp.main, PackageApp.main_try.
  destruct (PackageApp.validate_manifest (PackageApp.files w)) as [manifest|e];
    [|discriminate].
  destruct (PackageApp.check_icon_files env w) as [[icon_files|e] w1] eqn:C;
    [|discriminate].
  apply MainFacts.check_icon_files_ok in C. destruct C as (-> & Ec & Eo).
  destruct (PackageApp.create_teams_package env manifest
              ["color_icon.png"; "outline_icon.png"] w1) as [[p|e] w2] eqn:P;
    [|discriminate].
  rewrite (MainFacts.package_valid env manifest w1 p w2 Ec Eo P).
  pose proof (MainFacts.create_teams_package_sync env manifest w1 p w2 Ec Eo P) as S2.
  destruct (MainFacts.offer_update_cases env manifest
              ["color_icon.png"; "outline_icon.png"] w2) as [[W _] | [m' O]].
  - destruct (PackageApp.offer_update env manifest _ w2) as [[[]|e] w3];
      [|discriminate].
    simpl in W. subst w3. intros [= <-]. exact S2.
  - rewrite O.
    set (w3 := PackageApp.create env "manifest.json" (PackageApp.TextFile (Py.Ok m')) w2).
    destruct (PackageApp.create_teams_package env manifest
                ["color_icon.png"; "outline_icon.png"] w3) as [[q|e] w4] eqn:Q;
      [|discriminate].
    simpl. intros [= <-].
    apply (MainFacts.create_teams_package_sync env manifest w3 q w4); [| |exact Q].
    + unfold w3, PackageApp.exists_.
      rewrite DirectoryFacts.lookup_create_other by discriminate.
      destruct S2 as (em & ec & eo & t & _ & L & _). now rewrite L.
    + unfold w3, PackageApp.exists_.
      rewrite DirectoryFacts.lookup_create_other by discriminate.
      destruct S2 as (em & ec & eo & t & _ & _ & L & _). now rewrite L.
Qed.

Lemma main_package_in_sync_witness :
  PackageApp.main Packaging.sample_packaging Packaging.sample_world =
    (0, snd (PackageApp.main Packaging.sample_packaging Packaging.sample_world)) /\
  Packaging.in_sync
    (PackageApp.files
       (snd (PackageApp.main Packaging.sample_packaging Packaging.sample_world))).
Proof.
  assert (H : PackageApp.main Packaging.sample_packaging Packaging.sample_world =
              (0, snd (PackageApp.main Packaging.sample_packaging Packaging.sample_world)))
    by (vm_compute; reflexivity).
  split; [exact H|].
  exact (main_package_in_sync Packaging.sample_packaging Packaging.sample_world _ H).
Defined.





(** X27.  A run on a valid manifest goes through: if
    [validate_manifest] accepts the directory, the PIL branch raises
    nothing but [ImportError], [zipfile] takes the modification times, and
    no deployed URL is set, then [main] returns 0. *)
Theorem main_returns_0
  (env : PackageApp.packaging) (w : PackageApp.world) (manifest : Py.value) :
  PackageApp.validate_manifest (PackageApp.files w) = Py.Ok manifest ->
  (forall filename size e,
     PackageApp.pil_save env filename size = Py.Raise e -> Py.is_import_error e = true) ->
  (forall t, PackageApp.zip_date env t = Py.Ok tt) ->
  PackageApp.cloud_run_url_env env = None ->
  fst (PackageApp.main env w) = 0.
Proof.
  intros V Pil Z U.
  assert (M : exists em, PackageApp.lookup (PackageApp.files w) "manifest.json" = Some em).
  { unfold PackageApp.validate_manifest in V.
    destruct (PackageApp.lookup (PackageApp.files w) "manifest.json") as [em|];
      [now exists em|discriminate]. }
  destruct M as [em M].
  unfold PackageApp.main, PackageApp.main_try. rewrite V.
  assert (C : exists w1, PackageApp.check_icon_files env w =
                         (Py.Ok ["color_icon.png"; "outline_icon.png"], w1)).
  { assert (Ph : forall filename size w0,
               exists octets,
                 PackageApp.create_placeholder_icon env filename size w0 =
                 (Py.Ok tt, PackageApp.create env filename (PackageApp.BinaryFile octets) w0)).
    { intros filename size w0. unfold PackageApp.create_placeholder_icon.
      destruct (PackageApp.pil_save env filename size) as [octets|e] eqn:S;
        [now exists octets|].
      rewrite (Pil _ _ _ S). now exists PackageApp.minimal_png. }
    unfold PackageApp.check_icon_files, PackageApp.icons, PackageApp.check_icons.
    destruct (PackageApp.exists_ (PackageApp.files w) "color_icon.png"); cbn [negb].
    - destruct (PackageApp.exists_ (PackageApp.files w) "outline_icon.png"); cbn [negb].
      + eexists; reflexivity.
      + destruct (Ph "outline_icon.png" 32 w) as [o ->]. eexists; reflexivity.
    - destruct (Ph "color_icon.png" 192 w) as [c ->].
      destruct (PackageApp.exists_ _ "outline_icon.png"); cbn [negb].
      + eexists; reflexivity.
      + destruct (Ph "outline_icon.png" 32
                    (PackageApp.create env "color_icon.png" (PackageApp.BinaryFile c) w))
          as [o ->].
        eexists; reflexivity. }
  destruct C as [w1 C].
  pose proof (MainFacts.check_icon_files_keeps env w _ _ M) as M1.
  rewrite C in M1 |- *. simpl in M1.
  apply MainFacts.check_icon_files_ok in C. destruct C as (_ & Ec & Eo).
  assert (P : exists w2,
             PackageApp.create_teams_package env manifest
               ["color_icon.png"; "outline_icon.png"] w1 =
             (Py.Ok PackageApp.package_name, w2)).
  { unfold PackageApp.create_teams_package.
    set (opened := PackageApp.put (PackageApp.back_up (PackageApp.files w1)) _ _).
    assert (PackageApp.zip_all env opened ["color_icon.png"; "outline_icon.png"] =
            (Py.Ok tt, snd (PackageApp.zip_all env opened
                              ["color_icon.png"; "outline_icon.png"]))) as ->.
    { unfold PackageApp.zip_all, PackageApp.zip_icons, PackageApp.zip_write.
      unfold opened.
      rewrite !PackagingFacts.exists_opened by (unfold Packaging.input_name; tauto).
      rewrite Ec, Eo.
      apply DirectoryFacts.exists_lookup in Ec. destruct Ec as [ec Ec].
      apply DirectoryFacts.exists_lookup in Eo. destruct Eo as [eo Eo].
      rewrite !PackagingFacts.lookup_opened;
        try discriminate;
        try (intros t X; symmetry in X; revert X;
             first [apply PackagingFacts.backup_name_not_manifest
                   | apply PackagingFacts.backup_name_not_color
                   | apply PackagingFacts.backup_name_not_outline]).
      rewrite M1, Ec, Eo, !Z. reflexivity. }
    eexists; reflexivity. }
  destruct P as [w2 P]. rewrite P.
  rewrite (MainFacts.package_valid env manifest w1 _ w2 Ec Eo P).
  unfold PackageApp.offer_update. rewrite U. reflexivity.
Qed.

Lemma main_returns_0_witness :
  PackageApp.validate_manifest (PackageApp.files Packaging.sample_world) =
    Py.Ok Packaging.sample_manifest /\
  fst (PackageApp.main Packaging.local_packaging Packaging.sample_world) = 0.
Proof.
  assert (V : PackageApp.validate_manifest (PackageApp.files Packaging.sample_world) =
              Py.Ok Packaging.sample_manifest) by (vm_compute; reflexivity).
  split; [exact V|].
  apply (main_returns_0 Packaging.local_packaging Packaging.sample_world
           Packaging.sample_manifest V).
  - intros filename size e. simpl. intros [= <-]. reflexivity.
  - intros t. reflexivity.
  - reflexivity.
Defined.


Module DictFacts.
Import Py PackageApp Packaging.

Lemma dict_has_set (d : list (string * value)) (k k' : string) (v : value) :
  dict_has (dict_set d k v) k' = String.eqb k k' || dict_has d k'.
Proof.
  induction d as [|[a x] d IH]; simpl.
  - now rewrite orb_false_r.
  - destruct (String.eqb a k) eqn:E; simpl.
    + apply String.eqb_eq in E. subst a. now destruct (String.eqb k k').
    + rewrite IH. destruct (String.eqb a k'), (String.eqb k k'); reflexivity.
Qed.

Lemma dict_get_set (d : list (string * value)) (k k' : string) (v x : value) :
  dict_get (dict_set d k v) k' x = if String.eqb k k' then v else dict_get d k' x.
Proof.
  induction d as [|[a y] d IH]; simpl.
  - reflexivity.
  - destruct (String.eqb a k) eqn:E; simpl.
    + apply String.eqb_eq in E. subst a. now destruct (String.eqb k k').
    + rewrite IH. destruct (String.eqb a k') eqn:A; [|reflexivity].
      apply String.eqb_eq in A. subst a. now rewrite String.eqb_sym, E.
Qed.

(** Storing what is there changes nothing. *)
Lemma dict_set_same (d : list (string * value)) (k : string) (v : value) :
  dict_has d k = true -> dict_get d k VNone = v -> dict_set d k v = d.
Proof.
  induction d as [|[a y] d IH]; simpl; [discriminate|].
  destruct (String.eqb a k); simpl.
  - now intros _ ->.
  - intros H G. f_equal. now apply IH.
Qed.

Lemma dict_set_twice (d : list (string * value)) (k : string) (v v' : value) :
  dict_set (dict_set d k v) k v' = dict_set d k v'.
Proof.
  induction d as [|[a y] d IH]; simpl.
  - now rewrite String.eqb_refl.
  - destruct (String.eqb a k) eqn:E; simpl; rewrite E; [reflexivity|now rewrite IH].
Qed.

(** An assignment keeps the keys in place; a new key goes to the end. *)
Lemma keys_set (d : list (string * value)) (k : string) (v : value) :
  keys (dict_set d k v) = if dict_has d k then keys d else keys d ++ [k].
Proof.
  unfold keys. induction d as [|[a y] d IH]; simpl; [reflexivity|].
  destruct (String.eqb a k); simpl; [reflexivity|].
  rewrite IH. now destruct (dict_has d k).
Qed.

Lemma one_char_lacks_endpoint (c : ascii) :
  PyStr.contains "messagingEndpoint" (String c EmptyString) = false.
Proof.
  cbn [PyStr.contains String.prefix].
  destruct (ascii_dec "m" c); reflexivity.
Qed.

(** [update_manifest] is its three steps in a row. *)
Lemma update_manifest_parts (url : string) (m : value) :
  update_manifest url m =
  bind (setitem m "validDomains" (domains url))
       (fun m1 => bind (update_bots url m1) (update_info url)).
Proof.
  unfold update_manifest, update_bots, update_info.
  destruct (setitem m "validDomains" (VList [VStr (strip_scheme url)])) as [m1|e] eqn:E;
    unfold domains; rewrite E; cbn [bind]; [|reflexivity].
  destruct (TeamsHandler.has_key m1 "bots") as [[|]|e]; reflexivity.
Qed.

Lemma update_bots_inv (url : string) (d1 : list (string * value)) (m2 : value) :
  update_bots url (VDict d1) = Ok m2 ->
  exists d2, m2 = VDict d2 /\ bots_step url d1 d2.
Proof.
  unfold update_bots. cbn [TeamsHandler.has_key bind].
  destruct (dict_has d1 "bots") eqn:Hb.
  - cbn [getitem]. rewrite Hb. cbn [bind].
    destruct (truthy (dict_get d1 "bots" VNone)) eqn:T.
    + destruct (dict_get d1 "bots" VNone) as [| | |s|[|first rest]|bd|] eqn:G;
        try discriminate.
      * destruct s as [|c s]; [discriminate|].
        cbn [getitem0 bind TeamsHandler.has_key].
        rewrite one_char_lacks_endpoint. discriminate.
      * cbn [getitem0 bind].
        destruct first as [| | |s|l|bot|]; try discriminate.
        -- cbn [TeamsHandler.has_key bind].
           destruct (PyStr.contains "messagingEndpoint" s); discriminate.
        -- cbn [TeamsHandler.has_key bind].
           destruct (existsb _ l); discriminate.
        -- cbn [TeamsHandler.has_key bind].
           destruct (dict_has bot "messagingEndpoint") eqn:He; cbn [negb].
           ++ cbn [bind getitem]. rewrite He. cbn [bind].
              destruct (dict_get bot "messagingEndpoint" VNone)
                as [| | | | |endpoint|] eqn:Ge; try discriminate.
              cbn [setitem bind set_first]. intros [= <-].
              eexists. split; [reflexivity|].
              right. exists bot, rest, endpoint. rewrite He.
              repeat split; assumption.
           ++ cbn [setitem bind getitem].
              rewrite dict_has_set, dict_get_set.
              cbn [String.eqb Ascii.eqb Bool.eqb orb bind setitem set_first].
              rewrite dict_set_twice. intros [= <-].
              eexists. split; [reflexivity|].
              right. exists bot, rest, []. rewrite He.
              repeat split; assumption.
    + intros [= <-]. exists d1. split; [reflexivity|].
      left. split; [reflexivity|]. right. now split.
  - intros [= <-]. exists d1. split; [reflexivity|]. left. split; [reflexivity|]. now left.
Qed.

Lemma update_bots_step (url : string) (d1 d2 : list (string * value)) :
  bots_step url d1 d2 -> update_bots url (VDict d1) = Ok (VDict d2).
Proof.
  unfold update_bots. cbn [TeamsHandler.has_key bind].
  intros [[-> [Hb | [Hb T]]] | (bot & rest & endpoint & Hb & G & E & ->)].
  - now rewrite Hb.
  - rewrite Hb. cbn [getitem]. rewrite Hb. cbn [bind]. now rewrite T.
  - rewrite Hb. cbn [getitem]. rewrite Hb. cbn [bind]. rewrite G.
    cbn [truthy getitem0 bind TeamsHandler.has_key].
    destruct (dict_has bot "messagingEndpoint") eqn:He; cbn [negb bind getitem].
    + rewrite He, E. reflexivity.
    + subst endpoint. cbn [setitem bind getitem].
      rewrite dict_has_set, dict_get_set.
      cbn [String.eqb Ascii.eqb Bool.eqb orb bind setitem set_first].
      unfold with_endpoint. now rewrite dict_set_twice.
Qed.

Lemma update_info_inv (url : string) (d2 : list (string * value)) (m3 : value) :
  update_info url (VDict d2) = Ok m3 ->
  exists d3, m3 = VDict d3 /\ info_step url d2 d3.
Proof.
  unfold update_info. cbn [TeamsHandler.has_key bind].
  destruct (dict_has d2 "webApplicationInfo") eqn:Hi.
  - cbn [getitem]. rewrite Hi.
    destruct (dict_has d2 "id") eqn:Hid; [|discriminate]. cbn [bind].
    destruct (dict_get d2 "webApplicationInfo" VNone) as [| | | | |info|] eqn:Gi;
      try discriminate.
    cbn [setitem bind]. intros [= <-].
    eexists. split; [reflexivity|]. right. exists info. repeat split; assumption.
  - intros [= <-]. exists d2. split; [reflexivity|]. left. now split.
Qed.

Lemma update_info_step (url : string) (d2 d3 : list (string * value)) :
  info_step url d2 d3 -> update_info url (VDict d2) = Ok (VDict d3).
Proof.
  unfold update_info. cbn [TeamsHandler.has_key bind].
  intros [[-> Hi] | (info & Hi & Hid & Gi & ->)].
  - now rewrite Hi.
  - rewrite Hi. cbn [getitem]. rewrite Hi, Hid. cbn [bind]. rewrite Gi. reflexivity.
Qed.

(** What [update_manifest] has done when it returns. *)
Lemma update_manifest_inv (url : string) (m m' : value) :
  update_manifest url m = Ok m' ->
  exists d d2 d3,
    m = VDict d /\ m' = VDict d3 /\
    bots_step url (dict_set d "validDomains" (domains url)) d2 /\
    info_step url d2 d3.
Proof.
  rewrite update_manifest_parts.
  destruct m as [| | | | |d|]; try discriminate.
  cbn [setitem bind].
  destruct (update_bots url _) as [m2|e] eqn:B; [|discriminate].
  apply update_bots_inv in B. destruct B as (d2 & -> & Bs).
  cbn [bind]. intros I. apply update_info_inv in I. destruct I as (d3 & -> & Is).
  now exists d, d2, d3.
Qed.

(** And the other way round. *)
Lemma update_manifest_steps (url : string) (d d2 d3 : list (string * value)) :
  bots_step url (dict_set d "validDomains" (domains url)) d2 ->
  info_step url d2 d3 ->
  update_manifest url (VDict d) = Ok (VDict d3).
Proof.
  intros Bs Is. rewrite update_manifest_parts. cbn [setitem bind].
  rewrite (update_bots_step _ _ _ Bs). cbn [bind]. now apply update_info_step.
Qed.

End DictFacts.

Module UpdateFacts.
Import Py PackageApp Packaging DictFacts.

(** Reading a key of the manifest through the assignments of the
    update. *)
Ltac through_sets :=
  repeat (rewrite ?dict_has_set, ?dict_get_set;
          cbn [String.eqb Ascii.eqb Bool.eqb orb]).

Lemma bots_step_get (url : string) (d1 d2 : list (string * value)) (k : string) :
  bots_step url d1 d2 -> k <> "bots" ->
  dict_get d2 k VNone = dict_get d1 k VNone /\ dict_has d2 k = dict_has d1 k.
Proof.
  intros [[-> _] | (bot & rest & endpoint & _ & _ & _ & ->)] N; [now split|].
  rewrite dict_get_set, dict_has_set.
  destruct (String.eqb "bots" k) eqn:E; [|now split].
  apply String.eqb_eq in E. congruence.
Qed.

Lemma info_step_get (url : string) (d2 d3 : list (string * value)) (k : string) :
  info_step url d2 d3 -> k <> "webApplicationInfo" ->
  dict_get d3 k VNone = dict_get d2 k VNone /\ dict_has d3 k = dict_has d2 k.
Proof.
  intros [[-> _] | (info & _ & _ & _ & ->)] N; [now split|].
  rewrite dict_get_set, dict_has_set.
  destruct (String.eqb "webApplicationInfo" k) eqn:E; [|now split].
  apply String.eqb_eq in E. congruence.
Qed.

Lemma bots_step_keys (url : string) (d1 d2 : list (string * value)) :
  bots_step url d1 d2 -> keys d2 = keys d1.
Proof.
  intros [[-> _] | (bot & rest & endpoint & H & _ & _ & ->)]; [reflexivity|].
  now rewrite keys_set, H.
Qed.

Lemma info_step_keys (url : string) (d2 d3 : list (string * value)) :
  info_step url d2 d3 -> keys d3 = keys d2.
Proof.
  intros [[-> _] | (info & H & _ & _ & ->)]; [reflexivity|].
  now rewrite keys_set, H.
Qed.

(** A second pass finds nothing to change in the bots ... *)
Lemma bots_step_again (url : string) (d1 d2 d3 : list (string * value)) :
  bots_step url d1 d2 -> info_step url d2 d3 -> bots_step url d3 d3.
Proof.
  intros Bs Is.
  destruct (info_step_get url d2 d3 "bots" Is) as [G3 H3]; [discriminate|].
  destruct Bs as [[-> [Hb | [Hb T]]] | (bot & rest & endpoint & Hb & G & E & ->)].
  - left. split; [reflexivity|]. left. congruence.
  - left. split; [reflexivity|]. right. split; congruence.
  - right.
    rewrite dict_get_set in G3. rewrite dict_has_set in H3.
    cbn [String.eqb Ascii.eqb Bool.eqb orb] in G3, H3.
    exists (with_endpoint url bot endpoint), rest, (dict_set endpoint "url" (webhook url)).
    split; [exact H3|]. split; [exact G3|]. split.
    + unfold with_endpoint. rewrite dict_has_set, dict_get_set.
      rewrite String.eqb_refl. reflexivity.
    + unfold with_endpoint. rewrite !dict_set_twice.
      fold (with_endpoint url bot endpoint).
      symmetry. now apply dict_set_same.
Qed.

(** ... and in the application info. *)
Lemma info_step_again (url : string) (d2 d3 : list (string * value)) :
  info_step url d2 d3 -> info_step url d3 d3.
Proof.
  intros [[-> Hi] | (info & Hi & Hid & Gi & ->)].
  - left. now split.
  - right. exists (dict_set info "resource" (resource url (dict_get d2 "id" VNone))).
    rewrite !dict_has_set, !dict_get_set.
    cbn [String.eqb Ascii.eqb Bool.eqb orb].
    repeat split; try assumption.
    now rewrite !dict_set_twice.
Qed.

End UpdateFacts.

(** X28.  Putting the deployed URL into the manifest is idempotent: when
    [update_manifest_url] has rewritten the manifest for a URL, doing it
    again for the same URL goes through and leaves the manifest exactly
    as it is. *)
Theorem update_manifest_idempotent (url : string) (manifest updated : Py.value) :
  PackageApp.update_manifest url manifest = Py.Ok updated ->
  PackageApp.update_manifest url updated = Py.Ok updated.
Proof.
  intros H. apply DictFacts.update_manifest_inv in H.
  destruct H as (d & d2 & d3 & -> & -> & Bs & Is).
  pose proof (UpdateFacts.bots_step_again url _ d2 d3 Bs Is) as Bs'.
  pose proof (UpdateFacts.info_step_again url d2 d3 Is) as Is'.
  apply (DictFacts.update_manifest_steps url d3 d3 d3); [|exact Is'].
  assert (E : PackageApp.dict_set d3 "validDomains" (Packaging.domains url) = d3).
  { destruct (UpdateFacts.info_step_get url d2 d3 "validDomains" Is) as [G3 H3];
      [discriminate|].
    destruct (UpdateFacts.bots_step_get url _ d2 "validDomains" Bs) as [G2 H2];
      [discriminate|].
    apply DictFacts.dict_set_same.
    - rewrite H3, H2, DictFacts.dict_has_set. now rewrite String.eqb_refl.
    - rewrite G3, G2, DictFacts.dict_get_set. now rewrite String.eqb_refl. }
  rewrite E. exact Bs'.
Qed.

Lemma update_manifest_idempotent_witness :
  exists updated,
    PackageApp.update_manifest "https://bot.example.run.app" Packaging.sample_manifest =
      Py.Ok updated /\
    PackageApp.update_manifest "https://bot.example.run.app" updated = Py.Ok updated.
Proof.
  eexists. split; [vm_compute; reflexivity|].
  apply (update_manifest_idempotent "https://bot.example.run.app" Packaging.sample_manifest).
  vm_compute. reflexivity.
Defined.

(** X29.  [update_manifest_url] edits the manifest in place: what it
    writes is an object with the keys of the old one in their order,
    [validDomains] added at the end if it was not there; [validDomains]
    is the one-element list of the URL without its [https://]; and every
    entry other than [validDomains], [bots] and [webApplicationInfo] is
    what it was. *)
Theorem update_manifest_keeps_entries (url : string) (manifest updated : Py.value) :
  PackageApp.update_manifest url manifest = Py.Ok updated ->
  exists d d',
    manifest = Py.VDict d /\ updated = Py.VDict d' /\
    Packaging.keys d' =
      (if Py.dict_has d "validDomains" then Packaging.keys d
       else Packaging.keys d ++ ["validDomains"]) /\
    Py.dict_get d' "validDomains" Py.VNone =
      Py.VList [Py.VStr (PackageApp.strip_scheme url)] /\
    forall k, k <> "validDomains" -> k <> "bots" -> k <> "webApplicationInfo" ->
              Py.dict_get d' k Py.VNone = Py.dict_get d k Py.VNone.
Proof.
  intros H. apply DictFacts.update_manifest_inv in H.
  destruct H as (d & d2 & d3 & -> & -> & Bs & Is).
  exists d, d3. split; [reflexivity|]. split; [reflexivity|]. split; [|split].
  - rewrite (UpdateFacts.info_step_keys url d2 d3 Is).
    rewrite (UpdateFacts.bots_step_keys url _ d2 Bs).
    apply DictFacts.keys_set.
  - destruct (UpdateFacts.info_step_get url d2 d3 "validDomains" Is) as [G3 _];
      [discriminate|].
    destruct (UpdateFacts.bots_step_get url _ d2 "validDomains" Bs) as [G2 _];
      [discriminate|].
    rewrite G3, G2, DictFacts.dict_get_set. now rewrite String.eqb_refl.
  - intros k Nv Nb Ni.
    destruct (UpdateFacts.info_step_get url d2 d3 k Is Ni) as [G3 _].
    destruct (UpdateFacts.bots_step_get url _ d2 k Bs Nb) as [G2 _].
    rewrite G3, G2, DictFacts.dict_get_set.
    destruct (String.eqb "validDomains" k) eqn:E; [|reflexivity].
    apply String.eqb_eq in E. congruence.
Qed.

Lemma update_manifest_keeps_entries_witness :
  exists updated d d',
    PackageApp.update_manifest "https://bot.example.run.app" Packaging.sample_manifest =
      Py.Ok updated /\
    Packaging.sample_manifest = Py.VDict d /\ updated = Py.VDict d' /\
    Packaging.keys d' = Packaging.keys d ++ ["validDomains"] /\
    Py.dict_get d' "validDomains" Py.VNone = Py.VList [Py.VStr "bot.example.run.app"] /\
    Py.dict_get d' "id" Py.VNone = Py.dict_get d "id" Py.VNone.
Proof.
  assert (H : exists updated,
             PackageApp.update_manifest "https://bot.example.run.app"
               Packaging.sample_manifest = Py.Ok updated)
    by (eexists; vm_compute; reflexivity).
  destruct H as [updated H]. exists updated.
  destruct (update_manifest_keeps_entries
              "https://bot.example.run.app" Packaging.sample_manifest updated H)
    as (d & d' & Hd & Hd' & K & V & O).
  exists d, d'. split; [exact H|]. split; [exact Hd|]. split; [exact Hd'|].
  assert (F : Py.dict_has d "validDomains" = false).
  { injection Hd as <-. reflexivity. }
  rewrite F in K. split; [exact K|]. split; [exact V|].
  apply O; discriminate.
Defined.
